(** * Omni Source CSV Formatter: a shallow embedding of [app.py]

    The development follows the layout of the Python module:
    text helpers, [parse_date_value], [to_numeric_value], [_pick_column],
    [_format_date_series] and [process_dataframe].

    Modelling conventions.
    - A Python [str] is a Rocq [string], read as the UTF-8 bytes of the text.
      Case mapping ([str.lower]) and whitespace ([str.strip]) are modelled on
      the ASCII range, where they coincide with Python's; bytes above 127 are
      left untouched.
    - A Python [dict] is a stdpp [gmap]; a later insertion of a key that is
      already present replaces the stored value, as in Python.
    - A Python [float] is an IEEE-754 binary64 value, [spec_float] with
      precision 53 and maximal exponent 1024.
    - Exceptions are modelled by sum types: [inl] carries the error.
    - Two behaviours are not fixed by the code but by what is installed with
      it, and are parameters of the pipeline ([Platform]): whether
      [Series.astype(str)] keeps a missing value missing, and whether
      [strftime] pads [%Y] to four digits. The lenient parsers
      [pd.to_numeric] and [pd.to_datetime] are parameters as well. *)

From Stdlib Require Import ZArith String Ascii List Bool Lia.
From Stdlib Require Import Floats.SpecFloat.
From stdpp Require Import base option list gmap strings.

Import ListNotations.
Local Open Scope string_scope.
Local Open Scope list_scope.

(** ** Text primitives of Python's [str] *)

Module PyStr.

Definition code (c : ascii) : N := N_of_ascii c.

Definition in_range (lo hi : N) (c : ascii) : bool :=
  (N.leb lo (code c) && N.leb (code c) hi)%bool.

(** ['A'..'Z'] *)
Definition isupper (c : ascii) : bool := in_range 65 90 c.

(** ['0'..'9'], the class [\d] on ASCII text. *)
Definition isdigit (c : ascii) : bool := in_range 48 57 c.

(** Whitespace removed by [str.strip()]: TAB LF VT FF CR, FS GS RS US, SPACE. *)
Definition isspace (c : ascii) : bool :=
  (in_range 9 13 c || in_range 28 32 c)%bool.

Definition lower_char (c : ascii) : ascii :=
  if isupper c then ascii_of_N (code c + 32) else c.

(** [s.lower()] *)
Fixpoint lower (s : string) : string :=
  match s with
  | EmptyString => EmptyString
  | String c s' => String (lower_char c) (lower s')
  end.

Fixpoint lstrip (s : string) : string :=
  match s with
  | EmptyString => EmptyString
  | String c s' => if isspace c then lstrip s' else s
  end.

Fixpoint rstrip (s : string) : string :=
  match s with
  | EmptyString => EmptyString
  | String c s' =>
      match rstrip s' with
      | EmptyString => if isspace c then EmptyString else String c EmptyString
      | r => String c r
      end
  end.

(** [s.strip()] *)
Definition strip (s : string) : string := rstrip (lstrip s).

(** [s.replace(c, "")] for a one-character [c]. *)
Fixpoint remove_char (x : ascii) (s : string) : string :=
  match s with
  | EmptyString => EmptyString
  | String c s' =>
      if Ascii.eqb c x then remove_char x s' else String c (remove_char x s')
  end.

(** [s.startswith(p)] *)
Fixpoint startswith (p s : string) : bool :=
  match p, s with
  | EmptyString, _ => true
  | String _ _, EmptyString => false
  | String a p', String b s' => (Ascii.eqb a b && startswith p' s')%bool
  end.

(** [p in s] *)
Fixpoint contains (p s : string) : bool :=
  (startswith p s ||
   match s with
   | EmptyString => false
   | String _ s' => contains p s'
   end)%bool.

(** The last character, if any: what [s.endswith(c)] inspects. *)
Fixpoint last_char (s : string) : option ascii :=
  match s with
  | EmptyString => None
  | String c EmptyString => Some c
  | String _ s' => last_char s'
  end.

(** [s[:-1]] *)
Fixpoint drop_last (s : string) : string :=
  match s with
  | EmptyString => EmptyString
  | String _ EmptyString => EmptyString
  | String c s' => String c (drop_last s')
  end.

(** [sep.join(l)] *)
Fixpoint join (sep : string) (l : list string) : string :=
  match l with
  | [] => EmptyString
  | [x] => x
  | x :: rest => x ++ sep ++ join sep rest
  end.

End PyStr.

(** ** Column detection: [_pick_column] *)

Definition CUST_ID_COL_CANDIDATES : list string := ["customer_id"].
Definition TRANS_NO_COL_CANDIDATES : list string := ["transaction_number"].
Definition DATE_COL_CANDIDATES : list string := ["date"].
Definition BALANCE_COL_CANDIDATES : list string := ["balance"].

(** [c.lower().strip()] *)
Definition norm_key (c : string) : string := PyStr.strip (PyStr.lower c).

(** [c.lower().replace(" ", "")] *)
Definition squash (c : string) : string := PyStr.remove_char " " (PyStr.lower c).

(** [{c.lower().strip(): c for c in cols}]: the comprehension inserts the
    headers from left to right. *)
Definition lower_map (cols : list string) : gmap string string :=
  foldl (fun m c => <[norm_key c := c]> m) ∅ cols.

(** First loop of [_pick_column]. *)
Fixpoint exact_loop (m : gmap string string) (candidates : list string)
  : option string :=
  match candidates with
  | [] => None
  | cand :: rest =>
      match m !! norm_key cand with
      | Some c => Some c
      | None => exact_loop m rest
      end
  end.

(** Inner loop of the second phase: does some candidate occur in [low]? *)
Fixpoint some_candidate_in (low : string) (candidates : list string) : bool :=
  match candidates with
  | [] => false
  | cand :: rest =>
      if PyStr.contains (squash cand) low then true
      else some_candidate_in low rest
  end.

(** Outer loop of the second phase. *)
Fixpoint substring_loop (cols candidates : list string) : option string :=
  match cols with
  | [] => None
  | c :: rest =>
      if some_candidate_in (squash c) candidates then Some c
      else substring_loop rest candidates
  end.

Definition _pick_column (cols candidates : list string) : option string :=
  match exact_loop (lower_map cols) candidates with
  | Some c => Some c
  | None => substring_loop cols candidates
  end.

(** ** Python floats: binary64 with correctly rounded decimal input *)

Module PyFloat.

Definition prec : Z := 53.
Definition emax : Z := 1024.

Definition float := spec_float.

Definition nan : float := S754_nan.
Definition zero : float := S754_zero false.

(** The binary64 value nearest to the integer [n] (ties to even). *)
Definition of_Z (n : Z) : float := binary_normalize prec emax n 0 false.

(** The binary64 value nearest to [(-1)^neg * m * 10^e], ties to even:
    what [float()] computes from the digits of a decimal literal. *)
Definition of_decimal (neg : bool) (m e : Z) : float :=
  if (m =? 0)%Z then S754_zero neg
  else if (0 <=? e)%Z then
    binary_normalize prec emax (cond_Zopp neg (m * 10 ^ e)) 0 neg
  else
    let '(q, e', l) := SFdiv_core_binary prec emax m 0 (10 ^ (- e)) 0 in
    binary_round_aux prec emax neg q e' l.

Definition mul : float -> float -> float := SFmul prec emax.
Definition div : float -> float -> float := SFdiv prec emax.

(** [x > y], [x != y]; any comparison with NaN is unordered. *)
Definition gt (x y : float) : bool := SFltb y x.
Definition ne (x y : float) : bool := negb (SFeqb x y).

Definition isnan (x : float) : bool :=
  match x with S754_nan => true | _ => false end.

(** Round to the nearest integer, ties to even ([numpy.rint]). *)
Definition rint (x : float) : float :=
  match x with
  | S754_finite s m e =>
      if (0 <=? e)%Z then x
      else
        let '(mrs, _) := shr (Build_shr_record (Zpos m) false false) e (- e) in
        let n := round_nearest_even (shr_m mrs) (loc_of_shr_record mrs) in
        if (n =? 0)%Z then S754_zero s
        else binary_normalize prec emax (cond_Zopp s n) 0 s
  | _ => x
  end.

(** [numpy.round(x, 2)]: scale by [10**2], [rint], scale back. *)
Definition round2 (x : float) : float :=
  div (rint (mul x (of_Z 100))) (of_Z 100).

(** *** The literal grammar accepted by [float(str)] *)

Definition digit_val (c : ascii) : Z := Z.of_N (PyStr.code c) - 48.

(** Reads a maximal run of digits: accumulated value, number of digits
    read, and the remaining text. *)
Fixpoint span_digits (s : string) (acc n : Z) : Z * Z * string :=
  match s with
  | String c s' =>
      if PyStr.isdigit c then span_digits s' (acc * 10 + digit_val c) (n + 1)
      else (acc, n, s)
  | EmptyString => (acc, n, s)
  end.

Definition split_sign (s : string) : bool * string :=
  match s with
  | String "-" r => (true, r)
  | String "+" r => (false, r)
  | _ => (false, s)
  end.

Definition is_exp_mark (c : ascii) : bool :=
  (Ascii.eqb c "e" || Ascii.eqb c "E")%bool.

(** [number [exponent]] of the grammar, as decimal mantissa and exponent;
    the whole text has to be consumed. *)
Definition parse_number (s : string) : option (Z * Z) :=
  let '(ip, ni, r1) := span_digits s 0 0 in
  let '(m, nf, r2) :=
    match r1 with
    | String "." r => span_digits r ip 0
    | _ => (ip, 0%Z, r1)
    end in
  if (ni + nf =? 0)%Z then None
  else
    match r2 with
    | EmptyString => Some (m, (- nf)%Z)
    | String c r3 =>
        if is_exp_mark c then
          let '(eneg, r4) := split_sign r3 in
          let '(ev, ne, r5) := span_digits r4 0 0 in
          if (ne =? 0)%Z then None
          else
            match r5 with
            | EmptyString => Some (m, (cond_Zopp eneg ev - nf)%Z)
            | String _ _ => None
            end
        else None
    end.

(** ["inf"], ["infinity"] and ["nan"], in any letter case. *)
Definition parse_inf_or_nan (neg : bool) (s : string) : option float :=
  let low := PyStr.lower s in
  if (String.eqb low "inf" || String.eqb low "infinity")%bool
  then Some (S754_infinity neg)
  else if String.eqb low "nan" then Some nan
  else None.

(** Underscores may only separate two digits; they are dropped. *)
Fixpoint drop_underscores (prev : ascii) (s : string) : option string :=
  match s with
  | EmptyString => if Ascii.eqb prev "_" then None else Some EmptyString
  | String c s' =>
      if Ascii.eqb c "_" then
        if PyStr.isdigit prev then drop_underscores c s' else None
      else if (Ascii.eqb prev "_" && negb (PyStr.isdigit c))%bool then None
      else option_map (String c) (drop_underscores c s')
  end.

(** [float(s)] for a string [s]; [None] models [ValueError]. *)
Definition of_string (s : string) : option float :=
  match drop_underscores Ascii.zero s with
  | None => None
  | Some s1 =>
      let '(neg, body) := split_sign (PyStr.strip s1) in
      match parse_number body with
      | Some (m, e) => Some (of_decimal neg m e)
      | None => parse_inf_or_nan neg body
      end
  end.

End PyFloat.

(** ** Calendar dates, [datetime.strptime] and [strftime] *)

Module PyDate.

Record date := mkdate { year : Z; month : Z; day : Z }.

Definition is_leap (y : Z) : bool :=
  ((y mod 4 =? 0) && (negb (y mod 100 =? 0) || (y mod 400 =? 0)))%Z%bool.

Definition days_in_month (y m : Z) : Z :=
  if (m =? 2)%Z then (if is_leap y then 29 else 28)%Z
  else if ((m =? 4) || (m =? 6) || (m =? 9) || (m =? 11))%Z%bool then 30%Z
  else 31%Z.

(** The checks of the [datetime.date] constructor: [MINYEAR = 1],
    [MAXYEAR = 9999]. *)
Definition valid (d : date) : bool :=
  ((1 <=? year d) && (year d <=? 9999) &&
   (1 <=? month d) && (month d <=? 12) &&
   (1 <=? day d) && (day d <=? days_in_month (year d) (month d)))%Z%bool.

(** *** Format strings *)

Inductive directive :=
| dir_d                (* %d *)
| dir_m                (* %m *)
| dir_Y                (* %Y *)
| lit (c : ascii).     (* a literal separator *)

Definition fmt_dmy_slash : list directive := [dir_d; lit "/"; dir_m; lit "/"; dir_Y].
Definition fmt_dmy_dash  : list directive := [dir_d; lit "-"; dir_m; lit "-"; dir_Y].
Definition fmt_ymd_dash  : list directive := [dir_Y; lit "-"; dir_m; lit "-"; dir_d].
Definition fmt_mdy_slash : list directive := [dir_m; lit "/"; dir_d; lit "/"; dir_Y].
Definition fmt_ymd_slash : list directive := [dir_Y; lit "/"; dir_m; lit "/"; dir_d].
Definition fmt_dmy_dot   : list directive := [dir_d; lit "."; dir_m; lit "."; dir_Y].

(** *** [strptime]: the format is compiled to a regular expression whose
    alternatives are tried from left to right with backtracking. Each
    matcher lists, in that priority order, the value read and the text left. *)

Definition dv := PyFloat.digit_val.

Definition one (p : ascii -> bool) (s : string) : list (Z * string) :=
  match s with
  | String a r => if p a then [(dv a, r)] else []
  | _ => []
  end.

Definition two (p q : ascii -> bool) (s : string) : list (Z * string) :=
  match s with
  | String a (String b r) =>
      if (p a && q b)%bool then [((10 * dv a + dv b)%Z, r)] else []
  | _ => []
  end.

Definition chr (x : ascii) (c : ascii) : bool := Ascii.eqb c x.
Definition rng (lo hi : ascii) (c : ascii) : bool :=
  PyStr.in_range (PyStr.code lo) (PyStr.code hi) c.

(** [3[0-1]|[1-2]\d|0[1-9]|[1-9]| [1-9]] *)
Definition match_d (s : string) : list (Z * string) :=
  two (chr "3") (rng "0" "1") s ++
  two (rng "1" "2") PyStr.isdigit s ++
  two (chr "0") (rng "1" "9") s ++
  one (rng "1" "9") s ++
  match s with
  | String a r => if chr " " a then one (rng "1" "9") r else []
  | EmptyString => []
  end.

(** [1[0-2]|0[1-9]|[1-9]] *)
Definition match_m (s : string) : list (Z * string) :=
  two (chr "1") (rng "0" "2") s ++
  two (chr "0") (rng "1" "9") s ++
  one (rng "1" "9") s.

(** [\d\d\d\d] *)
Definition match_Y (s : string) : list (Z * string) :=
  match s with
  | String a (String b (String c (String e r))) =>
      if (PyStr.isdigit a && PyStr.isdigit b && PyStr.isdigit c && PyStr.isdigit e)%bool
      then [((1000 * dv a + 100 * dv b + 10 * dv c + dv e)%Z, r)]
      else []
  | _ => []
  end.

(** The groups found so far. *)
Definition fields_init : date := mkdate 1900 1 1.

Definition step (it : directive) (s : string) (f : date) : list (date * string) :=
  match it with
  | dir_d => map (fun '(v, r) => (mkdate (year f) (month f) v, r)) (match_d s)
  | dir_m => map (fun '(v, r) => (mkdate (year f) v (day f), r)) (match_m s)
  | dir_Y => map (fun '(v, r) => (mkdate v (month f) (day f), r)) (match_Y s)
  | lit c =>
      match s with
      | String a r => if Ascii.eqb a c then [(f, r)] else []
      | EmptyString => []
      end
  end.

(** All matches of the compiled format at the start of [s], best first. *)
Fixpoint regex_match (fmt : list directive) (s : string) (f : date)
  : list (date * string) :=
  match fmt with
  | [] => [(f, s)]
  | it :: rest =>
      flat_map (fun '(f', r) => regex_match rest r f') (step it s f)
  end.

(** [datetime.strptime(s, fmt).date()]; [None] models [ValueError]:
    no match, unconverted data after the match, or an impossible date. *)
Definition strptime (s : string) (fmt : list directive) : option date :=
  match regex_match fmt s fields_init with
  | [] => None
  | (f, EmptyString) :: _ => if valid f then Some f else None
  | (_, String _ _) :: _ => None
  end.

(** *** [strftime] *)

Definition digit_char (k : Z) : ascii := ascii_of_N (Z.to_N (48 + k)).

Definition pad2 (n : Z) : string :=
  String (digit_char (n / 10)) (String (digit_char (n mod 10)) EmptyString).

Definition pad4 (n : Z) : string :=
  String (digit_char (n / 1000))
    (String (digit_char (n / 100 mod 10))
       (String (digit_char (n / 10 mod 10))
          (String (digit_char (n mod 10)) EmptyString))).

Definition render_item (d : date) (it : directive) : string :=
  match it with
  | dir_d => pad2 (day d)
  | dir_m => pad2 (month d)
  | dir_Y => pad4 (year d)
  | lit c => String c EmptyString
  end.

(** The date written in the layout of [fmt] with zero-padded fields: day
    and month on two digits, the year on four. This is how a date text is
    written down, not a function of the program. *)
Definition zero_padded (d : date) (fmt : list directive) : string :=
  fold_right (fun it acc => (render_item d it ++ acc)%string) EmptyString fmt.

Definition pad3 (n : Z) : string :=
  String (digit_char (n / 100))
    (String (digit_char (n / 10 mod 10))
       (String (digit_char (n mod 10)) EmptyString)).

(** [%Y] of [strftime]. Where the platform pads ([pads = true]) the year
    takes four digits; CPython 3.11 over glibc does not pad, and writes a
    year below 1000 without leading zeros. From year 1000 on the two
    agree. *)
Definition year_text (pads : bool) (y : Z) : string :=
  if ((1000 <=? y)%Z || pads)%bool then pad4 y
  else if (y <? 10)%Z then String (digit_char y) EmptyString
  else if (y <? 100)%Z then pad2 y
  else pad3 y.

Definition strftime_item (pads : bool) (d : date) (it : directive) : string :=
  match it with
  | dir_d => pad2 (day d)
  | dir_m => pad2 (month d)
  | dir_Y => year_text pads (year d)
  | lit c => String c EmptyString
  end.

(** [d.strftime(fmt)] *)
Definition strftime (pads : bool) (d : date) (fmt : list directive) : string :=
  fold_right (fun it acc => (strftime_item pads d it ++ acc)%string) EmptyString fmt.

End PyDate.

(** ** Cells, frames and the pipeline *)

(** Missing markers other than the float NaN: [None], [pd.NaT], [pd.NA]. *)
Inductive marker := py_None | pd_NaT | pd_NA.

(** A raw cell is a missing marker or a value, which the pipeline only ever
    reads through its text form [str(x)]. [Missing] is the float NaN that
    [read_csv] and [read_excel] store for an empty field; [Absent] is one of
    the other markers. *)
Inductive cell :=
| Missing
| Absent (m : marker)
| Val (text : string).

Definition pd_isna (x : cell) : bool :=
  match x with Val _ => false | Missing | Absent _ => true end.

Definition marker_text (m : marker) : string :=
  match m with py_None => "None" | pd_NaT => "NaT" | pd_NA => "<NA>" end.

(** Python's [str(x)]. *)
Definition str (x : cell) : string :=
  match x with Missing => "nan" | Absent m => marker_text m | Val s => s end.

(** What the code leaves to the installed pandas and C library.
    [astype_str_keeps_missing]: [Series.astype(str)] keeps a missing value
    missing (pandas 3) instead of turning it into its text (pandas before 3).
    [strftime_pads_year]: [%Y] is written on four digits for every year. *)
Record Platform := mkplatform {
  astype_str_keeps_missing : bool;
  strftime_pads_year : bool
}.

(** [s.astype(str)], per cell; [None] is a value that is still missing. *)
Definition astype_str (keeps : bool) (x : cell) : option string :=
  match x with
  | Val s => Some s
  | Missing | Absent _ => if keeps then None else Some (str x)
  end.

(** Result of [to_numeric_value]: [pd.NA] or a Python float. *)
Inductive numeric :=
| NA
| Float (f : PyFloat.float).

(** A frame as read from the upload: header names, and the rows below them.
    A row shorter than the header is missing its last cells. The header
    names are texts and pairwise distinct, as [read_csv] and [read_excel]
    deliver them; [df[col]] is then the one column under that header. *)
Record DataFrame := mkframe {
  columns : list string;
  rows : list (list cell)
}.

Fixpoint index_of (col : string) (cols : list string) : nat :=
  match cols with
  | [] => 0
  | c :: rest => if String.eqb c col then 0 else S (index_of col rest)
  end.

(** The cell of [row] under the header [col]. *)
Definition cell_at (df : DataFrame) (col : string) (row : list cell) : cell :=
  nth (index_of col (columns df)) row Missing.

(** [df[col]] for a header [col] of the frame. *)
Definition getitem (df : DataFrame) (col : string) : list cell :=
  map (cell_at df col) (rows df).

(** The frame returned by [process_dataframe], columns in
    [REQUIRED_OUTPUT_ORDER]. A Float64 entry is [None] for [<NA>]; a
    document number is [None] where [astype(str)] left it missing. *)
Record OutFrame := mkout {
  Debtor_Reference : list string;
  Transaction_Type : list string;
  Document_Number : list (option string);
  Document_Date : list string;
  Document_Balance : list (option PyFloat.float)
}.

Record Debug := mkdebug {
  detected_columns : list (string * option string);
  rows_removed_balance_0 : Z
}.

Inductive exn := ValueError (msg : string).

(** Boolean-mask selection [s.loc[mask]] followed by [reset_index]. *)
Fixpoint loc {A : Type} (s : list A) (mask : list bool) : list A :=
  match s, mask with
  | x :: s', b :: mask' => if b then x :: loc s' mask' else loc s' mask'
  | _, _ => []
  end.

(** [mask.sum()] *)
Fixpoint mask_sum (mask : list bool) : Z :=
  match mask with
  | [] => 0
  | b :: mask' => ((if b then 1 else 0) + mask_sum mask')%Z
  end.

Definition newline : string := String "010" EmptyString.

(** The pattern [(\d{6})$] tried at the start of [s]: six digits, then the
    end of the text; [$] also matches just before a newline that ends the
    text. *)
Definition six_digits_at_end (s : string) : option string :=
  match s with
  | String a (String b (String c (String d (String e (String f r))))) =>
      if (PyStr.isdigit a && PyStr.isdigit b && PyStr.isdigit c &&
          PyStr.isdigit d && PyStr.isdigit e && PyStr.isdigit f &&
          (String.eqb r EmptyString || String.eqb r newline))%bool
      then Some (String a (String b (String c (String d (String e (String f EmptyString))))))
      else None
  | _ => None
  end.

(** [re.search(r"(\d{6})$", s)]: the leftmost position where the pattern
    matches. *)
Fixpoint re_search_six (s : string) : option string :=
  match six_digits_at_end s with
  | Some g => Some g
  | None =>
      match s with
      | EmptyString => None
      | String _ s' => re_search_six s'
      end
  end.

(** [.str.extract(r"(\d{6})$", expand=False)], per entry: a missing entry
    stays missing, a text without a match becomes missing. *)
Definition str_extract_six (t : option string) : option string :=
  match t with
  | Some s => re_search_six s
  | None => None
  end.

(** [.fillna("")], per entry. *)
Definition fillna_empty (o : option string) : string :=
  match o with
  | Some g => g
  | None => ""
  end.

(** The debtor reference of a cell, read off its text form. For a missing
    cell this is [""] on every platform: kept missing by [astype(str)] it is
    filled by [fillna("")], and turned into its text it holds no digit; see
    [debtor_reference_pipeline]. *)
Definition debtor_reference (x : cell) : string :=
  match re_search_six (str x) with
  | Some g => g
  | None => ""
  end.

(** [astype(str).str.strip()], per cell; a value still missing stays so. *)
Definition document_number (keeps : bool) (x : cell) : option string :=
  option_map PyStr.strip (astype_str keeps x).

(** [astype("Float64")], per entry: NaN becomes [<NA>]. *)
Definition astype_Float64 (v : numeric) : option PyFloat.float :=
  match v with
  | NA => None
  | Float f => if PyFloat.isnan f then None else Some f
  end.

(** ["INV" if pd.notna(v) and v > 0 else "CRD"] *)
Definition transaction_type (v : option PyFloat.float) : string :=
  match v with
  | Some f => if PyFloat.gt f PyFloat.zero then "INV" else "CRD"
  | None => "CRD"
  end.

(** [balance.fillna(0) != 0], per entry. *)
Definition nonzero (v : option PyFloat.float) : bool :=
  PyFloat.ne (match v with Some f => f | None => PyFloat.zero end) PyFloat.zero.

(** [balance.round(2)], per entry. *)
Definition round_balance (v : option PyFloat.float) : option PyFloat.float :=
  option_map PyFloat.round2 v.

Section Pipeline.

(** The two lenient parsers of pandas are left open: every result below
    holds whatever they accept.
    [pd_to_numeric s] is [float(pd.to_numeric(s, errors="coerce"))], with
    [None] when the call raises; a coerced failure is [Some NaN].
    [pd_to_datetime s] is [pd.to_datetime(s, dayfirst=True,
    errors="coerce").date()], with [None] for [NaT] or an exception. *)
Variable pd_to_numeric : string -> option PyFloat.float.
Variable pd_to_datetime : string -> option PyDate.date.

(** The platform the code runs on. *)
Variable pf : Platform.

Definition fmts : list (list PyDate.directive) :=
  [PyDate.fmt_dmy_slash; PyDate.fmt_dmy_dash; PyDate.fmt_ymd_dash;
   PyDate.fmt_mdy_slash; PyDate.fmt_ymd_slash; PyDate.fmt_dmy_dot].

(** The [for fmt in fmts] loop: the first format that parses wins. *)
Fixpoint try_formats (s : string) (fs : list (list PyDate.directive))
  : option PyDate.date :=
  match fs with
  | [] => None
  | fmt :: rest =>
      match PyDate.strptime s fmt with
      | Some d => Some d
      | None => try_formats s rest
      end
  end.

(** [None] is [pd.NaT]. *)
Definition parse_date_value (val : cell) : option PyDate.date :=
  if pd_isna val then None
  else
    let s := PyStr.strip (str val) in
    match try_formats s fmts with
    | Some d => Some d
    | None => pd_to_datetime s
    end.

Definition to_numeric_value (x : cell) : numeric :=
  if (pd_isna x || String.eqb (PyStr.strip (str x)) "")%bool then NA
  else
    let s := PyStr.remove_char " " (PyStr.remove_char "," (str x)) in
    let s :=
      if (PyStr.startswith "(" s &&
          match PyStr.last_char s with
          | Some c => Ascii.eqb c ")"
          | None => false
          end)%bool
      then String "-" (PyStr.drop_last (match s with
                                        | String _ t => t
                                        | EmptyString => EmptyString
                                        end))
      else s in
    match PyFloat.of_string s with
    | Some f => Float f
    | None =>
        match pd_to_numeric s with
        | Some f => Float f
        | None => NA
        end
    end.

Definition render_date (d : option PyDate.date) : string :=
  match d with
  | Some d => PyDate.strftime (strftime_pads_year pf) d PyDate.fmt_dmy_slash
  | None => ""
  end.

Definition _format_date_series (s : list cell) : list string :=
  map render_date (map parse_date_value s).

Definition key_customer_id : string := "customer_id → Debtor Reference".
Definition key_transaction_number : string := "transaction_number → Document Number".
Definition key_date : string := "date → Document Date".
Definition key_balance : string := "balance → Document Balance".

(** [[k for k, v in d.items() if v is None]] *)
Fixpoint none_keys (d : list (string * option string)) : list string :=
  match d with
  | [] => []
  | (k, None) :: rest => k :: none_keys rest
  | (_, Some _) :: rest => none_keys rest
  end.

Definition process_dataframe (df : DataFrame) : exn + (OutFrame * Debug) :=
  let cust_id_col := _pick_column (columns df) CUST_ID_COL_CANDIDATES in
  let doc_no_col := _pick_column (columns df) TRANS_NO_COL_CANDIDATES in
  let doc_date_col := _pick_column (columns df) DATE_COL_CANDIDATES in
  let balance_col := _pick_column (columns df) BALANCE_COL_CANDIDATES in
  let detected :=
    [(key_customer_id, cust_id_col);
     (key_transaction_number, doc_no_col);
     (key_date, doc_date_col);
     (key_balance, balance_col)] in
  let missing := none_keys detected in
  match cust_id_col, doc_no_col, doc_date_col, balance_col with
  | Some cust_id, Some doc_no, Some doc_date, Some bal =>
      let balance :=
        map astype_Float64 (map to_numeric_value (getitem df bal)) in
      let out :=
        {| Debtor_Reference :=
             map (fun x => fillna_empty
                             (str_extract_six
                                (astype_str (astype_str_keeps_missing pf) x)))
               (getitem df cust_id);
           Transaction_Type := map transaction_type balance;
           Document_Number :=
             map (document_number (astype_str_keeps_missing pf)) (getitem df doc_no);
           Document_Date := _format_date_series (getitem df doc_date);
           Document_Balance := map round_balance balance |} in
      let nonzero_mask := map nonzero balance in
      let removed := (Z.of_nat (length balance) - mask_sum nonzero_mask)%Z in
      inr ({| Debtor_Reference := loc (Debtor_Reference out) nonzero_mask;
              Transaction_Type := loc (Transaction_Type out) nonzero_mask;
              Document_Number := loc (Document_Number out) nonzero_mask;
              Document_Date := loc (Document_Date out) nonzero_mask;
              Document_Balance := loc (Document_Balance out) nonzero_mask |},
           {| detected_columns := detected;
              rows_removed_balance_0 := removed |})
  | _, _, _, _ =>
      (* [if missing: raise ...]: some detection is [None] here *)
      inl (ValueError ("Missing required columns: " ++ PyStr.join ", " missing))
  end.

End Pipeline.

(** ** Row views of the frames, used to state the row-wise properties *)

Record OutRow := mkrow {
  row_debtor : string;
  row_type : string;
  row_number : option string;
  row_date : string;
  row_balance : option PyFloat.float
}.

Fixpoint zip_rows (a b : list string) (c : list (option string)) (d : list string)
         (e : list (option PyFloat.float))
  : list OutRow :=
  match a, b, c, d, e with
  | x1 :: a', x2 :: b', x3 :: c', x4 :: d', x5 :: e' =>
      mkrow x1 x2 x3 x4 x5 :: zip_rows a' b' c' d' e'
  | _, _, _, _, _ => []
  end.

(** The rows of an output frame, read across its five columns. *)
Definition out_rows (o : OutFrame) : list OutRow :=
  zip_rows (Debtor_Reference o) (Transaction_Type o) (Document_Number o)
    (Document_Date o) (Document_Balance o).

Section RowView.

Variable pd_to_numeric : string -> option PyFloat.float.
Variable pd_to_datetime : string -> option PyDate.date.
Variable pf : Platform.
Variable df : DataFrame.
Variables cust_id doc_no doc_date bal : string.

(** The balance of an input row after [to_numeric_value] and the Float64
    conversion. *)
Definition normalized_balance (r : list cell) : option PyFloat.float :=
  astype_Float64 (to_numeric_value pd_to_numeric (cell_at df bal r)).

(** The row passes the filter [balance.fillna(0) != 0]. *)
Definition survives (r : list cell) : bool := nonzero (normalized_balance r).

(** What the five column expressions compute on one input row. *)
Definition row_of (r : list cell) : OutRow :=
  {| row_debtor := debtor_reference (cell_at df cust_id r);
     row_type := transaction_type (normalized_balance r);
     row_number := document_number (astype_str_keeps_missing pf) (cell_at df doc_no r);
     row_date := render_date pf (parse_date_value pd_to_datetime (cell_at df doc_date r));
     row_balance := round_balance (normalized_balance r) |}.

End RowView.

(** A float is strictly positive: a positive finite number or [+inf]. *)
Definition positive_float (f : PyFloat.float) : Prop :=
  match f with
  | S754_finite false _ _ | S754_infinity false => True
  | _ => False
  end.

(** A float is a zero of either sign. *)
Definition zero_float (f : PyFloat.float) : Prop :=
  match f with
  | S754_zero _ => True
  | _ => False
  end.

(** [p] occurs in [s] as a contiguous piece. *)
Definition substring_of (p s : string) : Prop :=
  exists a b : string, s = (a ++ p ++ b)%string.

(** A text made of exactly six ASCII digits. *)
Definition six_digits (g : string) : Prop :=
  exists a b c d e f : ascii,
    g = String a (String b (String c (String d (String e (String f EmptyString))))) /\
    PyStr.isdigit a = true /\ PyStr.isdigit b = true /\ PyStr.isdigit c = true /\
    PyStr.isdigit d = true /\ PyStr.isdigit e = true /\ PyStr.isdigit f = true.

(** The header stored under key [k] once all of [cols] are inserted: the
    last header of [cols] with that key. *)
Fixpoint last_with_key (k : string) (cols : list string) : option string :=
  match cols with
  | [] => None
  | c :: rest =>
      match last_with_key k rest with
      | Some h => Some h
      | None => if String.eqb (norm_key c) k then Some c else None
      end
  end.

(** The human-readable keys of the logical fields that are not detected,
    in the order of the diagnostics mapping. *)
Definition key_if_absent (k : string) (v : option string) : list string :=
  match v with None => [k] | Some _ => [] end.

Definition absent_keys (cols : list string) : list string :=
  key_if_absent key_customer_id (_pick_column cols CUST_ID_COL_CANDIDATES) ++
  key_if_absent key_transaction_number (_pick_column cols TRANS_NO_COL_CANDIDATES) ++
  key_if_absent key_date (_pick_column cols DATE_COL_CANDIDATES) ++
  key_if_absent key_balance (_pick_column cols BALANCE_COL_CANDIDATES).

(** [pd.isna] of a result of [to_numeric_value]: "no value". *)
Definition no_value (v : numeric) : bool :=
  match v with
  | NA => true
  | Float f => PyFloat.isnan f
  end.

(** The float [f] is exactly the rational [n / d] (for [d > 0]). *)
Definition has_value (f : PyFloat.float) (n d : Z) : Prop :=
  match f with
  | S754_zero _ => n = 0%Z
  | S754_finite s m e =>
      if (0 <=? e)%Z then (cond_Zopp s (Z.pos m) * 2 ^ e * d = n)%Z
      else (cond_Zopp s (Z.pos m) * d = n * 2 ^ (- e))%Z
  | _ => False
  end.

(** The text is wrapped in parentheses around [inner]. *)
Definition wrapped (s inner : string) : Prop :=
  s = (String "(" inner ++ String ")" EmptyString)%string.

(** The sentence of the specification about the debtor reference, for one
    cell: the last six characters when they are digits, the empty text when
    the text has no six-digit ending. *)
Definition debtor_reference_as_specified (x : cell) : Prop :=
  (forall p g, six_digits g -> str x = (p ++ g)%string -> debtor_reference x = g) /\
  ((forall p g, six_digits g -> str x <> (p ++ g)%string) -> debtor_reference x = "").

(** Frames used as running examples. *)
Definition sample_frame : DataFrame :=
  mkframe ["Customer_ID"; "Transaction_Number"; "Date"; "Balance"]
    [[Val "CUST000123456"; Val "TXN1"; Val "07/03/2024"; Val "1,200.00"];
     [Val "CUST000000001"; Val "TXN2"; Val "2024-01-01"; Val "0"];
     [Val "CUST000000002"; Missing; Val "2024-03-07"; Val "(50)"];
     [Val "AB12"; Val " TXN4 "; Val "n/a"; Val "n/a"]].

Definition small_balance_frame : DataFrame :=
  mkframe ["customer_id"; "transaction_number"; "date"; "balance"]
    [[Val "CUST000123456"; Val "TXN1"; Val "07/03/2024"; Val "0.004"]].

(** Lenient parsers that recognise nothing. *)
Definition no_numeric : string -> option PyFloat.float := fun _ => Some PyFloat.nan.
Definition no_datetime : string -> option PyDate.date := fun _ => None.

(** Two platforms: pandas before 3 and pandas 3, both on glibc with a
    CPython that does not pad [%Y]. *)
Definition pandas2_glibc : Platform :=
  {| astype_str_keeps_missing := false; strftime_pads_year := false |}.
Definition pandas3_glibc : Platform :=
  {| astype_str_keeps_missing := true; strftime_pads_year := false |}.


(** The compiled format matches at the start of [s], and its best match is
    [x]. *)
Definition best_match (fmt : list PyDate.directive) (s : string)
           (f : PyDate.date) (x : PyDate.date * string) : Prop :=
  exists l, PyDate.regex_match fmt s f = x :: l.

(** Two texts that differ at most in letter case. *)
Definition same_up_to_case (a b : string) : Prop := PyStr.lower a = PyStr.lower b.

(** A float is strictly negative: a negative finite number or [-inf]. *)
Definition negative_float (f : PyFloat.float) : Prop :=
  match f with
  | S754_finite true _ _ | S754_infinity true => True
  | _ => False
  end.

(** A text has no whitespace at either end. *)
Definition trimmed (s : string) : Prop :=
  (forall a t, s = String a t -> PyStr.isspace a = false) /\
  (forall c, PyStr.last_char s = Some c -> PyStr.isspace c = false).

(** The shape every output row has. *)
Definition well_formed_row (o : OutRow) : Prop :=
  (row_debtor o = "" \/ six_digits (row_debtor o)) /\
  (row_type o = "INV" \/ row_type o = "CRD") /\
  (forall n, row_number o = Some n -> trimmed n) /\
  (row_date o = "" \/ (7 <= String.length (row_date o) <= 10)%nat) /\
  (exists f, row_balance o = Some f).

(** *** Independent readings of the two normal forms of [_pick_column] *)

(** A text made of whitespace only. *)
Definition all_whitespace (s : string) : Prop :=
  Forall (fun a => PyStr.isspace a = true) (list_ascii_of_string s).

(** [t] is [s] without the whitespace at its two ends. *)
Definition trim_of (s t : string) : Prop :=
  trimmed t /\
  exists l r, s = (l ++ t ++ r)%string /\ all_whitespace l /\ all_whitespace r.

(** [t] is [s] with every space character taken out. *)
Definition unspaced_of (s t : string) : Prop :=
  list_ascii_of_string t
  = List.filter (fun a => negb (Ascii.eqb a " ")) (list_ascii_of_string s).

(** The candidate's lower-cased, trimmed form equals the lower-cased,
    trimmed header. *)
Definition exact_alias (h cand : string) : Prop :=
  exists k, trim_of (PyStr.lower h) k /\ trim_of (PyStr.lower cand) k.

(** The space-stripped lower-cased header contains the space-stripped
    lower-cased candidate. *)
Definition contains_alias (h cand : string) : Prop :=
  exists h' c',
    unspaced_of (PyStr.lower h) h' /\ unspaced_of (PyStr.lower cand) c' /\
    substring_of c' h'.

(** A candidate alias has an exact match among the headers. *)
Definition exact_match (cols : list string) (cand : string) : Prop :=
  exists h, h ∈ cols /\ exact_alias h cand.

(** Some candidate alias occurs inside header [h], spaces and case aside. *)
Definition substring_match (candidates : list string) (h : string) : Prop :=
  exists cand, cand ∈ candidates /\ contains_alias h cand.

(** The sentence about a missing transaction number, for every platform:
    the document number of such an output row is the text ["nan"]. *)
Definition missing_document_number_as_specified : Prop :=
  forall (pd_to_numeric : string -> option PyFloat.float)
         (pd_to_datetime : string -> option PyDate.date) (pf : Platform)
         (df : DataFrame) (out : OutFrame) (dbg : Debug) (doc_no bal : string),
    process_dataframe pd_to_numeric pd_to_datetime pf df = inr (out, dbg) ->
    _pick_column (columns df) TRANS_NO_COL_CANDIDATES = Some doc_no ->
    _pick_column (columns df) BALANCE_COL_CANDIDATES = Some bal ->
    Forall2
      (fun r o => pd_isna (cell_at df doc_no r) = true -> row_number o = Some "nan")
      (List.filter (survives pd_to_numeric df bal) (rows df))
      (out_rows out).

(** A day or month written without a leading zero. *)
Definition unpadded (n : Z) : string :=
  if (n <? 10)%Z then String (PyDate.digit_char n) EmptyString else PyDate.pad2 n.

Definition render_item_unpadded (d : PyDate.date) (it : PyDate.directive) : string :=
  match it with
  | PyDate.dir_d => unpadded (PyDate.day d)
  | PyDate.dir_m => unpadded (PyDate.month d)
  | PyDate.dir_Y => PyDate.pad4 (PyDate.year d)
  | PyDate.lit c => String c EmptyString
  end.

(** The date written in the layout of [fmt], day and month without leading
    zeros. *)
Definition strftime_unpadded (d : PyDate.date) (fmt : list PyDate.directive) : string :=
  fold_right (fun it acc => (render_item_unpadded d it ++ acc)%string) EmptyString fmt.

(** The text does not go on with a digit. *)
Definition no_digit_ahead (t : string) : Prop :=
  match t with
  | EmptyString => True
  | String c _ => PyStr.isdigit c = false
  end.

(** * Properties *)

Example pick_exact_mixed_case :
  _pick_column ["Date"; " Balance "; "Customer_ID"] ["balance"] = Some " Balance ".
Proof. vm_compute. reflexivity. Qed.

Example pick_substring :
  _pick_column ["Cust Name"; "Closing Balance"; "Balance B/F"] ["balance"]
  = Some "Closing Balance".
Proof. vm_compute. reflexivity. Qed.

Example pick_absent : _pick_column ["a"; "b"] ["balance"] = None.
Proof. vm_compute. reflexivity. Qed.

Example float_one_tenth :
  PyFloat.of_string "0.1" = Some (S754_finite false 7205759403792794 (-56)).
Proof. vm_compute. reflexivity. Qed.

Example float_literals :
  PyFloat.of_string "1_000.5e-1" = PyFloat.of_string " 100.05 " /\
  PyFloat.of_string "-Infinity" = Some (S754_infinity true) /\
  PyFloat.of_string "1e400" = Some (S754_infinity false) /\
  PyFloat.of_string "1e-400" = Some (S754_zero false) /\
  PyFloat.of_string "1e" = None /\
  PyFloat.of_string "." = None /\
  PyFloat.of_string "1__0" = None /\
  PyFloat.of_string "1234x" = None.
Proof. vm_compute. repeat split; reflexivity. Qed.

Example strptime_iso :
  PyDate.strptime "2024-03-07" PyDate.fmt_ymd_dash = Some (PyDate.mkdate 2024 3 7) /\
  PyDate.strptime "2024-03-07" PyDate.fmt_dmy_dash = None /\
  PyDate.strptime "7/3/2024" PyDate.fmt_dmy_slash = Some (PyDate.mkdate 2024 3 7) /\
  PyDate.strptime "30/02/2024" PyDate.fmt_dmy_slash = None /\
  PyDate.strptime "29/02/2024" PyDate.fmt_dmy_slash = Some (PyDate.mkdate 2024 2 29) /\
  PyDate.strptime "07/03/20245" PyDate.fmt_dmy_slash = None /\
  PyDate.zero_padded (PyDate.mkdate 2024 3 7) PyDate.fmt_dmy_slash = "07/03/2024".
Proof. vm_compute. repeat split; reflexivity. Qed.

(** ** Facts about the text primitives *)

Lemma startswith_spec (p s : string) :
  PyStr.startswith p s = true <-> exists b : string, s = (p ++ b)%string.
Proof.
  revert s. induction p as [|a p IH]; intros s; simpl.
  - split; [intros _; exists s; reflexivity | reflexivity].
  - destruct s as [|b s]; simpl.
    + split; [discriminate | intros [t Ht]; discriminate].
    + rewrite andb_true_iff, Ascii.eqb_eq, IH. split.
      * intros [-> [t ->]]. exists t. reflexivity.
      * intros [t Ht]. injection Ht as -> ->. split; [reflexivity | eauto].
Qed.

Lemma contains_spec (p s : string) :
  PyStr.contains p s = true <-> substring_of p s.
Proof.
  unfold substring_of. induction s as [|c s IH].
  - cbn [PyStr.contains]. rewrite orb_false_r, startswith_spec. split.
    + intros [b Hb]. exists EmptyString, b. exact Hb.
    + intros [a [b Hab]]. destruct a; [|discriminate]. exists b. exact Hab.
  - cbn [PyStr.contains]. rewrite orb_true_iff, startswith_spec, IH. split.
    + intros [[b Hb] | [a [b Hab]]].
      * exists EmptyString, b. exact Hb.
      * exists (String c a), b. simpl. rewrite Hab. reflexivity.
    + intros [a [b Hab]]. destruct a as [|c' a].
      * left. exists b. exact Hab.
      * right. simpl in Hab. injection Hab as _ ->. eauto.
Qed.

(** ** Trimming and space removal, read independently of the code *)

Lemma rstrip_id (s : string) :
  (forall c, PyStr.last_char s = Some c -> PyStr.isspace c = false) ->
  PyStr.rstrip s = s.
Proof.
  induction s as [|a s IH]; intros H; [reflexivity|].
  cbn [PyStr.rstrip]. destruct s as [|b s].
  - cbn [PyStr.rstrip]. rewrite (H a eq_refl). reflexivity.
  - rewrite IH by exact H. reflexivity.
Qed.

Lemma lstrip_first (s : string) (a : ascii) (t : string) :
  PyStr.lstrip s = String a t -> PyStr.isspace a = false.
Proof.
  induction s as [|b s IH]; simpl; [discriminate|].
  destruct (PyStr.isspace b) eqn:E; [exact IH|].
  intros [= -> _]. exact E.
Qed.

Lemma rstrip_last (s : string) (c : ascii) :
  PyStr.last_char (PyStr.rstrip s) = Some c -> PyStr.isspace c = false.
Proof.
  induction s as [|a s IH]; [discriminate|].
  cbn [PyStr.rstrip]. destruct (PyStr.rstrip s) as [|b r].
  - destruct (PyStr.isspace a) eqn:E; [discriminate|]. intros [= <-]. exact E.
  - exact IH.
Qed.

Lemma rstrip_first (a : ascii) (t : string) :
  PyStr.isspace a = false -> exists t', PyStr.rstrip (String a t) = String a t'.
Proof.
  intros Ha. cbn [PyStr.rstrip]. destruct (PyStr.rstrip t) as [|b r].
  - rewrite Ha. eauto.
  - eauto.
Qed.

Lemma strip_trimmed (s : string) : trimmed (PyStr.strip s).
Proof.
  unfold trimmed, PyStr.strip. split.
  - intros a t H. destruct (PyStr.lstrip s) as [|a0 t0] eqn:L; [discriminate|].
    pose proof (lstrip_first s a0 t0 L) as Ha0.
    destruct (rstrip_first a0 t0 Ha0) as [t' E]. rewrite E in H.
    injection H as -> _. exact Ha0.
  - apply rstrip_last.
Qed.

Lemma append_cons (a : ascii) (s t : string) :
  (String a s ++ t)%string = String a (s ++ t).
Proof. reflexivity. Qed.

Lemma append_nil (t : string) : ("" ++ t)%string = t.
Proof. reflexivity. Qed.

Lemma lstrip_split (s : string) :
  exists l, s = (l ++ PyStr.lstrip s)%string /\ all_whitespace l.
Proof.
  induction s as [|a s (l & E & W)].
  - exists "". split; [reflexivity | constructor].
  - cbn [PyStr.lstrip]. destruct (PyStr.isspace a) eqn:Ha.
    + exists (String a l). split; [rewrite append_cons; f_equal; exact E|].
      unfold all_whitespace. cbn. constructor; assumption.
    + exists "". split; [reflexivity | constructor].
Qed.

Lemma rstrip_split (s : string) :
  exists r, s = (PyStr.rstrip s ++ r)%string /\ all_whitespace r.
Proof.
  induction s as [|a s (r & E & W)].
  - exists "". split; [reflexivity | constructor].
  - cbn [PyStr.rstrip]. destruct (PyStr.rstrip s) as [|b t] eqn:R.
    + rewrite append_nil in E. subst r. destruct (PyStr.isspace a) eqn:Ha.
      * exists (String a s). split; [reflexivity|].
        unfold all_whitespace. cbn. constructor; assumption.
      * exists s. split; [reflexivity | exact W].
    + exists r. split; [rewrite append_cons; f_equal; exact E | exact W].
Qed.

Lemma strip_trim_of (s : string) : trim_of s (PyStr.strip s).
Proof.
  split; [apply strip_trimmed|].
  destruct (lstrip_split s) as (l & El & Wl).
  destruct (rstrip_split (PyStr.lstrip s)) as (r & Er & Wr).
  exists l, r. split; [|split; assumption].
  unfold PyStr.strip. rewrite <- Er. exact El.
Qed.

Lemma lstrip_whitespace_app (l x : string) :
  all_whitespace l -> PyStr.lstrip (l ++ x) = PyStr.lstrip x.
Proof.
  unfold all_whitespace. induction l as [|a l IH]; intros W; [reflexivity|].
  cbn in W. inversion W as [|? ? Ha Wl]; subst.
  rewrite append_cons. cbn [PyStr.lstrip]. rewrite Ha. apply IH. exact Wl.
Qed.

Lemma lstrip_whitespace (r : string) : all_whitespace r -> PyStr.lstrip r = "".
Proof.
  unfold all_whitespace. induction r as [|a r IH]; intros W; [reflexivity|].
  cbn in W. inversion W as [|? ? Ha Wr]; subst.
  cbn [PyStr.lstrip]. rewrite Ha. apply IH. exact Wr.
Qed.

Lemma rstrip_whitespace (r : string) : all_whitespace r -> PyStr.rstrip r = "".
Proof.
  unfold all_whitespace. induction r as [|a r IH]; intros W; [reflexivity|].
  cbn in W. inversion W as [|? ? Ha Wr]; subst.
  cbn [PyStr.rstrip]. rewrite (IH Wr), Ha. reflexivity.
Qed.

Lemma rstrip_app_whitespace (t r : string) :
  all_whitespace r -> PyStr.rstrip (t ++ r) = PyStr.rstrip t.
Proof.
  intros W. induction t as [|a t IH].
  - rewrite append_nil. apply rstrip_whitespace. exact W.
  - rewrite append_cons. cbn [PyStr.rstrip]. rewrite IH. reflexivity.
Qed.

Lemma trim_of_strip (s t : string) : trim_of s t -> t = PyStr.strip s.
Proof.
  intros [[Hf Hl] (l & r & -> & Wl & Wr)]. unfold PyStr.strip.
  rewrite (lstrip_whitespace_app l _ Wl).
  destruct t as [|a t'].
  - rewrite append_nil, (lstrip_whitespace r Wr). reflexivity.
  - rewrite append_cons. cbn [PyStr.lstrip]. rewrite (Hf a t' eq_refl).
    rewrite <- append_cons.
    rewrite (rstrip_app_whitespace _ r Wr). symmetry. apply rstrip_id. exact Hl.
Qed.

Lemma exact_alias_iff (h cand : string) :
  exact_alias h cand <-> norm_key h = norm_key cand.
Proof.
  unfold exact_alias, norm_key. split.
  - intros (k & H1 & H2). apply trim_of_strip in H1, H2. congruence.
  - intros E. exists (PyStr.strip (PyStr.lower h)).
    split; [apply strip_trim_of | rewrite E; apply strip_trim_of].
Qed.

Lemma remove_char_unspaced (s : string) : unspaced_of s (PyStr.remove_char " " s).
Proof.
  unfold unspaced_of. induction s as [|a s IH]; [reflexivity|].
  cbn [PyStr.remove_char list_ascii_of_string List.filter].
  destruct (Ascii.eqb a " "); cbn [negb list_ascii_of_string]; [|f_equal]; exact IH.
Qed.

Lemma unspaced_of_remove_char (s t : string) :
  unspaced_of s t -> t = PyStr.remove_char " " s.
Proof.
  intros H. unfold unspaced_of in H. rewrite <- (remove_char_unspaced s) in H.
  apply (f_equal string_of_list_ascii) in H.
  rewrite !string_of_list_ascii_of_string in H. exact H.
Qed.

Lemma contains_alias_iff (h cand : string) :
  contains_alias h cand <-> substring_of (squash cand) (squash h).
Proof.
  unfold contains_alias, squash. split.
  - intros (h' & c' & H1 & H2 & H). apply unspaced_of_remove_char in H1, H2.
    subst. exact H.
  - intros H. do 2 eexists.
    split; [apply remove_char_unspaced | split; [apply remove_char_unspaced | exact H]].
Qed.

Lemma exact_match_keys (cols : list string) (cand : string) :
  exact_match cols cand <-> exists h, h ∈ cols /\ norm_key h = norm_key cand.
Proof.
  unfold exact_match.
  split; intros (h & Hin & H); exists h; (split; [exact Hin|]);
    apply exact_alias_iff; exact H.
Qed.

Lemma substring_match_keys (candidates : list string) (h : string) :
  substring_match candidates h <->
  exists cand, cand ∈ candidates /\ substring_of (squash cand) (squash h).
Proof.
  unfold substring_match.
  split; intros (c & Hin & H); exists c; (split; [exact Hin|]);
    apply contains_alias_iff; exact H.
Qed.

(** ** Facts about column detection *)

Lemma lower_map_fold (cols : list string) (m : gmap string string) (k : string) :
  foldl (fun m c => <[norm_key c := c]> m) m cols !! k =
  match last_with_key k cols with
  | Some h => Some h
  | None => m !! k
  end.
Proof.
  revert m. induction cols as [|c cols IH]; intros m; simpl; [reflexivity|].
  rewrite IH. destruct (last_with_key k cols) as [h|]; [reflexivity|].
  destruct (String.eqb_spec (norm_key c) k) as [->|Hne].
  - apply lookup_insert_eq.
  - apply lookup_insert_ne. exact Hne.
Qed.

Lemma lower_map_lookup (cols : list string) (k : string) :
  lower_map cols !! k = last_with_key k cols.
Proof.
  unfold lower_map. rewrite lower_map_fold.
  destruct (last_with_key k cols); [reflexivity | apply lookup_empty].
Qed.

Lemma last_with_key_None (k : string) (cols : list string) :
  last_with_key k cols = None <-> forall h, h ∈ cols -> norm_key h <> k.
Proof.
  induction cols as [|c cols IH]; simpl.
  - split; [intros _ h Hh; inversion Hh | reflexivity].
  - destruct (last_with_key k cols) as [h0|] eqn:E.
    + split; [discriminate|]. intros H. exfalso.
      assert (Some h0 = None) as Habs; [|discriminate].
      apply IH. intros h Hh. apply H. right. exact Hh.
    + destruct (String.eqb_spec (norm_key c) k) as [Heq|Hne].
      * split; [discriminate|]. intros H. exfalso. apply (H c); [left | exact Heq].
      * split; [|reflexivity]. intros _ h Hh.
        apply elem_of_cons in Hh as [->|Hh]; [exact Hne|].
        apply (proj1 IH); [reflexivity | exact Hh].
Qed.

Lemma last_with_key_Some (k : string) (cols : list string) (h : string) :
  last_with_key k cols = Some h <->
  exists pre post, cols = pre ++ h :: post /\ norm_key h = k /\
                   forall h', h' ∈ post -> norm_key h' <> k.
Proof.
  revert h. induction cols as [|c cols IH]; intros h; simpl.
  - split; [discriminate|]. intros (pre & post & H & _). destruct pre; discriminate.
  - destruct (last_with_key k cols) as [h0|] eqn:E.
    + split.
      * intros [= ->]. destruct (proj1 (IH h) eq_refl) as (pre & post & -> & Hk & Hpost).
        exists (c :: pre), post. auto.
      * intros (pre & post & Hc & Hk & Hpost). destruct pre as [|c' pre].
        -- simpl in Hc. injection Hc as -> ->. exfalso.
           assert (Some h0 = None) as Habs; [|discriminate].
           rewrite <- E. apply last_with_key_None. exact Hpost.
        -- simpl in Hc. injection Hc as -> ->. f_equal. symmetry.
           assert (Some h0 = Some h) as [= ->]; [|reflexivity].
           apply IH. eauto.
    + pose proof (proj1 (last_with_key_None k cols) E) as Hnone.
      destruct (String.eqb_spec (norm_key c) k) as [Heq|Hne].
      * split.
        -- intros [= ->]. exists [], cols. auto.
        -- intros (pre & post & Hc & Hk & Hpost). destruct pre as [|c' pre].
           ++ simpl in Hc. injection Hc as -> ->. reflexivity.
           ++ simpl in Hc. injection Hc as -> ->. exfalso.
              apply (Hnone h); [|exact Hk]. apply elem_of_app. right. left.
      * split; [discriminate|].
        intros (pre & post & Hc & Hk & Hpost). destruct pre as [|c' pre].
        -- simpl in Hc. injection Hc as -> ->. contradiction.
        -- simpl in Hc. injection Hc as -> ->. exfalso.
           apply (Hnone h); [|exact Hk]. apply elem_of_app. right. left.
Qed.

Lemma exact_loop_first (m : gmap string string) (pre post : list string)
      (cand h : string) :
  (forall c, c ∈ pre -> m !! norm_key c = None) ->
  m !! norm_key cand = Some h ->
  exact_loop m (pre ++ cand :: post) = Some h.
Proof.
  intros Hpre Hcand. induction pre as [|c pre IH]; simpl.
  - rewrite Hcand. reflexivity.
  - rewrite (Hpre c) by left. apply IH. intros c' Hc'. apply Hpre. right. exact Hc'.
Qed.

Lemma exact_loop_None (m : gmap string string) (candidates : list string) :
  (forall c, c ∈ candidates -> m !! norm_key c = None) ->
  exact_loop m candidates = None.
Proof.
  induction candidates as [|c cs IH]; intros H; simpl; [reflexivity|].
  rewrite (H c) by left. apply IH. intros c' Hc'. apply H. right. exact Hc'.
Qed.

Lemma no_exact_match_lookup (cols : list string) (cand : string) :
  ~ exact_match cols cand -> lower_map cols !! norm_key cand = None.
Proof.
  intros H. rewrite lower_map_lookup. apply last_with_key_None.
  intros h Hh Hk. apply H, exact_match_keys. exists h. auto.
Qed.

Lemma some_candidate_in_spec (h : string) (candidates : list string) :
  some_candidate_in (squash h) candidates = true <-> substring_match candidates h.
Proof.
  rewrite substring_match_keys. induction candidates as [|c cs IH]; simpl.
  - split; [discriminate|]. intros (c & Hc & _). inversion Hc.
  - destruct (PyStr.contains (squash c) (squash h)) eqn:E.
    + split; [|reflexivity]. intros _. exists c. split; [left|].
      apply contains_spec. exact E.
    + rewrite IH. split.
      * intros (c' & Hc' & Hs). exists c'. split; [right|]; assumption.
      * intros (c' & Hc' & Hs). apply elem_of_cons in Hc' as [->|Hc'].
        -- apply contains_spec in Hs. congruence.
        -- eauto.
Qed.

Lemma substring_loop_first (candidates pre post : list string) (h : string) :
  (forall h', h' ∈ pre -> ~ substring_match candidates h') ->
  substring_match candidates h ->
  substring_loop (pre ++ h :: post) candidates = Some h.
Proof.
  intros Hpre Hh. induction pre as [|c pre IH]; simpl.
  - apply some_candidate_in_spec in Hh. rewrite Hh. reflexivity.
  - destruct (some_candidate_in (squash c) candidates) eqn:E.
    + exfalso. apply (Hpre c); [left|]. apply some_candidate_in_spec. exact E.
    + apply IH. intros h' Hh'. apply Hpre. right. exact Hh'.
Qed.

Lemma substring_loop_None (cols candidates : list string) :
  (forall h, h ∈ cols -> ~ substring_match candidates h) ->
  substring_loop cols candidates = None.
Proof.
  induction cols as [|c cols IH]; intros H; simpl; [reflexivity|].
  destruct (some_candidate_in (squash c) candidates) eqn:E.
  - exfalso. apply (H c); [left|]. apply some_candidate_in_spec. exact E.
  - apply IH. intros h Hh. apply H. right. exact Hh.
Qed.

(** The exact phase answers with the last header whose key equals the key
    of the first candidate that has an exact match. *)
Lemma exact_phase_last (cols pre post hpre hpost : list string) (cand h : string) :
  (forall c, c ∈ pre -> ~ exact_match cols c) ->
  cols = hpre ++ h :: hpost ->
  norm_key h = norm_key cand ->
  (forall h', h' ∈ hpost -> norm_key h' <> norm_key cand) ->
  _pick_column cols (pre ++ cand :: post) = Some h.
Proof.
  intros Hpre Hcols Hk Hlast. unfold _pick_column.
  rewrite (exact_loop_first _ pre post cand h); [reflexivity| |].
  - intros c Hc. apply no_exact_match_lookup, Hpre, Hc.
  - rewrite lower_map_lookup. apply last_with_key_Some. eauto.
Qed.

(** The two phases of [_pick_column], in terms of the keys the code
    computes. *)
Lemma pick_column_phases (cols candidates : list string) :
  (forall pre cand post,
      candidates = pre ++ cand :: post ->
      (forall c, c ∈ pre -> ~ exact_match cols c) ->
      exact_match cols cand ->
      exists h, _pick_column cols candidates = Some h /\
                h ∈ cols /\ norm_key h = norm_key cand) /\
  ((forall c, c ∈ candidates -> ~ exact_match cols c) ->
   (forall pre h post,
       cols = pre ++ h :: post ->
       (forall h', h' ∈ pre -> ~ substring_match candidates h') ->
       substring_match candidates h ->
       _pick_column cols candidates = Some h) /\
   ((forall h, h ∈ cols -> ~ substring_match candidates h) ->
    _pick_column cols candidates = None)).
Proof.
  split.
  - intros pre cand post -> Hpre (h0 & Hin & Hk). apply exact_alias_iff in Hk.
    destruct (last_with_key (norm_key cand) cols) as [h|] eqn:E.
    + pose proof E as E'.
      apply last_with_key_Some in E as (hpre & hpost & Hcols & Hkh & Hlast).
      exists h. split; [|split].
      * eapply exact_phase_last; eauto.
      * rewrite Hcols. apply elem_of_app. right. left.
      * exact Hkh.
    + exfalso. apply (proj1 (last_with_key_None _ _) E h0 Hin Hk).
  - intros Hno. unfold _pick_column.
    rewrite exact_loop_None
      by (intros c Hc; apply no_exact_match_lookup, Hno, Hc).
    split.
    + intros pre h post -> Hpre Hh. apply substring_loop_first; assumption.
    + apply substring_loop_None.
Qed.

(** C10: when several headers share the key of the candidate that decides
    the exact phase, the header returned is the last of them in table order:
    the key lookup keeps the latest header inserted. *)
Theorem exact_match_returns_last_header
        (cols candidates pre post hpre hpost : list string) (cand h : string) :
  candidates = pre ++ cand :: post ->
  (forall c, c ∈ pre -> ~ exact_match cols c) ->
  cols = hpre ++ h :: hpost ->
  norm_key h = norm_key cand ->
  (forall h', h' ∈ hpost -> norm_key h' <> norm_key cand) ->
  _pick_column cols candidates = Some h.
Proof.
  intros -> Hpre Hcols Hk Hlast. eapply exact_phase_last; eauto.
Qed.

Lemma exact_match_returns_last_header_witness :
  _pick_column ["Balance"; "id"; "balance "] ["balance"] = Some "balance " /\
  _pick_column ["Balance"; "id"; "balance "] ["balance"] <> Some "Balance".
Proof.
  assert (H : _pick_column ["Balance"; "id"; "balance "] ["balance"] = Some "balance ").
  { apply (exact_match_returns_last_header
             ["Balance"; "id"; "balance "] ["balance"] [] [] ["Balance"; "id"] []
             "balance" "balance ").
    - reflexivity.
    - intros c Hc. inversion Hc.
    - reflexivity.
    - vm_compute. reflexivity.
    - intros h' Hh'. inversion Hh'. }
  split; [exact H | rewrite H; discriminate].
Defined.

(** ** Missing columns *)

(** C2: the transform fails exactly when one of the four logical fields is
    not detected; the error then is the [ValueError] whose message lists the
    keys of all absent fields, joined by [", "], and no output is produced. *)
Theorem process_dataframe_missing_columns
        (pd_to_numeric : string -> option PyFloat.float)
        (pd_to_datetime : string -> option PyDate.date) (pf : Platform) (df : DataFrame) :
  let absent := absent_keys (columns df) in
  let run := process_dataframe pd_to_numeric pd_to_datetime pf df in
  ((exists e, run = inl e) <->
   (_pick_column (columns df) CUST_ID_COL_CANDIDATES = None \/
    _pick_column (columns df) TRANS_NO_COL_CANDIDATES = None \/
    _pick_column (columns df) DATE_COL_CANDIDATES = None \/
    _pick_column (columns df) BALANCE_COL_CANDIDATES = None)) /\
  ((exists e, run = inl e) <-> absent <> []) /\
  (absent <> [] ->
   run = inl (ValueError ("Missing required columns: " ++ PyStr.join ", " absent))) /\
  (absent = [] -> exists out dbg, run = inr (out, dbg)).
Proof.
  unfold absent_keys, process_dataframe.
  destruct (_pick_column (columns df) CUST_ID_COL_CANDIDATES) as [c1|];
    destruct (_pick_column (columns df) TRANS_NO_COL_CANDIDATES) as [c2|];
    destruct (_pick_column (columns df) DATE_COL_CANDIDATES) as [c3|];
    destruct (_pick_column (columns df) BALANCE_COL_CANDIDATES) as [c4|];
    cbn [key_if_absent none_keys app];
    (split; [|split; [|split]]);
    try (intros _; reflexivity);
    repeat match goal with
           | |- _ <-> _ => split
           | |- _ -> _ => intro
           | H : exists _, _ |- _ => destruct H
           | H : _ \/ _ |- _ => destruct H
           | H : ?x <> ?x |- _ => destruct (H eq_refl)
           end;
    try discriminate; eauto 7.
Qed.

Lemma process_dataframe_missing_columns_witness :
  process_dataframe (fun _ => None) (fun _ => None) pandas2_glibc
    (mkframe ["Customer_ID"; "Date"] [[Val "C000123456"; Val "07/03/2024"]])
  = inl (ValueError
           "Missing required columns: transaction_number → Document Number, balance → Document Balance").
Proof.
  refine (eq_trans
            (proj1 (proj2 (proj2 (process_dataframe_missing_columns
                                    (fun _ => None) (fun _ => None) pandas2_glibc
                                    (mkframe ["Customer_ID"; "Date"]
                                       [[Val "C000123456"; Val "07/03/2024"]])))) _) _).
  - vm_compute. discriminate.
  - vm_compute. reflexivity.
Defined.

(** ** The numeric normalizer *)

Lemma last_char_app (t : string) (c : ascii) :
  PyStr.last_char (t ++ String c EmptyString) = Some c.
Proof.
  induction t as [|a t IH]; [reflexivity|].
  change (String a t ++ String c EmptyString)%string
    with (String a (t ++ String c EmptyString)).
  cbn [PyStr.last_char]. rewrite IH. destruct t; reflexivity.
Qed.

Lemma drop_last_app (t : string) (c : ascii) :
  PyStr.drop_last (t ++ String c EmptyString) = t.
Proof.
  induction t as [|a t IH]; [reflexivity|].
  change (String a t ++ String c EmptyString)%string
    with (String a (t ++ String c EmptyString)).
  cbn [PyStr.drop_last]. rewrite IH. destruct t; reflexivity.
Qed.

Lemma last_char_inv (t : string) (c : ascii) :
  PyStr.last_char t = Some c ->
  t = (PyStr.drop_last t ++ String c EmptyString)%string.
Proof.
  induction t as [|a t IH]; [discriminate|].
  destruct t as [|b t].
  - intros [= ->]. reflexivity.
  - intros H.
    change (PyStr.last_char (String a (String b t)))
      with (PyStr.last_char (String b t)) in H.
    specialize (IH H).
    change (PyStr.drop_last (String a (String b t)))
      with (String a (PyStr.drop_last (String b t))).
    change (String a (String b t) =
            String a (PyStr.drop_last (String b t) ++ String c EmptyString)).
    f_equal. exact IH.
Qed.

(** The test [s.startswith("(") and s.endswith(")")] and the slice
    [s[1:-1]]. *)
Lemma wrapped_test (s : string) :
  (PyStr.startswith "(" s &&
   match PyStr.last_char s with
   | Some c => Ascii.eqb c ")"
   | None => false
   end)%bool = true <->
  exists inner, wrapped s inner.
Proof.
  unfold wrapped. split.
  - intros H. apply andb_true_iff in H as [H1 H2].
    apply startswith_spec in H1 as [t ->].
    destruct (PyStr.last_char ("(" ++ t)) as [c|] eqn:E; [|discriminate].
    apply Ascii.eqb_eq in H2 as ->.
    change ("(" ++ t)%string with (String "(" t) in *.
    destruct t as [|b t]; [discriminate|].
    change (PyStr.last_char (String "(" (String b t)))
      with (PyStr.last_char (String b t)) in E.
    apply last_char_inv in E. exists (PyStr.drop_last (String b t)).
    change (String "(" (String b t) =
            String "(" (PyStr.drop_last (String b t) ++ String ")" EmptyString)).
    f_equal. exact E.
  - intros [inner ->]. apply andb_true_iff. split; [reflexivity|].
    change (PyStr.last_char (String "(" (inner ++ String ")" EmptyString)))
      with (PyStr.last_char (String "(" inner ++ String ")" EmptyString)).
    rewrite last_char_app. reflexivity.
Qed.

Lemma wrapped_slice (s inner : string) :
  wrapped s inner ->
  PyStr.drop_last (match s with String _ t => t | EmptyString => EmptyString end)
  = inner.
Proof. unfold wrapped. intros ->. simpl. apply drop_last_app. Qed.

(** C3: the numeric normalizer. A missing cell, or a text that trims to the
    empty string, gives [pd.NA]. Otherwise commas and spaces are removed, a
    text wrapped in parentheses loses them and gains a minus sign, and the
    result is what [float] reads, else what the lenient coercion returns;
    when both fail the result is "no value". The four examples follow. *)
Theorem to_numeric_value_spec (pd_to_numeric : string -> option PyFloat.float) :
  (forall x,
      pd_isna x = true \/ PyStr.strip (str x) = "" ->
      to_numeric_value pd_to_numeric x = NA) /\
  (forall x s0 s,
      pd_isna x = false ->
      PyStr.strip (str x) <> "" ->
      s0 = PyStr.remove_char " " (PyStr.remove_char "," (str x)) ->
      ((exists inner, wrapped s0 inner /\ s = String "-" inner) \/
       ((forall inner, ~ wrapped s0 inner) /\ s = s0)) ->
      to_numeric_value pd_to_numeric x =
        match PyFloat.of_string s with
        | Some f => Float f
        | None =>
            match pd_to_numeric s with
            | Some f => Float f
            | None => NA
            end
        end /\
      (PyFloat.of_string s = None ->
       pd_to_numeric s = None \/ pd_to_numeric s = Some PyFloat.nan ->
       no_value (to_numeric_value pd_to_numeric x) = true)) /\
  (exists f, to_numeric_value pd_to_numeric (Val "(1,234.50)") = Float f /\
             has_value f (-123450) 100) /\
  (pd_to_numeric "1234x" = None \/ pd_to_numeric "1234x" = Some PyFloat.nan ->
   no_value (to_numeric_value pd_to_numeric (Val "1 234,x")) = true) /\
  to_numeric_value pd_to_numeric (Val "") = NA /\
  (exists f, to_numeric_value pd_to_numeric (Val "100") = Float f /\
             has_value f 100 1).
Proof.
  split; [|split; [|split; [|split; [|split]]]].
  - intros x [H|H]; unfold to_numeric_value.
    + rewrite H. reflexivity.
    + rewrite H, orb_true_r. reflexivity.
  - intros x s0 s Hna Hne Hs0 Hs.
    assert (to_numeric_value pd_to_numeric x =
            match PyFloat.of_string s with
            | Some f => Float f
            | None => match pd_to_numeric s with Some f => Float f | None => NA end
            end) as E.
    { unfold to_numeric_value. rewrite Hna.
      destruct (String.eqb_spec (PyStr.strip (str x)) "") as [H0|_]; [contradiction|].
      cbn [orb]. rewrite <- Hs0.
      destruct Hs as [(inner & Hw & ->)|[Hnw ->]].
      - rewrite (proj2 (wrapped_test s0)) by eauto.
        rewrite (wrapped_slice s0 inner Hw). reflexivity.
      - destruct (PyStr.startswith "(" s0 && _)%bool eqn:T; [|reflexivity].
        apply wrapped_test in T as [inner Hw]. destruct (Hnw inner Hw). }
    split; [exact E|].
    intros Hf Hp. rewrite E, Hf. destruct Hp as [->| ->]; reflexivity.
  - eexists. split; [vm_compute; reflexivity | vm_compute; reflexivity].
  - intros H.
    change (to_numeric_value pd_to_numeric (Val "1 234,x"))
      with (match pd_to_numeric "1234x" with Some f => Float f | None => NA end).
    destruct H as [->| ->]; reflexivity.
  - reflexivity.
  - eexists. split; [vm_compute; reflexivity | vm_compute; reflexivity].
Qed.

Lemma to_numeric_value_spec_witness :
  to_numeric_value (fun _ => Some PyFloat.nan) Missing = NA /\
  to_numeric_value (fun _ => Some PyFloat.nan) (Val " (12.5) ")
    = Float (PyFloat.of_decimal true 125 (-1)) /\
  no_value (to_numeric_value (fun _ => Some PyFloat.nan) (Val "1 234,x")) = true.
Proof.
  pose proof (to_numeric_value_spec (fun _ => Some PyFloat.nan))
    as (Hna & Hparse & _ & Hbad & _).
  split; [|split].
  - apply Hna. left. reflexivity.
  - refine (eq_trans (proj1 (Hparse (Val " (12.5) ") "(12.5)" "-12.5" _ _ _ _)) _).
    + reflexivity.
    + vm_compute. discriminate.
    + reflexivity.
    + left. exists "12.5". split; reflexivity.
    + vm_compute. reflexivity.
  - apply Hbad. right. reflexivity.
Defined.

(** ** The debtor reference *)

Lemma strlen_app (s t : string) :
  String.length (s ++ t) = String.length s + String.length t.
Proof. induction s as [|a s IH]; simpl; [reflexivity | rewrite IH; reflexivity]. Qed.

Lemma six_digits_length (g : string) : six_digits g -> String.length g = 6.
Proof. intros (a & b & c & d & e & f & -> & _). reflexivity. Qed.

Lemma six_digits_not_newline_ended (g t : string) :
  six_digits g -> g <> (t ++ newline)%string.
Proof.
  intros (a & b & c & d & e & f & -> & _ & _ & _ & _ & _ & Hf) H.
  apply (f_equal PyStr.last_char) in H. unfold newline in H.
  rewrite last_char_app in H. cbn in H. injection H as ->. discriminate.
Qed.

Lemma six_digits_at_end_sound (s g : string) :
  six_digits_at_end s = Some g ->
  six_digits g /\ (s = g \/ s = (g ++ newline)%string).
Proof.
  unfold six_digits_at_end.
  destruct s as [|a [|b [|c [|d [|e [|f r]]]]]]; try discriminate.
  destruct (_ && _)%bool eqn:T; [|discriminate]. intros [= <-].
  do 6 (apply andb_true_iff in T as [T ?]).
  split.
  - exists a, b, c, d, e, f. repeat split; first [reflexivity | assumption].
  - match goal with H : (_ || _)%bool = true |- _ =>
      apply orb_true_iff in H as [H|H]; apply String.eqb_eq in H; subst r end.
    + left. reflexivity.
    + right. reflexivity.
Qed.

Lemma six_digits_at_end_complete (g rest : string) :
  six_digits g -> rest = g \/ rest = (g ++ newline)%string ->
  six_digits_at_end rest = Some g.
Proof.
  intros (a & b & c & d & e & f & -> & Ha & Hb & Hc & Hd & He & Hf) [->| ->];
    cbv [six_digits_at_end newline String.append];
    rewrite Ha, Hb, Hc, Hd, He, Hf; reflexivity.
Qed.

Lemma re_search_six_found (p g rest : string) :
  six_digits g -> rest = g \/ rest = (g ++ newline)%string ->
  re_search_six (p ++ rest) = Some g.
Proof.
  intros Hg Hrest. induction p as [|c p IH].
  - change (EmptyString ++ rest)%string with rest.
    destruct rest; cbn [re_search_six];
      rewrite (six_digits_at_end_complete g _ Hg Hrest); reflexivity.
  - change (String c p ++ rest)%string with (String c (p ++ rest)).
    cbn [re_search_six].
    destruct (six_digits_at_end (String c (p ++ rest))) as [g'|] eqn:E;
      [exfalso | exact IH].
    apply six_digits_at_end_sound in E as [Hg' E].
    pose proof (six_digits_length _ Hg) as Lg.
    pose proof (six_digits_length _ Hg') as Lg'.
    assert (String.length rest = 6 \/ String.length rest = 7) as Lrest.
    { destruct Hrest as [->| ->]; [left; exact Lg|].
      right. rewrite strlen_app, Lg. reflexivity. }
    destruct E as [E|E]; apply (f_equal String.length) in E as L;
      cbn [String.length] in L; rewrite ?strlen_app, ?Lg' in L;
      cbn [String.length newline] in L; [lia|].
    assert (String.length p = 0 /\ String.length rest = 6) as [Lp Lr] by lia.
    destruct p; [|discriminate].
    change (EmptyString ++ rest)%string with rest in E.
    destruct Hrest as [->| ->]; [|rewrite strlen_app, Lg in Lr; cbn in Lr; lia].
    destruct g' as [|c' g'']; [discriminate|].
    change (String c' g'' ++ newline)%string with (String c' (g'' ++ newline)) in E.
    injection E as _ E. exact (six_digits_not_newline_ended g g'' Hg E).
Qed.

Lemma re_search_six_sound (s g : string) :
  re_search_six s = Some g ->
  exists p, six_digits g /\ (s = (p ++ g)%string \/ s = (p ++ g ++ newline)%string).
Proof.
  induction s as [|c s IH].
  - cbn. discriminate.
  - cbn [re_search_six].
    destruct (six_digits_at_end (String c s)) as [g'|] eqn:E.
    + intros [= ->]. apply six_digits_at_end_sound in E as [Hg E].
      exists EmptyString. split; [exact Hg | exact E].
    + intros H. destruct (IH H) as (p & Hg & [->| ->]);
        exists (String c p); split; auto.
Qed.

(** C6, as the code has it: the debtor reference is the six digits that end
    the text form of the customer cell, where a single newline closing the
    text may follow them; it is empty when the text has no such ending. *)
Theorem debtor_reference_spec (x : cell) :
  (forall p g,
      six_digits g ->
      str x = (p ++ g)%string \/ str x = (p ++ g ++ newline)%string ->
      debtor_reference x = g) /\
  ((forall p g,
       six_digits g ->
       str x <> (p ++ g)%string /\ str x <> (p ++ g ++ newline)%string) ->
   debtor_reference x = "").
Proof.
  unfold debtor_reference. split.
  - intros p g Hg [H|H]; rewrite H.
    + rewrite (re_search_six_found p g g Hg); auto.
    + rewrite (re_search_six_found p g (g ++ newline) Hg); auto.
  - intros Hno. destruct (re_search_six (str x)) as [g|] eqn:E; [|reflexivity].
    exfalso. apply re_search_six_sound in E as (p & Hg & [E|E]);
      destruct (Hno p g Hg); contradiction.
Qed.

Lemma six_digits_123456 : six_digits "123456".
Proof. exists "1"%char, "2"%char, "3"%char, "4"%char, "5"%char, "6"%char.
       repeat split; reflexivity. Qed.

Lemma debtor_reference_spec_witness :
  debtor_reference (Val "CUST000123456") = "123456" /\
  debtor_reference (Val "AB12") = "".
Proof.
  split.
  - apply (proj1 (debtor_reference_spec (Val "CUST000123456")) "CUST000" "123456").
    + exact six_digits_123456.
    + left. reflexivity.
  - apply (proj2 (debtor_reference_spec (Val "AB12"))).
    intros p g Hg.
    pose proof (six_digits_length g Hg) as L.
    split; intros H; apply (f_equal String.length) in H;
      rewrite ?strlen_app, L in H; cbn in H; lia.
Defined.

(** The sentence of the specification fails on a customer cell whose text
    ends with a newline: no six digits end the text, yet the reference is
    not empty. *)
Lemma debtor_reference_newline_counterexample :
  ~ debtor_reference_as_specified (Val ("123456" ++ newline)).
Proof.
  intros [_ H].
  assert (debtor_reference (Val ("123456" ++ newline)) = "") as E.
  { apply H. intros p g Hg Habs. cbn [str] in Habs.
    pose proof (six_digits_length g Hg) as L.
    assert (String.length p = 1) as Lp.
    { apply (f_equal String.length) in Habs. rewrite !strlen_app, L in Habs.
      cbn in Habs. lia. }
    destruct p as [|c [|c' p]]; try discriminate.
    cbn in Habs. injection Habs as _ Habs.
    apply (six_digits_not_newline_ended g "23456" Hg). symmetry. exact Habs. }
  vm_compute in E. discriminate.
Qed.

(** ** The pipeline, row by row *)

Lemma loc_map_filter {A B : Type} (f : A -> B) (k : A -> bool) (l : list A) :
  loc (map f l) (map k l) = map f (List.filter k l).
Proof.
  induction l as [|x l IH]; simpl; [reflexivity|].
  destruct (k x); simpl; rewrite IH; reflexivity.
Qed.

Lemma zip_rows_map {A : Type} (f1 f2 : A -> string) (f3 : A -> option string)
      (f4 : A -> string) (f5 : A -> option PyFloat.float) (l : list A) :
  zip_rows (map f1 l) (map f2 l) (map f3 l) (map f4 l) (map f5 l)
  = map (fun r => mkrow (f1 r) (f2 r) (f3 r) (f4 r) (f5 r)) l.
Proof. induction l as [|x l IH]; simpl; [reflexivity | rewrite IH; reflexivity]. Qed.

Lemma mask_sum_map {A : Type} (k : A -> bool) (l : list A) :
  mask_sum (map k l) = Z.of_nat (length (List.filter k l)).
Proof.
  induction l as [|x l IH]; simpl; [reflexivity|].
  rewrite IH. destruct (k x); simpl length; lia.
Qed.

Lemma filter_partition_length {A : Type} (k : A -> bool) (l : list A) :
  length (List.filter k l) + length (List.filter (fun x => negb (k x)) l) = length l.
Proof.
  induction l as [|x l IH]; simpl; [reflexivity|].
  destruct (k x); simpl; lia.
Qed.

Lemma Forall2_map_self {A B : Type} (P : A -> B -> Prop) (f : A -> B) (l : list A) :
  (forall x, P x (f x)) -> Forall2 P l (map f l).
Proof. intros H. induction l; simpl; constructor; auto. Qed.

Lemma transaction_type_INV (v : option PyFloat.float) :
  transaction_type v = "INV" <-> exists f, v = Some f /\ positive_float f.
Proof.
  unfold transaction_type. split.
  - destruct v as [f|]; [|discriminate].
    destruct f as [s|s| |s m e]; try destruct s; cbn; try discriminate;
      intros _; eexists; (split; [reflexivity | exact I]).
  - intros (f & -> & Hf). destruct f as [s|s| |s m e]; try destruct s;
      cbn in Hf; try contradiction; reflexivity.
Qed.

Lemma transaction_type_CRD (v : option PyFloat.float) :
  transaction_type v = "CRD" <-> ~ exists f, v = Some f /\ positive_float f.
Proof.
  rewrite <- transaction_type_INV. unfold transaction_type.
  destruct v as [f|]; [destruct (PyFloat.gt f PyFloat.zero)|];
    split; try discriminate; try reflexivity; intros H; try discriminate;
    exfalso; apply H; reflexivity.
Qed.

Lemma nonzero_spec (v : option PyFloat.float) :
  nonzero v = true <-> exists f, v = Some f /\ ~ zero_float f.
Proof.
  unfold nonzero. split.
  - destruct v as [f|]; [|discriminate].
    intros H. exists f. split; [reflexivity|].
    destruct f as [s|s| |s m e]; cbn in *; try discriminate; auto.
  - intros (f & -> & Hf). destruct f as [s|s| |s m e]; try destruct s;
      cbn in *; try reflexivity; exfalso; apply Hf; exact I.
Qed.

Lemma astype_Float64_not_nan (v : numeric) : astype_Float64 v <> Some PyFloat.nan.
Proof. destruct v as [|f]; [discriminate|]. destruct f; discriminate. Qed.

Lemma marker_text_no_six (m : marker) : re_search_six (marker_text m) = None.
Proof. destruct m; reflexivity. Qed.

(** [astype(str)], [extract] and [fillna("")] together give the debtor
    reference of the cell, whether or not [astype(str)] keeps a missing value
    missing. *)
Lemma debtor_reference_pipeline (keeps : bool) (x : cell) :
  fillna_empty (str_extract_six (astype_str keeps x)) = debtor_reference x.
Proof.
  unfold debtor_reference.
  destruct x as [|m|s]; destruct keeps; cbn [astype_str str_extract_six str fillna_empty];
    rewrite ?marker_text_no_six; reflexivity.
Qed.

(** The column-wise computation of [process_dataframe] agrees with the
    row-wise reading: the output rows are the transformed surviving rows. *)
Lemma process_dataframe_rows
      (pd_to_numeric : string -> option PyFloat.float)
      (pd_to_datetime : string -> option PyDate.date) (pf : Platform)
      (df : DataFrame) (out : OutFrame) (dbg : Debug) :
  process_dataframe pd_to_numeric pd_to_datetime pf df = inr (out, dbg) ->
  exists cust_id doc_no doc_date bal,
    _pick_column (columns df) CUST_ID_COL_CANDIDATES = Some cust_id /\
    _pick_column (columns df) TRANS_NO_COL_CANDIDATES = Some doc_no /\
    _pick_column (columns df) DATE_COL_CANDIDATES = Some doc_date /\
    _pick_column (columns df) BALANCE_COL_CANDIDATES = Some bal /\
    (let kept := List.filter (survives pd_to_numeric df bal) (rows df) in
     let f := row_of pd_to_numeric pd_to_datetime pf df cust_id doc_no doc_date bal in
     out_rows out = map f kept /\
     Debtor_Reference out = map (fun r => row_debtor (f r)) kept /\
     Transaction_Type out = map (fun r => row_type (f r)) kept /\
     Document_Number out = map (fun r => row_number (f r)) kept /\
     Document_Date out = map (fun r => row_date (f r)) kept /\
     Document_Balance out = map (fun r => row_balance (f r)) kept) /\
    rows_removed_balance_0 dbg =
      Z.of_nat (length (List.filter (fun r => negb (survives pd_to_numeric df bal r))
                          (rows df))).
Proof.
  unfold process_dataframe.
  destruct (_pick_column (columns df) CUST_ID_COL_CANDIDATES) as [c1|]; [|discriminate].
  destruct (_pick_column (columns df) TRANS_NO_COL_CANDIDATES) as [c2|]; [|discriminate].
  destruct (_pick_column (columns df) DATE_COL_CANDIDATES) as [c3|]; [|discriminate].
  destruct (_pick_column (columns df) BALANCE_COL_CANDIDATES) as [c4|]; [|discriminate].
  intros [= <- <-]. exists c1, c2, c3, c4. do 4 (split; [reflexivity|]).
  cbn [Debtor_Reference Transaction_Type Document_Number Document_Date
       Document_Balance rows_removed_balance_0 out_rows].
  unfold _format_date_series, getitem. rewrite !map_map.
  rewrite (map_ext
             (fun x => fillna_empty
                         (str_extract_six
                            (astype_str (astype_str_keeps_missing pf) (cell_at df c1 x))))
             (fun x => debtor_reference (cell_at df c1 x)))
    by (intros; apply debtor_reference_pipeline).
  change (map (fun x => nonzero (astype_Float64
                                   (to_numeric_value pd_to_numeric (cell_at df c4 x))))
            (rows df))
    with (map (survives pd_to_numeric df c4) (rows df)).
  rewrite !loc_map_filter. split.
  - cbv zeta. unfold out_rows.
    cbn [Debtor_Reference Transaction_Type Document_Number Document_Date
         Document_Balance].
    rewrite zip_rows_map. repeat split; reflexivity.
  - rewrite length_map, mask_sum_map.
    pose proof (filter_partition_length (survives pd_to_numeric df c4) (rows df)).
    lia.
Qed.

Lemma survives_raw (v : numeric) :
  nonzero (astype_Float64 v) = true <->
  exists f, v = Float f /\ PyFloat.isnan f = false /\ ~ zero_float f.
Proof.
  split.
  - intros H. apply nonzero_spec in H as (f & Hf & Hz).
    destruct v as [|g]; [discriminate|]. cbn [astype_Float64] in Hf.
    destruct (PyFloat.isnan g) eqn:E; [discriminate|]. injection Hf as ->.
    exists f. auto.
  - intros (f & -> & Hn & Hz). apply nonzero_spec. exists f.
    cbn [astype_Float64]. rewrite Hn. auto.
Qed.

Lemma excluded_raw (v : numeric) :
  nonzero (astype_Float64 v) = false <->
  no_value v = true \/ exists f, v = Float f /\ zero_float f.
Proof.
  destruct v as [|f]; cbn [astype_Float64 no_value].
  - split; [intros _; left; reflexivity | reflexivity].
  - split.
    + intros H. destruct (PyFloat.isnan f) eqn:E; [left; reflexivity|].
      right. exists f. split; [reflexivity|].
      destruct f as [s|s| |s m e]; try exact I; try discriminate E;
        try destruct s; cbn in H; discriminate H.
    + intros [H|(g & [= <-] & H)].
      * rewrite H. reflexivity.
      * destruct f as [s|s| |s m e]; try destruct H; reflexivity.
Qed.

(** C7: when the transform succeeds, the output rows are exactly the input
    rows whose balance cell is read by [to_numeric_value] as a float that is
    neither NaN nor a zero; a row whose balance is "no value" ([pd.NA] or
    NaN: missing, blank or unreadable) or a zero is excluded. The rows kept
    are transformed one by one and stay in input order; the removed count is
    the number of excluded rows, so the two add up to the input size. *)
Theorem process_dataframe_filters_rows
        (pd_to_numeric : string -> option PyFloat.float)
        (pd_to_datetime : string -> option PyDate.date) (pf : Platform)
        (df : DataFrame) (out : OutFrame) (dbg : Debug) :
  process_dataframe pd_to_numeric pd_to_datetime pf df = inr (out, dbg) ->
  exists cust_id doc_no doc_date bal,
    _pick_column (columns df) BALANCE_COL_CANDIDATES = Some bal /\
    (forall r, survives pd_to_numeric df bal r = true <->
               exists f, to_numeric_value pd_to_numeric (cell_at df bal r) = Float f /\
                         PyFloat.isnan f = false /\ ~ zero_float f) /\
    (forall r, survives pd_to_numeric df bal r = false <->
               no_value (to_numeric_value pd_to_numeric (cell_at df bal r)) = true \/
               exists f, to_numeric_value pd_to_numeric (cell_at df bal r) = Float f /\
                         zero_float f) /\
    (forall r, survives pd_to_numeric df bal r = true <->
               exists f, normalized_balance pd_to_numeric df bal r = Some f /\
                         ~ zero_float f) /\
    out_rows out =
      map (row_of pd_to_numeric pd_to_datetime pf df cust_id doc_no doc_date bal)
        (List.filter (survives pd_to_numeric df bal) (rows df)) /\
    length (Debtor_Reference out) = length (out_rows out) /\
    length (Transaction_Type out) = length (out_rows out) /\
    length (Document_Number out) = length (out_rows out) /\
    length (Document_Date out) = length (out_rows out) /\
    length (Document_Balance out) = length (out_rows out) /\
    rows_removed_balance_0 dbg =
      Z.of_nat (length (List.filter (fun r => negb (survives pd_to_numeric df bal r))
                          (rows df))) /\
    (Z.of_nat (length (out_rows out)) + rows_removed_balance_0 dbg
     = Z.of_nat (length (rows df)))%Z.
Proof.
  intros H.
  destruct (process_dataframe_rows _ _ _ _ _ _ H)
    as (c1 & c2 & c3 & c4 & _ & _ & _ & P4 & (R & E1 & E2 & E3 & E4 & E5) & Hrm).
  exists c1, c2, c3, c4. split; [exact P4|].
  split; [intros r; apply survives_raw|].
  split; [intros r; apply excluded_raw|].
  split; [intros r; apply nonzero_spec|].
  split; [exact R|].
  rewrite R, E1, E2, E3, E4, E5, !length_map.
  do 5 (split; [reflexivity|]). split; [exact Hrm|].
  rewrite Hrm.
  pose proof (filter_partition_length (survives pd_to_numeric df c4) (rows df)).
  lia.
Qed.

(** C5: in every output row the transaction type is ["INV"] exactly when
    the normalized balance of its input row is present and strictly
    positive, and ["CRD"] in every other case. *)
Theorem transaction_type_by_balance_sign
        (pd_to_numeric : string -> option PyFloat.float)
        (pd_to_datetime : string -> option PyDate.date) (pf : Platform)
        (df : DataFrame) (out : OutFrame) (dbg : Debug) :
  process_dataframe pd_to_numeric pd_to_datetime pf df = inr (out, dbg) ->
  exists bal,
    _pick_column (columns df) BALANCE_COL_CANDIDATES = Some bal /\
    Forall2
      (fun r o =>
         (row_type o = "INV" <->
          exists f, normalized_balance pd_to_numeric df bal r = Some f /\
                    positive_float f) /\
         (row_type o = "CRD" <->
          ~ exists f, normalized_balance pd_to_numeric df bal r = Some f /\
                      positive_float f))
      (List.filter (survives pd_to_numeric df bal) (rows df))
      (out_rows out).
Proof.
  intros H.
  destruct (process_dataframe_rows _ _ _ _ _ _ H)
    as (c1 & c2 & c3 & c4 & _ & _ & _ & P4 & (R & _) & _).
  exists c4. split; [exact P4|]. rewrite R.
  apply Forall2_map_self. intros r. cbn [row_of row_type].
  split; [apply transaction_type_INV | apply transaction_type_CRD].
Qed.

(** C8, as the code has it: the document number of an output row whose
    transaction-number cell is missing is never the empty text. Where
    [astype(str)] turns a missing value into its text (pandas before 3) it is
    that text, ["nan"] for the float NaN that the readers store; where
    [astype(str)] keeps the value missing (pandas 3) it stays missing. *)
Theorem missing_document_number_by_platform
        (pd_to_numeric : string -> option PyFloat.float)
        (pd_to_datetime : string -> option PyDate.date) (pf : Platform)
        (df : DataFrame) (out : OutFrame) (dbg : Debug) :
  process_dataframe pd_to_numeric pd_to_datetime pf df = inr (out, dbg) ->
  exists doc_no bal,
    _pick_column (columns df) TRANS_NO_COL_CANDIDATES = Some doc_no /\
    _pick_column (columns df) BALANCE_COL_CANDIDATES = Some bal /\
    Forall2
      (fun r o =>
         pd_isna (cell_at df doc_no r) = true ->
         (astype_str_keeps_missing pf = false ->
          row_number o = Some (str (cell_at df doc_no r)) /\
          (cell_at df doc_no r = Missing -> row_number o = Some "nan")) /\
         (astype_str_keeps_missing pf = true -> row_number o = None) /\
         row_number o <> Some "")
      (List.filter (survives pd_to_numeric df bal) (rows df))
      (out_rows out).
Proof.
  intros H.
  destruct (process_dataframe_rows _ _ _ _ _ _ H)
    as (c1 & c2 & c3 & c4 & _ & P2 & _ & P4 & (R & _) & _).
  exists c2, c4. do 2 (split; [assumption|]). rewrite R.
  apply Forall2_map_self. intros r Hm. cbn [row_of row_number].
  unfold document_number.
  destruct (cell_at df c2 r) as [|m|t]; [| |discriminate Hm].
  - split; [|split].
    + intros ->. split; reflexivity.
    + intros ->. reflexivity.
    + destruct (astype_str_keeps_missing pf); discriminate.
  - split; [|split].
    + intros ->. split; [destruct m; reflexivity | discriminate].
    + intros ->. reflexivity.
    + destruct (astype_str_keeps_missing pf); [discriminate|].
      destruct m; discriminate.
Qed.

Example sample_frame_rows :
  exists out dbg,
    process_dataframe no_numeric no_datetime pandas2_glibc sample_frame = inr (out, dbg) /\
    rows_removed_balance_0 dbg = 2%Z /\
    map row_debtor (out_rows out) = ["123456"; "000002"] /\
    map row_type (out_rows out) = ["INV"; "CRD"] /\
    map row_number (out_rows out) = [Some "TXN1"; Some "nan"] /\
    map row_date (out_rows out) = ["07/03/2024"; "07/03/2024"] /\
    map row_balance (out_rows out) =
      [Some (PyFloat.of_Z 1200); Some (PyFloat.of_Z (-50))].
Proof. do 2 eexists. vm_compute. repeat split; reflexivity. Qed.

Lemma process_dataframe_filters_rows_witness :
  exists out dbg,
    process_dataframe no_numeric no_datetime pandas2_glibc sample_frame = inr (out, dbg) /\
    rows_removed_balance_0 dbg = 2%Z /\
    (Z.of_nat (length (out_rows out)) + rows_removed_balance_0 dbg = 4)%Z.
Proof.
  destruct (process_dataframe no_numeric no_datetime pandas2_glibc sample_frame)
    as [e|[out dbg]] eqn:H.
  - vm_compute in H. discriminate.
  - exists out, dbg. split; [reflexivity|].
    destruct (process_dataframe_filters_rows _ _ _ _ _ _ H)
      as (c1 & c2 & c3 & c4 & P4 & _ & _ & _ & _ & _ & _ & _ & _ & _ & Hrm & Hsum).
    split; [|exact Hsum].
    vm_compute in P4. injection P4 as <-.
    rewrite Hrm. vm_compute. reflexivity.
Defined.

Lemma transaction_type_by_balance_sign_witness :
  exists out dbg bal,
    process_dataframe no_numeric no_datetime pandas2_glibc sample_frame = inr (out, dbg) /\
    Forall2
      (fun r o =>
         (row_type o = "INV" <->
          exists f, normalized_balance no_numeric sample_frame bal r = Some f /\
                    positive_float f) /\
         (row_type o = "CRD" <->
          ~ exists f, normalized_balance no_numeric sample_frame bal r = Some f /\
                      positive_float f))
      (List.filter (survives no_numeric sample_frame bal) (rows sample_frame))
      (out_rows out).
Proof.
  destruct (process_dataframe no_numeric no_datetime pandas2_glibc sample_frame)
    as [e|[out dbg]] eqn:H.
  - vm_compute in H. discriminate.
  - destruct (transaction_type_by_balance_sign _ _ _ _ _ _ H) as (bal & _ & HF).
    exists out, dbg, bal. split; [reflexivity | exact HF].
Defined.

Lemma missing_document_number_by_platform_witness :
  exists out dbg doc_no bal,
    process_dataframe no_numeric no_datetime pandas2_glibc sample_frame = inr (out, dbg) /\
    Forall2
      (fun r o =>
         pd_isna (cell_at sample_frame doc_no r) = true ->
         (astype_str_keeps_missing pandas2_glibc = false ->
          row_number o = Some (str (cell_at sample_frame doc_no r)) /\
          (cell_at sample_frame doc_no r = Missing -> row_number o = Some "nan")) /\
         (astype_str_keeps_missing pandas2_glibc = true -> row_number o = None) /\
         row_number o <> Some "")
      (List.filter (survives no_numeric sample_frame bal) (rows sample_frame))
      (out_rows out).
Proof.
  destruct (process_dataframe no_numeric no_datetime pandas2_glibc sample_frame)
    as [e|[out dbg]] eqn:H.
  - vm_compute in H. discriminate.
  - destruct (missing_document_number_by_platform _ _ _ _ _ _ H)
      as (doc & bal & _ & _ & HF).
    exists out, dbg, doc, bal. split; [reflexivity | exact HF].
Defined.

(** The sentence of the specification fails where [astype(str)] keeps a
    missing value missing: the row of [sample_frame] without a transaction
    number has a missing document number, not the text ["nan"]. *)
Lemma missing_document_number_counterexample :
  ~ missing_document_number_as_specified.
Proof.
  intros H.
  destruct (process_dataframe no_numeric no_datetime pandas3_glibc sample_frame)
    as [e|[out dbg]] eqn:E.
  - vm_compute in E. discriminate.
  - specialize (H no_numeric no_datetime pandas3_glibc sample_frame out dbg
                  "Transaction_Number" "Balance" E).
    assert (_pick_column (columns sample_frame) TRANS_NO_COL_CANDIDATES
            = Some "Transaction_Number") as P2 by (vm_compute; reflexivity).
    assert (_pick_column (columns sample_frame) BALANCE_COL_CANDIDATES
            = Some "Balance") as P4 by (vm_compute; reflexivity).
    specialize (H P2 P4).
    vm_compute in E. injection E as Eo Ed. subst out dbg.
    vm_compute in H.
    inversion H as [|r1 o1 l1 l1' _ H2]; subst.
    inversion H2 as [|r2 o2 l2 l2' Hrow _]; subst.
    discriminate (Hrow eq_refl).
Qed.

(** C9: the filter looks at the unrounded balance. A balance cell ["0.004"]
    is a nonzero float, so its row is kept, and its Document Balance, rounded
    to two decimals, is the float zero: an output row can show a zero
    balance. *)
Theorem kept_row_with_zero_document_balance
        (pd_to_numeric : string -> option PyFloat.float)
        (pd_to_datetime : string -> option PyDate.date) (pf : Platform) :
  exists out dbg,
    process_dataframe pd_to_numeric pd_to_datetime pf small_balance_frame
      = inr (out, dbg) /\
    rows_removed_balance_0 dbg = 0%Z /\
    map (normalized_balance pd_to_numeric small_balance_frame "balance")
      (rows small_balance_frame)
      = [Some (S754_finite false 4611686018427388 (-60))] /\
    map (survives pd_to_numeric small_balance_frame "balance")
      (rows small_balance_frame) = [true] /\
    out_rows out =
      [mkrow "123456" "INV" (Some "TXN1") "07/03/2024" (Some (S754_zero false))] /\
    Document_Balance out = [Some PyFloat.zero].
Proof. do 2 eexists. vm_compute. repeat split; reflexivity. Qed.

(** ** Dates: rendering and strict parsing *)

Lemma Z_range_cases (P : Z -> Prop) (lo : Z) (n : nat) :
  (forall k : nat, (k < n)%nat -> P (lo + Z.of_nat k)%Z) ->
  forall z, (lo <= z < lo + Z.of_nat n)%Z -> P z.
Proof.
  intros H z Hz.
  replace z with (lo + Z.of_nat (Z.to_nat (z - lo)))%Z by lia.
  apply H. lia.
Qed.

Lemma digit_char_facts (k : Z) :
  (0 <= k <= 9)%Z ->
  PyStr.isdigit (PyDate.digit_char k) = true /\
  PyDate.dv (PyDate.digit_char k) = k /\
  PyStr.isspace (PyDate.digit_char k) = false /\
  Ascii.eqb (PyDate.digit_char k) "/" = false /\
  Ascii.eqb (PyDate.digit_char k) "-" = false /\
  Ascii.eqb (PyDate.digit_char k) "." = false.
Proof.
  intros Hk. pattern k. apply (Z_range_cases _ 0%Z 10); [|lia]. clear k Hk.
  intros k Hk. do 10 (destruct k as [|k]; [repeat split; reflexivity|]). lia.
Qed.

Lemma flat_map_all_nil {A B : Type} (g : A -> list B) (l : list A) :
  (forall x, In x l -> g x = []) -> flat_map g l = [].
Proof.
  induction l as [|x l IH]; intros H; simpl; [reflexivity|].
  rewrite (H x) by (left; reflexivity). apply IH. intros y Hy. apply H. right. exact Hy.
Qed.

(** A literal that differs from the next character stops the match. *)
Lemma regex_match_lit_mismatch (c x : ascii) (rest : list PyDate.directive)
      (t : string) (f : PyDate.date) :
  Ascii.eqb x c = false ->
  PyDate.regex_match (PyDate.lit c :: rest) (String x t) f = [].
Proof. intros H. cbn [PyDate.regex_match PyDate.step]. rewrite H. reflexivity. Qed.

Lemma regex_match_lit_match (c : ascii) (rest : list PyDate.directive)
      (t : string) (f : PyDate.date) :
  PyDate.regex_match (PyDate.lit c :: rest) (String c t) f
  = PyDate.regex_match rest t f.
Proof.
  cbn [PyDate.regex_match PyDate.step]. rewrite Ascii.eqb_refl.
  cbn [flat_map]. apply app_nil_r.
Qed.

(** [%d] and [%m] read one or two characters. *)
Lemma match_d_consumes (s r : string) (v : Z) :
  In (v, r) (PyDate.match_d s) ->
  (exists a, s = String a r) \/ (exists a b, s = String a (String b r)).
Proof.
  unfold PyDate.match_d, PyDate.two, PyDate.one.
  destruct s as [|a [|b s]]; cbn [app]; intros H;
    repeat match type of H with
           | context [if ?c then _ else _] => destruct c
           end;
    cbn in H; intuition (try discriminate);
    match goal with E : (_, _) = (_, _) |- _ => injection E as _ <- end; eauto.
Qed.

Lemma match_m_consumes (s r : string) (v : Z) :
  In (v, r) (PyDate.match_m s) ->
  (exists a, s = String a r) \/ (exists a b, s = String a (String b r)).
Proof.
  unfold PyDate.match_m, PyDate.two, PyDate.one.
  destruct s as [|a [|b s]]; cbn [app]; intros H;
    repeat match type of H with
           | context [if ?c then _ else _] => destruct c
           end;
    cbn in H; intuition (try discriminate);
    match goal with E : (_, _) = (_, _) |- _ => injection E as _ <- end; eauto.
Qed.

(** A format that starts with [%d] or [%m] and a separator rejects a text
    whose second and third characters both differ from that separator. *)
Lemma regex_match_d_rejects (c a b x : ascii) (rest : list PyDate.directive)
      (t : string) (f : PyDate.date) :
  Ascii.eqb b c = false -> Ascii.eqb x c = false ->
  PyDate.regex_match (PyDate.dir_d :: PyDate.lit c :: rest)
    (String a (String b (String x t))) f = [].
Proof.
  intros Hb Hx. cbn [PyDate.regex_match PyDate.step].
  apply flat_map_all_nil. intros [f' r] Hin.
  apply in_map_iff in Hin as ([v r'] & [= <- <-] & Hin).
  apply match_d_consumes in Hin as [(a' & [= -> <-])|(a' & b' & [= -> -> <-])];
    cbn [PyDate.step]; [rewrite Hb | rewrite Hx]; reflexivity.
Qed.

Lemma regex_match_m_rejects (c a b x : ascii) (rest : list PyDate.directive)
      (t : string) (f : PyDate.date) :
  Ascii.eqb b c = false -> Ascii.eqb x c = false ->
  PyDate.regex_match (PyDate.dir_m :: PyDate.lit c :: rest)
    (String a (String b (String x t))) f = [].
Proof.
  intros Hb Hx. cbn [PyDate.regex_match PyDate.step].
  apply flat_map_all_nil. intros [f' r] Hin.
  apply in_map_iff in Hin as ([v r'] & [= <- <-] & Hin).
  apply match_m_consumes in Hin as [(a' & [= -> <-])|(a' & b' & [= -> -> <-])];
    cbn [PyDate.step]; [rewrite Hb | rewrite Hx]; reflexivity.
Qed.

(** [%Y] needs four digits. *)
Lemma regex_match_Y_rejects (a b x : ascii) (rest : list PyDate.directive)
      (t : string) (f : PyDate.date) :
  PyStr.isdigit x = false ->
  PyDate.regex_match (PyDate.dir_Y :: rest) (String a (String b (String x t))) f = [].
Proof.
  intros Hx. cbn [PyDate.regex_match PyDate.step]. unfold PyDate.match_Y.
  destruct t as [|e t]; [reflexivity|].
  rewrite Hx, !andb_false_r. reflexivity.
Qed.

(** A year followed by the wrong separator. *)
Lemma regex_match_Y_lit_rejects (c a b d e x : ascii) (rest : list PyDate.directive)
      (t : string) (f : PyDate.date) :
  Ascii.eqb x c = false ->
  PyDate.regex_match (PyDate.dir_Y :: PyDate.lit c :: rest)
    (String a (String b (String d (String e (String x t))))) f = [].
Proof.
  intros Hx. cbn [PyDate.regex_match PyDate.step]. unfold PyDate.match_Y.
  destruct (_ && _)%bool; [|reflexivity].
  cbn [map flat_map PyDate.step]. rewrite Hx. reflexivity.
Qed.

Lemma best_match_nil (s : string) (f : PyDate.date) : best_match [] s f (f, s).
Proof. exists []. reflexivity. Qed.

Lemma best_match_lit (c : ascii) (rest : list PyDate.directive) (t : string)
      (f : PyDate.date) (x : PyDate.date * string) :
  best_match rest t f x -> best_match (PyDate.lit c :: rest) (String c t) f x.
Proof. intros [l H]. exists l. rewrite regex_match_lit_match. exact H. Qed.

Lemma match_d_pad2 (d : Z) (t : string) :
  (1 <= d <= 31)%Z -> exists l, PyDate.match_d (PyDate.pad2 d ++ t) = (d, t) :: l.
Proof.
  intros Hd. pattern d. apply (Z_range_cases _ 1%Z 31); [|lia]. clear d Hd.
  intros k Hk. do 31 (destruct k as [|k]; [eexists; reflexivity|]). lia.
Qed.

Lemma match_m_pad2 (m : Z) (t : string) :
  (1 <= m <= 12)%Z -> exists l, PyDate.match_m (PyDate.pad2 m ++ t) = (m, t) :: l.
Proof.
  intros Hm. pattern m. apply (Z_range_cases _ 1%Z 12); [|lia]. clear m Hm.
  intros k Hk. do 12 (destruct k as [|k]; [eexists; reflexivity|]). lia.
Qed.

(** A day above 12 is not a month: [%m] only reads its first digit. *)
Lemma match_m_pad2_large (d : Z) (t : string) :
  (13 <= d <= 31)%Z ->
  PyDate.match_m (PyDate.pad2 d ++ t)
  = [((d / 10)%Z, String (PyDate.digit_char (d mod 10)) t)].
Proof.
  intros Hd. pattern d. apply (Z_range_cases _ 13%Z 19); [|lia]. clear d Hd.
  intros k Hk. do 19 (destruct k as [|k]; [reflexivity|]). lia.
Qed.

Lemma match_Y_pad4 (y : Z) (t : string) :
  (0 <= y <= 9999)%Z -> PyDate.match_Y (PyDate.pad4 y ++ t) = [(y, t)].
Proof.
  intros Hy. cbv [PyDate.pad4 PyDate.match_Y String.append].
  destruct (digit_char_facts (y / 1000)) as (-> & -> & _);
    [Z.div_mod_to_equations; lia|].
  destruct (digit_char_facts (y / 100 mod 10)) as (-> & -> & _);
    [Z.div_mod_to_equations; lia|].
  destruct (digit_char_facts (y / 10 mod 10)) as (-> & -> & _);
    [Z.div_mod_to_equations; lia|].
  destruct (digit_char_facts (y mod 10)) as (-> & -> & _);
    [Z.div_mod_to_equations; lia|].
  cbn [andb]. do 2 f_equal. Z.div_mod_to_equations. lia.
Qed.

Lemma best_match_d (d : Z) (rest : list PyDate.directive) (t : string)
      (f : PyDate.date) (x : PyDate.date * string) :
  (1 <= d <= 31)%Z ->
  best_match rest t (PyDate.mkdate (PyDate.year f) (PyDate.month f) d) x ->
  best_match (PyDate.dir_d :: rest) (PyDate.pad2 d ++ t) f x.
Proof.
  intros Hd [l H]. destruct (match_d_pad2 d t Hd) as [l0 E].
  unfold best_match. cbn [PyDate.regex_match PyDate.step]. rewrite E.
  cbn [map flat_map]. rewrite H. eexists. reflexivity.
Qed.

Lemma best_match_m (m : Z) (rest : list PyDate.directive) (t : string)
      (f : PyDate.date) (x : PyDate.date * string) :
  (1 <= m <= 12)%Z ->
  best_match rest t (PyDate.mkdate (PyDate.year f) m (PyDate.day f)) x ->
  best_match (PyDate.dir_m :: rest) (PyDate.pad2 m ++ t) f x.
Proof.
  intros Hm [l H]. destruct (match_m_pad2 m t Hm) as [l0 E].
  unfold best_match. cbn [PyDate.regex_match PyDate.step]. rewrite E.
  cbn [map flat_map]. rewrite H. eexists. reflexivity.
Qed.

Lemma best_match_Y (y : Z) (rest : list PyDate.directive) (t : string)
      (f : PyDate.date) (x : PyDate.date * string) :
  (0 <= y <= 9999)%Z ->
  best_match rest t (PyDate.mkdate y (PyDate.month f) (PyDate.day f)) x ->
  best_match (PyDate.dir_Y :: rest) (PyDate.pad4 y ++ t) f x.
Proof.
  intros Hy [l H]. unfold best_match.
  cbn [PyDate.regex_match PyDate.step]. rewrite (match_Y_pad4 y t Hy).
  cbn [map flat_map]. rewrite H. eexists. reflexivity.
Qed.

Lemma valid_bounds (y m d : Z) :
  PyDate.valid (PyDate.mkdate y m d) = true ->
  (1 <= y <= 9999)%Z /\ (1 <= m <= 12)%Z /\ (1 <= d <= 31)%Z.
Proof.
  unfold PyDate.valid, PyDate.days_in_month. cbn [PyDate.year PyDate.month PyDate.day].
  intros H. repeat (apply andb_true_iff in H as [H ?]).
  repeat match goal with
         | H : (_ <=? _)%Z = true |- _ => apply Z.leb_le in H
         end.
  repeat match goal with
         | H : context [if ?c then _ else _] |- _ => destruct c
         end; lia.
Qed.

Lemma strptime_of_best_match (fmt : list PyDate.directive) (s : string)
      (D : PyDate.date) :
  best_match fmt s PyDate.fields_init (D, EmptyString) ->
  PyDate.valid D = true ->
  PyDate.strptime s fmt = Some D.
Proof. intros [l H] Hv. unfold PyDate.strptime. rewrite H, Hv. reflexivity. Qed.

Lemma strptime_of_no_match (fmt : list PyDate.directive) (s : string) :
  PyDate.regex_match fmt s PyDate.fields_init = [] -> PyDate.strptime s fmt = None.
Proof. intros H. unfold PyDate.strptime. rewrite H. reflexivity. Qed.

Lemma strip_id (a : ascii) (t : string) :
  PyStr.isspace a = false ->
  (forall c, PyStr.last_char (String a t) = Some c -> PyStr.isspace c = false) ->
  PyStr.strip (String a t) = String a t.
Proof.
  intros Ha Hl. unfold PyStr.strip. cbn [PyStr.lstrip]. rewrite Ha.
  apply rstrip_id. exact Hl.
Qed.

(** Side conditions on the characters of a rendered date. *)
Local Ltac digit_side :=
  first [ reflexivity
        | apply digit_char_facts; Z.div_mod_to_equations; lia ].

(** Spell a rendered date out character by character. *)
Local Ltac spell_out :=
  cbv [PyDate.zero_padded fold_right PyDate.render_item
       PyDate.fmt_dmy_slash PyDate.fmt_dmy_dash PyDate.fmt_ymd_dash
       PyDate.fmt_mdy_slash PyDate.fmt_ymd_slash PyDate.fmt_dmy_dot
       PyDate.pad2 PyDate.pad4 String.append
       PyDate.year PyDate.month PyDate.day].

(** Every rendering starts and ends with a digit: [strip] leaves it alone. *)
Lemma strip_rendered (fmt : list PyDate.directive) (D : PyDate.date) :
  In fmt fmts -> PyDate.valid D = true ->
  PyStr.strip (PyDate.zero_padded D fmt) = PyDate.zero_padded D fmt.
Proof.
  intros Hin Hv. destruct D as [y m d].
  destruct (valid_bounds _ _ _ Hv) as (Hy & Hm & Hd).
  cbv [fmts] in Hin. cbn [In] in Hin.
  destruct Hin as [<-|[<-|[<-|[<-|[<-|[<-|[]]]]]]]; spell_out;
    (apply strip_id; [digit_side|]);
    cbn [PyStr.last_char]; intros c [= <-]; digit_side.
Qed.

(** Each strict format reads back its own rendering of a valid date. *)
Lemma strptime_own_rendering (fmt : list PyDate.directive) (D : PyDate.date) :
  In fmt fmts -> PyDate.valid D = true ->
  PyDate.strptime (PyDate.zero_padded D fmt) fmt = Some D.
Proof.
  intros Hin Hv. apply strptime_of_best_match; [|exact Hv].
  destruct D as [y m d].
  destruct (valid_bounds _ _ _ Hv) as (Hy & Hm & Hd).
  cbv [fmts] in Hin. cbn [In] in Hin.
  destruct Hin as [<-|[<-|[<-|[<-|[<-|[<-|[]]]]]]];
    cbv [PyDate.zero_padded fold_right PyDate.render_item
         PyDate.fmt_dmy_slash PyDate.fmt_dmy_dash PyDate.fmt_ymd_dash
         PyDate.fmt_mdy_slash PyDate.fmt_ymd_slash PyDate.fmt_dmy_dot
         PyDate.year PyDate.month PyDate.day];
    repeat first [ apply best_match_d; [lia|]
                 | apply best_match_m; [lia|]
                 | apply best_match_Y; [lia|]
                 | apply best_match_lit
                 | apply best_match_nil ].
Qed.

(** The day-first format does not read a month-first text whose day is
    above 12. *)
Lemma day_first_rejects_month_first (m d : Z) (rest : list PyDate.directive)
      (t : string) (f : PyDate.date) :
  (1 <= m <= 12)%Z -> (13 <= d <= 31)%Z ->
  PyDate.regex_match
    (PyDate.dir_d :: PyDate.lit "/" :: PyDate.dir_m :: PyDate.lit "/" :: rest)
    (PyDate.pad2 m ++ String "/" (PyDate.pad2 d ++ t)) f = [].
Proof.
  intros Hm Hd.
  change (PyDate.regex_match (PyDate.dir_d :: ?r) ?s f)
    with (flat_map (fun '(f', r0) => PyDate.regex_match r r0 f')
            (PyDate.step PyDate.dir_d s f)).
  apply flat_map_all_nil. intros [f' r] Hin. cbn [PyDate.step] in Hin.
  apply in_map_iff in Hin as ([v r'] & [= <- <-] & Hin).
  change (PyDate.pad2 m ++ String "/" (PyDate.pad2 d ++ t))%string
    with (String (PyDate.digit_char (m / 10))
            (String (PyDate.digit_char (m mod 10))
               (String "/" (PyDate.pad2 d ++ t)))) in Hin.
  apply match_d_consumes in Hin as [(a' & [= _ <-])|(a' & b' & [= _ _ <-])].
  - apply regex_match_lit_mismatch. digit_side.
  - rewrite regex_match_lit_match.
    cbn [PyDate.regex_match PyDate.step].
    rewrite (match_m_pad2_large d t Hd). cbn [map flat_map].
    destruct (digit_char_facts (d mod 10)) as (_ & _ & _ & -> & _);
      [Z.div_mod_to_equations; lia | reflexivity].
Qed.

Lemma try_formats_rendered (fmt : list PyDate.directive) (D : PyDate.date) :
  In fmt fmts -> PyDate.valid D = true ->
  (fmt = PyDate.fmt_mdy_slash ->
   (12 < PyDate.day D)%Z \/ PyDate.day D = PyDate.month D) ->
  try_formats (PyDate.zero_padded D fmt) fmts = Some D.
Proof.
  intros Hin Hv Hmdy.
  pose proof (strptime_own_rendering fmt D Hin Hv) as Hown.
  destruct D as [y m d].
  destruct (valid_bounds _ _ _ Hv) as (Hy & Hm & Hd).
  assert (Hno : forall F G,
             PyDate.regex_match G (PyDate.zero_padded (PyDate.mkdate y m d) F)
               PyDate.fields_init = [] ->
             PyDate.strptime (PyDate.zero_padded (PyDate.mkdate y m d) F) G = None)
    by (intros F G; apply strptime_of_no_match).
  cbv [fmts] in Hin. cbn [In] in Hin. cbv [fmts]. cbn [try_formats].
  destruct Hin as [<-|[<-|[<-|[<-|[<-|[<-|[]]]]]]].
  - rewrite Hown. reflexivity.
  - rewrite (Hno PyDate.fmt_dmy_dash PyDate.fmt_dmy_slash)
      by (spell_out; apply regex_match_d_rejects; digit_side).
    rewrite Hown. reflexivity.
  - rewrite (Hno PyDate.fmt_ymd_dash PyDate.fmt_dmy_slash)
      by (spell_out; apply regex_match_d_rejects; digit_side).
    rewrite (Hno PyDate.fmt_ymd_dash PyDate.fmt_dmy_dash)
      by (spell_out; apply regex_match_d_rejects; digit_side).
    rewrite Hown. reflexivity.
  - destruct (Hmdy eq_refl) as [Hlate|Heq]; cbn [PyDate.day PyDate.month] in *.
    + rewrite (Hno PyDate.fmt_mdy_slash PyDate.fmt_dmy_slash)
        by (apply day_first_rejects_month_first;
            cbn [PyDate.day PyDate.month]; lia).
      rewrite (Hno PyDate.fmt_mdy_slash PyDate.fmt_dmy_dash)
        by (spell_out; apply regex_match_d_rejects; digit_side).
      rewrite (Hno PyDate.fmt_mdy_slash PyDate.fmt_ymd_dash)
        by (spell_out; apply regex_match_Y_rejects; digit_side).
      rewrite Hown. reflexivity.
    + subst d.
      change (PyDate.zero_padded (PyDate.mkdate y m m) PyDate.fmt_mdy_slash)
        with (PyDate.zero_padded (PyDate.mkdate y m m) PyDate.fmt_dmy_slash).
      rewrite (strptime_own_rendering PyDate.fmt_dmy_slash (PyDate.mkdate y m m));
        [reflexivity | left; reflexivity | exact Hv].
  - rewrite (Hno PyDate.fmt_ymd_slash PyDate.fmt_dmy_slash)
      by (spell_out; apply regex_match_d_rejects; digit_side).
    rewrite (Hno PyDate.fmt_ymd_slash PyDate.fmt_dmy_dash)
      by (spell_out; apply regex_match_d_rejects; digit_side).
    rewrite (Hno PyDate.fmt_ymd_slash PyDate.fmt_ymd_dash)
      by (spell_out; apply regex_match_Y_lit_rejects; digit_side).
    rewrite (Hno PyDate.fmt_ymd_slash PyDate.fmt_mdy_slash)
      by (spell_out; apply regex_match_m_rejects; digit_side).
    rewrite Hown. reflexivity.
  - rewrite (Hno PyDate.fmt_dmy_dot PyDate.fmt_dmy_slash)
      by (spell_out; apply regex_match_d_rejects; digit_side).
    rewrite (Hno PyDate.fmt_dmy_dot PyDate.fmt_dmy_dash)
      by (spell_out; apply regex_match_d_rejects; digit_side).
    rewrite (Hno PyDate.fmt_dmy_dot PyDate.fmt_ymd_dash)
      by (spell_out; apply regex_match_Y_rejects; digit_side).
    rewrite (Hno PyDate.fmt_dmy_dot PyDate.fmt_mdy_slash)
      by (spell_out; apply regex_match_m_rejects; digit_side).
    rewrite (Hno PyDate.fmt_dmy_dot PyDate.fmt_ymd_slash)
      by (spell_out; apply regex_match_Y_rejects; digit_side).
    rewrite Hown. reflexivity.
Qed.

(** A month-first text whose day is at most 12 is read day-first: the date
    comes back with day and month exchanged. *)
Lemma month_first_read_day_first (D : PyDate.date) :
  PyDate.valid D = true -> (PyDate.day D <= 12)%Z ->
  try_formats (PyDate.zero_padded D PyDate.fmt_mdy_slash) fmts
  = Some (PyDate.mkdate (PyDate.year D) (PyDate.day D) (PyDate.month D)).
Proof.
  intros Hv Hd. destruct D as [y m d]. cbn [PyDate.year PyDate.month PyDate.day] in *.
  destruct (valid_bounds _ _ _ Hv) as (Hy & Hm & Hd').
  change (PyDate.zero_padded (PyDate.mkdate y m d) PyDate.fmt_mdy_slash)
    with (PyDate.zero_padded (PyDate.mkdate y d m) PyDate.fmt_dmy_slash).
  cbv [fmts]. cbn [try_formats].
  rewrite (strptime_own_rendering PyDate.fmt_dmy_slash (PyDate.mkdate y d m));
    [reflexivity | left; reflexivity |].
  unfold PyDate.valid, PyDate.days_in_month.
  cbn [PyDate.year PyDate.month PyDate.day].
  repeat (apply andb_true_iff; split); try (apply Z.leb_le; lia).
  apply Z.leb_le.
  repeat match goal with |- context [if ?c then _ else _] => destruct c end; lia.
Qed.

(** [strftime] writes the zero-padded text when the year has four digits or
    the platform pads [%Y]. *)
Lemma strftime_zero_padded (pads : bool) (d : PyDate.date)
      (fmt : list PyDate.directive) :
  (1000 <= PyDate.year d)%Z \/ pads = true ->
  PyDate.strftime pads d fmt = PyDate.zero_padded d fmt.
Proof.
  intros H. unfold PyDate.strftime, PyDate.zero_padded.
  induction fmt as [|it fmt IH]; cbn [fold_right]; [reflexivity|].
  rewrite IH. f_equal.
  destruct it; cbn [PyDate.strftime_item PyDate.render_item]; try reflexivity.
  unfold PyDate.year_text.
  destruct H as [H| ->].
  - apply Z.leb_le in H. rewrite H. reflexivity.
  - rewrite orb_true_r. reflexivity.
Qed.






(** It also fails, on a platform that does not pad [%Y], for a year below
    1000: 1 January 999 written ["01/01/0999"] is rendered ["01/01/999"]. *)
Example date_round_trip_small_year :
  PyDate.valid (PyDate.mkdate 999 1 1) = true /\
  PyDate.zero_padded (PyDate.mkdate 999 1 1) PyDate.fmt_dmy_slash = "01/01/0999" /\
  _format_date_series no_datetime pandas2_glibc [Val "01/01/0999"] = ["01/01/999"] /\
  _format_date_series no_datetime pandas2_glibc [Val "01/01/999"] = [""].
Proof. vm_compute. repeat split; reflexivity. Qed.

(** * Further properties of the code *)

(** ** Column detection *)

Lemma exact_loop_Some (m : gmap string string) (candidates : list string) (h : string) :
  exact_loop m candidates = Some h ->
  exists c, c ∈ candidates /\ m !! norm_key c = Some h.
Proof.
  induction candidates as [|c cs IH]; simpl; [discriminate|].
  destruct (m !! norm_key c) as [h0|] eqn:E.
  - intros [= ->]. exists c. split; [left | exact E].
  - intros H. destruct (IH H) as (c' & Hc' & Hl). exists c'. split; [right|]; assumption.
Qed.

Lemma substring_loop_Some (cols candidates : list string) (h : string) :
  substring_loop cols candidates = Some h ->
  h ∈ cols /\ substring_match candidates h.
Proof.
  induction cols as [|c cols IH]; simpl; [discriminate|].
  destruct (some_candidate_in (squash c) candidates) eqn:E.
  - intros [= ->]. split; [left | apply some_candidate_in_spec; exact E].
  - intros H. destruct (IH H) as [Hin Hs]. split; [right|]; assumption.
Qed.

Lemma lookup_exact_match (cols : list string) (c h : string) :
  lower_map cols !! norm_key c = Some h -> h ∈ cols /\ norm_key h = norm_key c.
Proof.
  rewrite lower_map_lookup. intros H.
  apply last_with_key_Some in H as (pre & post & -> & Hk & _).
  split; [apply elem_of_app; right; left | exact Hk].
Qed.

Lemma pick_column_member (cols candidates : list string) (h : string) :
  _pick_column cols candidates = Some h -> h ∈ cols.
Proof.
  unfold _pick_column.
  destruct (exact_loop (lower_map cols) candidates) as [h0|] eqn:E.
  - intros [= ->]. apply exact_loop_Some in E as (c & _ & Hl).
    apply lookup_exact_match in Hl. tauto.
  - intros H. apply substring_loop_Some in H. tauto.
Qed.

(** [_pick_column] only ever answers with a header of the table. *)
Theorem pick_column_returns_header (cols candidates : list string) (h : string) :
  _pick_column cols candidates = Some h -> h ∈ cols.
Proof.
  unfold _pick_column.
  destruct (exact_loop (lower_map cols) candidates) as [h0|] eqn:E.
  - intros [= ->]. apply exact_loop_Some in E as (c & _ & Hl).
    rewrite lower_map_lookup in Hl.
    apply last_with_key_Some in Hl as (pre & post & -> & _).
    apply elem_of_app. right. left.
  - intros H. apply substring_loop_Some in H as [Hin _]. exact Hin.
Qed.

Lemma pick_column_returns_header_witness :
  "Closing Balance" ∈ ["Cust Name"; "Closing Balance"; "Balance B/F"].
Proof.
  apply (pick_column_returns_header _ ["balance"]). vm_compute. reflexivity.
Defined.

Lemma exact_loop_None_inv (m : gmap string string) (candidates : list string) :
  exact_loop m candidates = None ->
  forall c, c ∈ candidates -> m !! norm_key c = None.
Proof.
  induction candidates as [|c0 cs IH]; simpl; intros H c Hc; [inversion Hc|].
  destruct (m !! norm_key c0) eqn:E; [discriminate|].
  apply elem_of_cons in Hc as [->|Hc]; [exact E | apply IH; assumption].
Qed.

Lemma substring_loop_None_inv (cols candidates : list string) :
  substring_loop cols candidates = None ->
  forall h, h ∈ cols -> ~ substring_match candidates h.
Proof.
  induction cols as [|c0 cols IH]; simpl; intros H h Hh Hs; [inversion Hh|].
  destruct (some_candidate_in (squash c0) candidates) eqn:E; [discriminate|].
  apply elem_of_cons in Hh as [->|Hh].
  - apply some_candidate_in_spec in Hs. congruence.
  - exact (IH H h Hh Hs).
Qed.

Lemma lookup_None_no_exact_match (cols : list string) (c : string) :
  lower_map cols !! norm_key c = None -> ~ exact_match cols c.
Proof.
  rewrite lower_map_lookup. intros L (h & Hin & Hk). apply exact_alias_iff in Hk.
  exact (proj1 (last_with_key_None _ _) L h Hin Hk).
Qed.

(** Detection is absent exactly when no candidate has an exact match and no
    header contains a candidate. *)
Theorem pick_column_None_iff (cols candidates : list string) :
  _pick_column cols candidates = None <->
  (forall c, c ∈ candidates -> ~ exact_match cols c) /\
  (forall h, h ∈ cols -> ~ substring_match candidates h).
Proof.
  split.
  - unfold _pick_column. intros H.
    destruct (exact_loop (lower_map cols) candidates) as [h0|] eqn:E; [discriminate|].
    split.
    + intros c Hc. apply lookup_None_no_exact_match.
      exact (exact_loop_None_inv _ _ E c Hc).
    + apply substring_loop_None_inv. exact H.
  - intros [Hex Hsub]. unfold _pick_column.
    rewrite exact_loop_None
      by (intros c Hc; apply no_exact_match_lookup, Hex, Hc).
    apply substring_loop_None. exact Hsub.
Qed.

Lemma pick_column_None_iff_witness :
  (forall c, c ∈ ["balance"] -> ~ exact_match ["Amount"; "Date"] c) /\
  (forall h, h ∈ ["Amount"; "Date"] -> ~ substring_match ["balance"] h).
Proof.
  apply (proj1 (pick_column_None_iff ["Amount"; "Date"] ["balance"])).
  vm_compute. reflexivity.
Defined.

Lemma norm_key_lower (a b : string) : same_up_to_case a b -> norm_key a = norm_key b.
Proof. unfold same_up_to_case, norm_key. intros ->. reflexivity. Qed.

Lemma squash_lower (a b : string) : same_up_to_case a b -> squash a = squash b.
Proof. unfold same_up_to_case, squash. intros ->. reflexivity. Qed.

Lemma exact_loop_alias_case (m : gmap string string) (cs cs' : list string) :
  Forall2 same_up_to_case cs cs' -> exact_loop m cs = exact_loop m cs'.
Proof.
  induction 1 as [|c c' cs cs' Hc _ IH]; simpl; [reflexivity|].
  rewrite (norm_key_lower c c' Hc), IH. reflexivity.
Qed.

Lemma some_candidate_in_alias_case (low : string) (cs cs' : list string) :
  Forall2 same_up_to_case cs cs' ->
  some_candidate_in low cs = some_candidate_in low cs'.
Proof.
  induction 1 as [|c c' cs cs' Hc _ IH]; simpl; [reflexivity|].
  rewrite (squash_lower c c' Hc), IH. reflexivity.
Qed.

(** The letter case of the aliases does not matter. *)
Theorem pick_column_alias_case (cols cs cs' : list string) :
  Forall2 same_up_to_case cs cs' ->
  _pick_column cols cs = _pick_column cols cs'.
Proof.
  intros H. unfold _pick_column. rewrite (exact_loop_alias_case _ cs cs' H).
  destruct (exact_loop (lower_map cols) cs'); [reflexivity|].
  induction cols as [|c cols IH]; simpl; [reflexivity|].
  rewrite (some_candidate_in_alias_case _ cs cs' H), IH. reflexivity.
Qed.

Lemma pick_column_alias_case_witness :
  _pick_column ["Date"; " Balance "] ["BALANCE"]
  = _pick_column ["Date"; " Balance "] ["balance"].
Proof.
  apply pick_column_alias_case. repeat constructor.
Defined.

Lemma last_with_key_header_case (k : string) (cols cols' : list string) :
  Forall2 same_up_to_case cols cols' ->
  option_Forall2 same_up_to_case (last_with_key k cols) (last_with_key k cols').
Proof.
  induction 1 as [|c c' cols cols' Hc _ IH]; simpl; [constructor|].
  destruct IH as [h h' Hh|]; [constructor; exact Hh|].
  rewrite (norm_key_lower c c' Hc).
  destruct (String.eqb (norm_key c') k); constructor. exact Hc.
Qed.

(** The letter case of the headers does not matter either: recasing the
    headers changes the answer only by the same recasing. *)
Theorem pick_column_header_case (cols cols' candidates : list string) :
  Forall2 same_up_to_case cols cols' ->
  option_Forall2 same_up_to_case
    (_pick_column cols candidates) (_pick_column cols' candidates).
Proof.
  intros H. unfold _pick_column.
  assert (option_Forall2 same_up_to_case
            (exact_loop (lower_map cols) candidates)
            (exact_loop (lower_map cols') candidates)) as Hex.
  { induction candidates as [|c cs IH]; simpl; [constructor|].
    rewrite !lower_map_lookup.
    destruct (last_with_key_header_case (norm_key c) cols cols' H) as [h h' Hh|];
      [constructor; exact Hh | exact IH]. }
  destruct Hex as [h h' Hh|]; [constructor; exact Hh|].
  induction H as [|c c' cols cols' Hc _ IH]; simpl; [constructor|].
  rewrite (squash_lower c c' Hc).
  destruct (some_candidate_in (squash c') candidates); [constructor; exact Hc | exact IH].
Qed.

Lemma pick_column_header_case_witness :
  option_Forall2 same_up_to_case
    (_pick_column ["DATE"; "Closing BALANCE"] ["balance"])
    (_pick_column ["date"; "closing balance"] ["balance"]).
Proof.
  apply pick_column_header_case. repeat constructor.
Defined.

(** ** Trimming *)

Lemma trimmed_strip (s : string) : trimmed s -> PyStr.strip s = s.
Proof.
  intros [Hf Hl]. destruct s as [|a t]; [reflexivity|].
  apply strip_id; [apply (Hf a t eq_refl) | exact Hl].
Qed.

Lemma strip_idempotent (s : string) : PyStr.strip (PyStr.strip s) = PyStr.strip s.
Proof. apply trimmed_strip, strip_trimmed. Qed.

(** ** Shape of the output *)

Lemma debtor_reference_shape (x : cell) :
  debtor_reference x = "" \/ six_digits (debtor_reference x).
Proof.
  unfold debtor_reference. destruct (re_search_six (str x)) as [g|] eqn:E.
  - right. apply re_search_six_sound in E as (p & Hg & _). exact Hg.
  - left. reflexivity.
Qed.

Lemma strftime_day_first_length (pads : bool) (d : PyDate.date) :
  (7 <= String.length (PyDate.strftime pads d PyDate.fmt_dmy_slash) <= 10)%nat.
Proof.
  unfold PyDate.strftime, PyDate.fmt_dmy_slash.
  cbn [fold_right PyDate.strftime_item]. rewrite !strlen_app.
  unfold PyDate.year_text.
  destruct ((1000 <=? PyDate.year d)%Z || pads)%bool; [cbn; lia|].
  destruct (PyDate.year d <? 10)%Z; [cbn; lia|].
  destruct (PyDate.year d <? 100)%Z; cbn; lia.
Qed.

Lemma transaction_type_values (v : option PyFloat.float) :
  transaction_type v = "INV" \/ transaction_type v = "CRD".
Proof.
  unfold transaction_type. destruct v as [f|]; [|right; reflexivity].
  destruct (PyFloat.gt f PyFloat.zero); [left | right]; reflexivity.
Qed.

(** Every row that [process_dataframe] returns has a debtor reference that
    is empty or six digits, a type ["INV"] or ["CRD"], a document number
    that is missing or trimmed, a date that is empty or seven to ten
    characters long, and a balance that is present. *)
Theorem output_rows_well_formed
        (pd_to_numeric : string -> option PyFloat.float)
        (pd_to_datetime : string -> option PyDate.date) (pf : Platform)
        (df : DataFrame) (out : OutFrame) (dbg : Debug) :
  process_dataframe pd_to_numeric pd_to_datetime pf df = inr (out, dbg) ->
  Forall well_formed_row (out_rows out).
Proof.
  intros H.
  destruct (process_dataframe_rows _ _ _ _ _ _ H)
    as (c1 & c2 & c3 & c4 & _ & _ & _ & _ & (R & _) & _).
  rewrite R. apply Forall_forall. intros o Ho.
  apply list_elem_of_In, in_map_iff in Ho as (r & <- & Hr).
  apply filter_In in Hr as [_ Hs].
  unfold well_formed_row. cbn [row_of row_debtor row_type row_number row_date row_balance].
  split; [apply debtor_reference_shape|].
  split; [apply transaction_type_values|].
  split; [|split].
  - intros n Hn. unfold document_number in Hn.
    destruct (astype_str _ _) as [t|]; [|discriminate Hn].
    injection Hn as <-. apply strip_trimmed.
  - unfold render_date. destruct (parse_date_value _ _); [right|left; reflexivity].
    apply strftime_day_first_length.
  - apply nonzero_spec in Hs as (f & Hf & _). unfold normalized_balance in *.
    rewrite Hf. eexists. reflexivity.
Qed.

Lemma output_rows_well_formed_witness :
  exists out dbg,
    process_dataframe no_numeric no_datetime pandas2_glibc sample_frame = inr (out, dbg) /\
    Forall well_formed_row (out_rows out).
Proof.
  destruct (process_dataframe no_numeric no_datetime pandas2_glibc sample_frame)
    as [e|[out dbg]] eqn:H.
  - vm_compute in H. discriminate.
  - exists out, dbg. split; [reflexivity|].
    exact (output_rows_well_formed _ _ _ _ _ _ H).
Defined.

Lemma nonzero_sign (f : PyFloat.float) :
  f <> PyFloat.nan -> ~ zero_float f -> positive_float f \/ negative_float f.
Proof.
  destruct f as [s|s| |s m e]; cbn; intros Hn Hz;
    try (exfalso; apply Hz; exact I); try (exfalso; apply Hn; reflexivity);
    destruct s; auto.
Qed.

Lemma positive_not_negative (f : PyFloat.float) :
  positive_float f -> ~ negative_float f.
Proof. destruct f as [s|s| |s m e]; try destruct s; cbn; tauto. Qed.

(** Among the rows that survive the filter the balance is never missing or
    zero, so the type is ["CRD"] exactly for a negative balance and ["INV"]
    exactly for a positive one. *)
Theorem output_type_is_balance_sign
        (pd_to_numeric : string -> option PyFloat.float)
        (pd_to_datetime : string -> option PyDate.date) (pf : Platform)
        (df : DataFrame) (out : OutFrame) (dbg : Debug) :
  process_dataframe pd_to_numeric pd_to_datetime pf df = inr (out, dbg) ->
  exists bal,
    _pick_column (columns df) BALANCE_COL_CANDIDATES = Some bal /\
    Forall2
      (fun r o =>
         exists f,
           normalized_balance pd_to_numeric df bal r = Some f /\
           row_balance o = Some (PyFloat.round2 f) /\
           (row_type o = "INV" <-> positive_float f) /\
           (row_type o = "CRD" <-> negative_float f))
      (List.filter (survives pd_to_numeric df bal) (rows df))
      (out_rows out).
Proof.
  intros H.
  destruct (process_dataframe_rows _ _ _ _ _ _ H)
    as (c1 & c2 & c3 & c4 & _ & _ & _ & P4 & (R & _) & _).
  exists c4. split; [exact P4|]. rewrite R. clear R.
  induction (rows df) as [|r rs IH]; simpl; [constructor|].
  destruct (survives pd_to_numeric df c4 r) eqn:Hs; [|exact IH].
  simpl. constructor; [|exact IH].
  apply nonzero_spec in Hs as (f & Hf & Hz). exists f.
  cbn [row_of row_type row_balance]. rewrite Hf.
  split; [reflexivity|]. split; [reflexivity|].
  assert (f <> PyFloat.nan) as Hn.
  { intros ->. exact (astype_Float64_not_nan _ Hf). }
  destruct (nonzero_sign f Hn Hz) as [Hp|Hneg].
  - split.
    + split; [intros _; exact Hp|]. intros _. apply transaction_type_INV. eauto.
    + split.
      * intros Hc. apply transaction_type_CRD in Hc. exfalso. apply Hc. eauto.
      * intros Hneg. destruct (positive_not_negative f Hp Hneg).
  - assert (~ positive_float f) as Hnp
        by (intros Hp; exact (positive_not_negative f Hp Hneg)).
    split.
    + split; [|tauto]. intros Hi. apply transaction_type_INV in Hi as (f' & [= <-] & Hp).
      contradiction.
    + split; [intros _; exact Hneg|]. intros _. apply transaction_type_CRD.
      intros (f' & [= <-] & Hp). contradiction.
Qed.

Lemma output_type_is_balance_sign_witness :
  exists out dbg bal,
    process_dataframe no_numeric no_datetime pandas2_glibc sample_frame = inr (out, dbg) /\
    Forall2
      (fun r o =>
         exists f,
           normalized_balance no_numeric sample_frame bal r = Some f /\
           row_balance o = Some (PyFloat.round2 f) /\
           (row_type o = "INV" <-> positive_float f) /\
           (row_type o = "CRD" <-> negative_float f))
      (List.filter (survives no_numeric sample_frame bal) (rows sample_frame))
      (out_rows out).
Proof.
  destruct (process_dataframe no_numeric no_datetime pandas2_glibc sample_frame)
    as [e|[out dbg]] eqn:H.
  - vm_compute in H. discriminate.
  - destruct (output_type_is_balance_sign _ _ _ _ _ _ H) as (bal & _ & HF).
    exists out, dbg, bal. split; [reflexivity | exact HF].
Defined.

(** ** The pipeline on a frame built from two runs of rows *)

(** What a successful run returns, written over the surviving rows. *)
Lemma process_dataframe_closed_form
      (pd_to_numeric : string -> option PyFloat.float)
      (pd_to_datetime : string -> option PyDate.date) (pf : Platform)
      (df : DataFrame) (c1 c2 c3 c4 : string) :
  _pick_column (columns df) CUST_ID_COL_CANDIDATES = Some c1 ->
  _pick_column (columns df) TRANS_NO_COL_CANDIDATES = Some c2 ->
  _pick_column (columns df) DATE_COL_CANDIDATES = Some c3 ->
  _pick_column (columns df) BALANCE_COL_CANDIDATES = Some c4 ->
  let kept := List.filter (survives pd_to_numeric df c4) (rows df) in
  let f := row_of pd_to_numeric pd_to_datetime pf df c1 c2 c3 c4 in
  process_dataframe pd_to_numeric pd_to_datetime pf df =
  inr ({| Debtor_Reference := map (fun r => row_debtor (f r)) kept;
          Transaction_Type := map (fun r => row_type (f r)) kept;
          Document_Number := map (fun r => row_number (f r)) kept;
          Document_Date := map (fun r => row_date (f r)) kept;
          Document_Balance := map (fun r => row_balance (f r)) kept |},
       {| detected_columns :=
            [(key_customer_id, Some c1); (key_transaction_number, Some c2);
             (key_date, Some c3); (key_balance, Some c4)];
          rows_removed_balance_0 :=
            (Z.of_nat (length (rows df)) - Z.of_nat (length kept))%Z |}).
Proof.
  intros P1 P2 P3 P4. cbv zeta. unfold process_dataframe.
  rewrite P1, P2, P3, P4.
  cbn [Debtor_Reference Transaction_Type Document_Number Document_Date
       Document_Balance].
  unfold _format_date_series, getitem. rewrite !map_map.
  rewrite (map_ext
             (fun x => fillna_empty
                         (str_extract_six
                            (astype_str (astype_str_keeps_missing pf) (cell_at df c1 x))))
             (fun x => debtor_reference (cell_at df c1 x)))
    by (intros; apply debtor_reference_pipeline).
  change (map (fun x => nonzero (astype_Float64
                                   (to_numeric_value pd_to_numeric (cell_at df c4 x))))
            (rows df))
    with (map (survives pd_to_numeric df c4) (rows df)).
  rewrite !loc_map_filter, length_map, mask_sum_map. reflexivity.
Qed.

Lemma success_detects_all
      (pd_to_numeric : string -> option PyFloat.float)
      (pd_to_datetime : string -> option PyDate.date) (pf : Platform)
      (df : DataFrame) (out : OutFrame) (dbg : Debug) :
  process_dataframe pd_to_numeric pd_to_datetime pf df = inr (out, dbg) ->
  exists c1 c2 c3 c4,
    _pick_column (columns df) CUST_ID_COL_CANDIDATES = Some c1 /\
    _pick_column (columns df) TRANS_NO_COL_CANDIDATES = Some c2 /\
    _pick_column (columns df) DATE_COL_CANDIDATES = Some c3 /\
    _pick_column (columns df) BALANCE_COL_CANDIDATES = Some c4.
Proof.
  intros H. destruct (process_dataframe_rows _ _ _ _ _ _ H)
    as (c1 & c2 & c3 & c4 & P1 & P2 & P3 & P4 & _).
  exists c1, c2, c3, c4. auto.
Qed.

(** Rows are processed independently: the run on a frame whose rows are
    [r1 ++ r2] returns, column by column, the output for [r1] followed by
    the output for [r2], and its removed count is the sum of the two. *)
Theorem process_dataframe_app
        (pd_to_numeric : string -> option PyFloat.float)
        (pd_to_datetime : string -> option PyDate.date) (pf : Platform)
        (cols : list string) (r1 r2 : list (list cell))
        (o1 o2 : OutFrame) (d1 d2 : Debug) :
  process_dataframe pd_to_numeric pd_to_datetime pf (mkframe cols r1) = inr (o1, d1) ->
  process_dataframe pd_to_numeric pd_to_datetime pf (mkframe cols r2) = inr (o2, d2) ->
  process_dataframe pd_to_numeric pd_to_datetime pf (mkframe cols (r1 ++ r2)) =
  inr ({| Debtor_Reference := Debtor_Reference o1 ++ Debtor_Reference o2;
          Transaction_Type := Transaction_Type o1 ++ Transaction_Type o2;
          Document_Number := Document_Number o1 ++ Document_Number o2;
          Document_Date := Document_Date o1 ++ Document_Date o2;
          Document_Balance := Document_Balance o1 ++ Document_Balance o2 |},
       {| detected_columns := detected_columns d1;
          rows_removed_balance_0 :=
            (rows_removed_balance_0 d1 + rows_removed_balance_0 d2)%Z |}).
Proof.
  intros H1 H2.
  destruct (success_detects_all _ _ _ _ _ _ H1) as (c1 & c2 & c3 & c4 & P1 & P2 & P3 & P4).
  cbn [columns] in P1, P2, P3, P4.
  rewrite (process_dataframe_closed_form _ _ _ (mkframe cols r1) c1 c2 c3 c4 P1 P2 P3 P4) in H1.
  rewrite (process_dataframe_closed_form _ _ _ (mkframe cols r2) c1 c2 c3 c4 P1 P2 P3 P4) in H2.
  rewrite (process_dataframe_closed_form _ _ _ (mkframe cols (r1 ++ r2)) c1 c2 c3 c4
             P1 P2 P3 P4).
  cbv zeta in *. cbn [rows] in *.
  injection H1 as <- <-. injection H2 as <- <-.
  cbn [Debtor_Reference Transaction_Type Document_Number Document_Date
       Document_Balance detected_columns rows_removed_balance_0].
  change (survives pd_to_numeric (mkframe cols (r1 ++ r2)) c4)
    with (survives pd_to_numeric (mkframe cols r1) c4).
  change (row_of pd_to_numeric pd_to_datetime pf (mkframe cols (r1 ++ r2)) c1 c2 c3 c4)
    with (row_of pd_to_numeric pd_to_datetime pf (mkframe cols r1) c1 c2 c3 c4).
  change (survives pd_to_numeric (mkframe cols r2) c4)
    with (survives pd_to_numeric (mkframe cols r1) c4).
  change (row_of pd_to_numeric pd_to_datetime pf (mkframe cols r2) c1 c2 c3 c4)
    with (row_of pd_to_numeric pd_to_datetime pf (mkframe cols r1) c1 c2 c3 c4).
  rewrite List.filter_app, !List.map_app, !List.length_app, !Nat2Z.inj_add.
  do 2 f_equal. f_equal. lia.
Qed.

Lemma process_dataframe_app_witness :
  exists o1 d1 o2 d2,
    process_dataframe no_numeric no_datetime pandas2_glibc
      (mkframe (columns sample_frame) (firstn 2 (rows sample_frame))) = inr (o1, d1) /\
    process_dataframe no_numeric no_datetime pandas2_glibc
      (mkframe (columns sample_frame) (skipn 2 (rows sample_frame))) = inr (o2, d2) /\
    process_dataframe no_numeric no_datetime pandas2_glibc sample_frame =
    inr ({| Debtor_Reference := Debtor_Reference o1 ++ Debtor_Reference o2;
            Transaction_Type := Transaction_Type o1 ++ Transaction_Type o2;
            Document_Number := Document_Number o1 ++ Document_Number o2;
            Document_Date := Document_Date o1 ++ Document_Date o2;
            Document_Balance := Document_Balance o1 ++ Document_Balance o2 |},
         {| detected_columns := detected_columns d1;
            rows_removed_balance_0 :=
              (rows_removed_balance_0 d1 + rows_removed_balance_0 d2)%Z |}).
Proof.
  destruct (process_dataframe no_numeric no_datetime pandas2_glibc
              (mkframe (columns sample_frame) (firstn 2 (rows sample_frame))))
    as [e|[o1 d1]] eqn:H1; [vm_compute in H1; discriminate|].
  destruct (process_dataframe no_numeric no_datetime pandas2_glibc
              (mkframe (columns sample_frame) (skipn 2 (rows sample_frame))))
    as [e|[o2 d2]] eqn:H2; [vm_compute in H2; discriminate|].
  exists o1, d1, o2, d2. do 2 (split; [reflexivity|]).
  exact (process_dataframe_app _ _ _ _ _ _ _ _ _ _ H1 H2).
Defined.

(** On success the diagnostics list the four keys in their fixed order,
    each with the header it was resolved to, a header of the frame; the
    removed count lies between 0 and the number of input rows. *)
Theorem diagnostics_on_success
        (pd_to_numeric : string -> option PyFloat.float)
        (pd_to_datetime : string -> option PyDate.date) (pf : Platform)
        (df : DataFrame) (out : OutFrame) (dbg : Debug) :
  process_dataframe pd_to_numeric pd_to_datetime pf df = inr (out, dbg) ->
  exists c1 c2 c3 c4,
    detected_columns dbg =
      [(key_customer_id, Some c1); (key_transaction_number, Some c2);
       (key_date, Some c3); (key_balance, Some c4)] /\
    c1 ∈ columns df /\ c2 ∈ columns df /\ c3 ∈ columns df /\ c4 ∈ columns df /\
    (0 <= rows_removed_balance_0 dbg <= Z.of_nat (length (rows df)))%Z.
Proof.
  intros H.
  destruct (success_detects_all _ _ _ _ _ _ H) as (c1 & c2 & c3 & c4 & P1 & P2 & P3 & P4).
  rewrite (process_dataframe_closed_form _ _ _ df c1 c2 c3 c4 P1 P2 P3 P4) in H.
  cbv zeta in H. injection H as _ <-.
  exists c1, c2, c3, c4. cbn [detected_columns rows_removed_balance_0].
  split; [reflexivity|].
  do 4 (split; [eapply pick_column_member; eassumption|]).
  pose proof (filter_partition_length
                (survives pd_to_numeric df c4) (rows df)).
  lia.
Qed.

Lemma diagnostics_on_success_witness :
  exists out dbg c1 c2 c3 c4,
    process_dataframe no_numeric no_datetime pandas2_glibc sample_frame = inr (out, dbg) /\
    detected_columns dbg =
      [(key_customer_id, Some c1); (key_transaction_number, Some c2);
       (key_date, Some c3); (key_balance, Some c4)] /\
    c4 ∈ columns sample_frame.
Proof.
  destruct (process_dataframe no_numeric no_datetime pandas2_glibc sample_frame)
    as [e|[out dbg]] eqn:H.
  - vm_compute in H. discriminate.
  - destruct (diagnostics_on_success _ _ _ _ _ _ H)
      as (c1 & c2 & c3 & c4 & Hd & _ & _ & _ & H4 & _).
    exists out, dbg, c1, c2, c3, c4. auto.
Defined.

(** ** More on dates *)

Lemma strptime_valid (s : string) (fmt : list PyDate.directive) (d : PyDate.date) :
  PyDate.strptime s fmt = Some d -> PyDate.valid d = true.
Proof.
  unfold PyDate.strptime.
  destruct (PyDate.regex_match fmt s PyDate.fields_init) as [|[f r] l]; [discriminate|].
  destruct r; [|discriminate].
  destruct (PyDate.valid f) eqn:E; [|discriminate]. intros [= <-]. exact E.
Qed.

Lemma try_formats_valid (s : string) (fs : list (list PyDate.directive))
      (d : PyDate.date) :
  try_formats s fs = Some d -> PyDate.valid d = true.
Proof.
  induction fs as [|fmt fs IH]; simpl; [discriminate|].
  destruct (PyDate.strptime s fmt) as [d0|] eqn:E; [|exact IH].
  intros [= <-]. exact (strptime_valid _ _ _ E).
Qed.

Lemma parse_date_value_strict_is_valid_core
      (pd_to_datetime : string -> option PyDate.date) (x : cell) (d : PyDate.date) :
  parse_date_value pd_to_datetime x = Some d ->
  PyDate.valid d = true \/
  (try_formats (PyStr.strip (str x)) fmts = None /\
   pd_to_datetime (PyStr.strip (str x)) = Some d).
Proof.
  unfold parse_date_value. destruct (pd_isna x); [discriminate|].
  destruct (try_formats (PyStr.strip (str x)) fmts) as [d0|] eqn:E.
  - intros [= <-]. left. exact (try_formats_valid _ _ _ E).
  - intros H. right. split; [reflexivity | exact H].
Qed.

(** A month/day/year text whose day is at most 12 is taken day-first: the
    date returned has day and month exchanged. *)
Theorem parse_date_value_month_first_swapped
        (pd_to_datetime : string -> option PyDate.date) (D : PyDate.date) :
  PyDate.valid D = true -> (PyDate.day D <= 12)%Z ->
  parse_date_value pd_to_datetime (Val (PyDate.zero_padded D PyDate.fmt_mdy_slash))
  = Some (PyDate.mkdate (PyDate.year D) (PyDate.day D) (PyDate.month D)).
Proof.
  intros Hv Hd. unfold parse_date_value. cbn [pd_isna str].
  rewrite (strip_rendered PyDate.fmt_mdy_slash D)
    by (first [exact Hv | right; right; right; left; reflexivity]).
  rewrite (month_first_read_day_first D Hv Hd). reflexivity.
Qed.

Lemma parse_date_value_month_first_swapped_witness :
  parse_date_value no_datetime (Val "07/03/2024") = Some (PyDate.mkdate 2024 3 7).
Proof.
  apply (parse_date_value_month_first_swapped no_datetime (PyDate.mkdate 2024 7 3)).
  - reflexivity.
  - cbn. lia.
Defined.

(** Whitespace around a date text is ignored. *)
Theorem parse_date_value_ignores_outer_whitespace
        (pd_to_datetime : string -> option PyDate.date) (s : string) :
  parse_date_value pd_to_datetime (Val s)
  = parse_date_value pd_to_datetime (Val (PyStr.strip s)).
Proof.
  unfold parse_date_value. cbn [pd_isna str]. rewrite strip_idempotent. reflexivity.
Qed.

(** Rendering is stable: feeding the rendered dates back gives the same
    texts, provided the lenient parser only returns real calendar dates and
    does not read the empty text, and the years rendered have four digits
    or the platform pads [%Y]. *)
Theorem format_date_series_idempotent
        (pd_to_datetime : string -> option PyDate.date) (pf : Platform) (s : list cell) :
  (forall t d, pd_to_datetime t = Some d -> PyDate.valid d = true) ->
  pd_to_datetime "" = None ->
  strftime_pads_year pf = true \/
  Forall (fun x => forall d, parse_date_value pd_to_datetime x = Some d ->
                             (1000 <= PyDate.year d)%Z) s ->
  _format_date_series pd_to_datetime pf (map Val (_format_date_series pd_to_datetime pf s))
  = _format_date_series pd_to_datetime pf s.
Proof.
  intros Hvalid Hempty Hyear. unfold _format_date_series. rewrite !map_map.
  apply map_ext_in. intros x Hx.
  destruct (parse_date_value pd_to_datetime x) as [d|] eqn:E; cbn [render_date].
  - assert (PyDate.valid d = true) as Hv.
    { destruct (parse_date_value_strict_is_valid_core pd_to_datetime x d E)
        as [Hv|[_ Hl]]; [exact Hv | exact (Hvalid _ _ Hl)]. }
    assert ((1000 <= PyDate.year d)%Z \/ strftime_pads_year pf = true) as Hy.
    { destruct Hyear as [Hp|Hall]; [right; exact Hp | left].
      apply list_elem_of_In in Hx.
      exact (proj1 (Forall_forall _ _) Hall x Hx d E). }
    rewrite (strftime_zero_padded _ d PyDate.fmt_dmy_slash Hy).
    unfold parse_date_value. cbn [pd_isna str].
    rewrite (strip_rendered PyDate.fmt_dmy_slash d) by (first [exact Hv | left; reflexivity]).
    rewrite (try_formats_rendered PyDate.fmt_dmy_slash d)
      by (first [exact Hv | left; reflexivity | discriminate]).
    cbn [render_date]. apply strftime_zero_padded. exact Hy.
  - unfold parse_date_value. cbn [pd_isna str].
    change (PyStr.strip "") with "".
    change (try_formats "" fmts) with (@None PyDate.date).
    cbv iota. rewrite Hempty. reflexivity.
Qed.

Lemma format_date_series_idempotent_witness :
  _format_date_series no_datetime pandas2_glibc
    (map Val (_format_date_series no_datetime pandas2_glibc [Val "2024-03-07"; Missing; Val "n/a"]))
  = _format_date_series no_datetime pandas2_glibc [Val "2024-03-07"; Missing; Val "n/a"].
Proof.
  apply format_date_series_idempotent.
  - intros t d H. discriminate H.
  - reflexivity.
  - right. repeat constructor; intros d H; vm_compute in H;
      first [discriminate H | injection H as <-; cbn; lia].
Defined.

(** *** Days and months without leading zeros *)

Lemma non_digit_ranges (c : ascii) :
  PyStr.isdigit c = false ->
  PyDate.rng "0" "1" c = false /\ PyDate.rng "0" "2" c = false /\
  PyDate.rng "1" "9" c = false.
Proof.
  unfold PyStr.isdigit, PyDate.rng, PyStr.in_range.
  change (PyStr.code "0") with 48%N. change (PyStr.code "1") with 49%N.
  change (PyStr.code "2") with 50%N. change (PyStr.code "9") with 57%N.
  intros H. apply andb_false_iff in H.
  repeat split; apply andb_false_iff;
    destruct H as [H|H]; apply N.leb_gt in H;
    first [left; apply N.leb_gt; lia | right; apply N.leb_gt; lia].
Qed.

Lemma one_to_nine_not_space (a : ascii) :
  PyDate.rng "1" "9" a = true -> PyDate.chr " " a = false.
Proof.
  intros H. unfold PyDate.chr. destruct (Ascii.eqb_spec a " ") as [->|]; [|reflexivity].
  discriminate H.
Qed.

Lemma match_d_one (a : ascii) (t : string) :
  PyDate.rng "1" "9" a = true -> no_digit_ahead t ->
  PyDate.match_d (String a t) = [(PyDate.dv a, t)].
Proof.
  intros Ha Ht. unfold PyDate.match_d, PyDate.two, PyDate.one.
  rewrite Ha, (one_to_nine_not_space a Ha).
  destruct t as [|c u]; [reflexivity|].
  cbn [no_digit_ahead] in Ht.
  destruct (non_digit_ranges c Ht) as (-> & _ & ->). rewrite Ht, !andb_false_r.
  reflexivity.
Qed.

Lemma match_m_one (a : ascii) (t : string) :
  PyDate.rng "1" "9" a = true -> no_digit_ahead t ->
  PyDate.match_m (String a t) = [(PyDate.dv a, t)].
Proof.
  intros Ha Ht. unfold PyDate.match_m, PyDate.two, PyDate.one. rewrite Ha.
  destruct t as [|c u]; [reflexivity|].
  cbn [no_digit_ahead] in Ht.
  destruct (non_digit_ranges c Ht) as (_ & -> & ->). rewrite !andb_false_r.
  reflexivity.
Qed.

Lemma single_digit_facts (k : Z) :
  (1 <= k <= 9)%Z ->
  PyDate.rng "1" "9" (PyDate.digit_char k) = true /\
  PyDate.dv (PyDate.digit_char k) = k.
Proof.
  intros Hk. pattern k. apply (Z_range_cases _ 1%Z 9); [|lia]. clear k Hk.
  intros k Hk. do 9 (destruct k as [|k]; [split; reflexivity|]). lia.
Qed.

Lemma best_match_d_unpadded (d : Z) (rest : list PyDate.directive) (t : string)
      (f : PyDate.date) (x : PyDate.date * string) :
  (1 <= d <= 31)%Z -> no_digit_ahead t ->
  best_match rest t (PyDate.mkdate (PyDate.year f) (PyDate.month f) d) x ->
  best_match (PyDate.dir_d :: rest) (unpadded d ++ t) f x.
Proof.
  intros Hd Ht H. unfold unpadded. destruct (d <? 10)%Z eqn:E.
  - apply Z.ltb_lt in E. destruct (single_digit_facts d) as [Hr Hv]; [lia|].
    destruct H as [l H]. unfold best_match.
    change (String (PyDate.digit_char d) "" ++ t)%string
      with (String (PyDate.digit_char d) t).
    cbn [PyDate.regex_match PyDate.step].
    rewrite (match_d_one _ t Hr Ht), Hv. cbn [map flat_map]. rewrite H.
    eexists. reflexivity.
  - apply best_match_d; assumption.
Qed.

Lemma best_match_m_unpadded (m : Z) (rest : list PyDate.directive) (t : string)
      (f : PyDate.date) (x : PyDate.date * string) :
  (1 <= m <= 12)%Z -> no_digit_ahead t ->
  best_match rest t (PyDate.mkdate (PyDate.year f) m (PyDate.day f)) x ->
  best_match (PyDate.dir_m :: rest) (unpadded m ++ t) f x.
Proof.
  intros Hm Ht H. unfold unpadded. destruct (m <? 10)%Z eqn:E.
  - apply Z.ltb_lt in E. destruct (single_digit_facts m) as [Hr Hv]; [lia|].
    destruct H as [l H]. unfold best_match.
    change (String (PyDate.digit_char m) "" ++ t)%string
      with (String (PyDate.digit_char m) t).
    cbn [PyDate.regex_match PyDate.step].
    rewrite (match_m_one _ t Hr Ht), Hv. cbn [map flat_map]. rewrite H.
    eexists. reflexivity.
  - apply best_match_m; assumption.
Qed.

(** Each strict format reads back a valid date written in its layout
    without leading zeros. *)
Lemma strptime_own_unpadded (fmt : list PyDate.directive) (D : PyDate.date) :
  In fmt fmts -> PyDate.valid D = true ->
  PyDate.strptime (strftime_unpadded D fmt) fmt = Some D.
Proof.
  intros Hin Hv. apply strptime_of_best_match; [|exact Hv].
  destruct D as [y m d].
  destruct (valid_bounds _ _ _ Hv) as (Hy & Hm & Hd).
  cbv [fmts] in Hin. cbn [In] in Hin.
  destruct Hin as [<-|[<-|[<-|[<-|[<-|[<-|[]]]]]]];
    cbv [strftime_unpadded fold_right render_item_unpadded
         PyDate.fmt_dmy_slash PyDate.fmt_dmy_dash PyDate.fmt_ymd_dash
         PyDate.fmt_mdy_slash PyDate.fmt_ymd_slash PyDate.fmt_dmy_dot
         PyDate.year PyDate.month PyDate.day];
    repeat first [ apply best_match_d_unpadded; [lia | first [exact I | reflexivity] |]
                 | apply best_match_m_unpadded; [lia | first [exact I | reflexivity] |]
                 | apply best_match_Y; [lia|]
                 | apply best_match_lit
                 | apply best_match_nil ].
Qed.

Lemma regex_match_Y_rejects_second (a x : ascii) (rest : list PyDate.directive)
      (t : string) (f : PyDate.date) :
  PyStr.isdigit x = false ->
  PyDate.regex_match (PyDate.dir_Y :: rest) (String a (String x t)) f = [].
Proof.
  intros Hx. cbn [PyDate.regex_match PyDate.step]. unfold PyDate.match_Y.
  destruct t as [|c [|e t]]; try reflexivity.
  rewrite Hx, andb_false_r. reflexivity.
Qed.

Lemma day_first_rejects_month_first_unpadded
      (m d : Z) (rest : list PyDate.directive) (t : string) (f : PyDate.date) :
  (1 <= m <= 12)%Z -> (13 <= d <= 31)%Z ->
  PyDate.regex_match
    (PyDate.dir_d :: PyDate.lit "/" :: PyDate.dir_m :: PyDate.lit "/" :: rest)
    (unpadded m ++ String "/" (PyDate.pad2 d ++ t)) f = [].
Proof.
  intros Hm Hd. unfold unpadded. destruct (m <? 10)%Z eqn:E.
  - apply Z.ltb_lt in E. destruct (single_digit_facts m) as [Hr Hv]; [lia|].
    change (String (PyDate.digit_char m) "" ++ String "/" (PyDate.pad2 d ++ t))%string
      with (String (PyDate.digit_char m) (String "/" (PyDate.pad2 d ++ t))).
    cbn [PyDate.regex_match PyDate.step].
    rewrite (match_d_one _ _ Hr) by reflexivity.
    cbn [map flat_map PyDate.step]. rewrite Ascii.eqb_refl. cbn [flat_map].
    rewrite (match_m_pad2_large d t Hd). cbn [map flat_map PyDate.step app].
    destruct (digit_char_facts (d mod 10)) as (_ & _ & _ & -> & _);
      [Z.div_mod_to_equations; lia | reflexivity].
  - apply day_first_rejects_month_first; assumption.
Qed.

(** Spell an unpadded rendering out once the two tests on [d] and [m] are
    decided. *)
Local Ltac spell_unpadded :=
  cbv [strftime_unpadded fold_right render_item_unpadded unpadded
       PyDate.fmt_dmy_slash PyDate.fmt_dmy_dash PyDate.fmt_ymd_dash
       PyDate.fmt_mdy_slash PyDate.fmt_ymd_slash PyDate.fmt_dmy_dot
       PyDate.year PyDate.month PyDate.day];
  repeat match goal with
         | E : (_ <? 10)%Z = _ |- _ => rewrite E
         end;
  cbv [PyDate.pad2 PyDate.pad4 String.append].

Local Ltac digit_side_u :=
  first [ reflexivity
        | apply digit_char_facts;
          repeat match goal with
                 | E : (_ <? 10)%Z = true |- _ => apply Z.ltb_lt in E
                 | E : (_ <? 10)%Z = false |- _ => apply Z.ltb_ge in E
                 end;
          Z.div_mod_to_equations; lia ].

Local Ltac rejected :=
  spell_unpadded;
  first [ solve [apply regex_match_d_rejects; digit_side_u]
        | solve [apply regex_match_m_rejects; digit_side_u]
        | solve [apply regex_match_Y_rejects; digit_side_u]
        | solve [apply regex_match_Y_rejects_second; digit_side_u]
        | solve [apply regex_match_Y_lit_rejects; digit_side_u] ].

Lemma strip_unpadded (fmt : list PyDate.directive) (D : PyDate.date) :
  In fmt fmts -> PyDate.valid D = true ->
  PyStr.strip (strftime_unpadded D fmt) = strftime_unpadded D fmt.
Proof.
  intros Hin Hv. destruct D as [y m d].
  destruct (valid_bounds _ _ _ Hv) as (Hy & Hm & Hd).
  cbv [fmts] in Hin. cbn [In] in Hin.
  destruct (d <? 10)%Z eqn:Ed; destruct (m <? 10)%Z eqn:Em;
    destruct Hin as [<-|[<-|[<-|[<-|[<-|[<-|[]]]]]]]; spell_unpadded;
    (apply strip_id; [digit_side_u|]);
    cbn [PyStr.last_char]; intros c [= <-]; digit_side_u.
Qed.

Lemma try_formats_unpadded (fmt : list PyDate.directive) (D : PyDate.date) :
  In fmt fmts -> PyDate.valid D = true ->
  (fmt = PyDate.fmt_mdy_slash ->
   (12 < PyDate.day D)%Z \/ PyDate.day D = PyDate.month D) ->
  try_formats (strftime_unpadded D fmt) fmts = Some D.
Proof.
  intros Hin Hv Hmdy.
  pose proof (strptime_own_unpadded fmt D Hin Hv) as Hown.
  destruct D as [y m d].
  destruct (valid_bounds _ _ _ Hv) as (Hy & Hm & Hd).
  assert (Hno : forall F G,
             PyDate.regex_match G (strftime_unpadded (PyDate.mkdate y m d) F)
               PyDate.fields_init = [] ->
             PyDate.strptime (strftime_unpadded (PyDate.mkdate y m d) F) G = None)
    by (intros F G; apply strptime_of_no_match).
  cbv [fmts] in Hin. cbn [In] in Hin. cbv [fmts]. cbn [try_formats].
  destruct Hin as [<-|[<-|[<-|[<-|[<-|[<-|[]]]]]]].
  - rewrite Hown. reflexivity.
  - rewrite (Hno PyDate.fmt_dmy_dash PyDate.fmt_dmy_slash)
      by (destruct (d <? 10)%Z eqn:Ed; destruct (m <? 10)%Z eqn:Em; rejected).
    rewrite Hown. reflexivity.
  - rewrite (Hno PyDate.fmt_ymd_dash PyDate.fmt_dmy_slash)
      by (destruct (d <? 10)%Z eqn:Ed; destruct (m <? 10)%Z eqn:Em; rejected).
    rewrite (Hno PyDate.fmt_ymd_dash PyDate.fmt_dmy_dash)
      by (destruct (d <? 10)%Z eqn:Ed; destruct (m <? 10)%Z eqn:Em; rejected).
    rewrite Hown. reflexivity.
  - destruct (Hmdy eq_refl) as [Hlate|Heq]; cbn [PyDate.day PyDate.month] in *.
    + assert (unpadded d = PyDate.pad2 d) as Hu.
      { unfold unpadded. destruct (d <? 10)%Z eqn:Ed; [|reflexivity].
        apply Z.ltb_lt in Ed. lia. }
      rewrite (Hno PyDate.fmt_mdy_slash PyDate.fmt_dmy_slash).
      2:{ cbv [strftime_unpadded fold_right render_item_unpadded
               PyDate.fmt_mdy_slash PyDate.fmt_dmy_slash
               PyDate.year PyDate.month PyDate.day].
          rewrite Hu.
          change (String "/" "" ++ ?u)%string with (String "/" u).
          apply day_first_rejects_month_first_unpadded; lia. }
      rewrite (Hno PyDate.fmt_mdy_slash PyDate.fmt_dmy_dash)
        by (destruct (d <? 10)%Z eqn:Ed; destruct (m <? 10)%Z eqn:Em; rejected).
      rewrite (Hno PyDate.fmt_mdy_slash PyDate.fmt_ymd_dash)
        by (destruct (d <? 10)%Z eqn:Ed; destruct (m <? 10)%Z eqn:Em; rejected).
      rewrite Hown. reflexivity.
    + subst d.
      change (strftime_unpadded (PyDate.mkdate y m m) PyDate.fmt_mdy_slash)
        with (strftime_unpadded (PyDate.mkdate y m m) PyDate.fmt_dmy_slash).
      rewrite (strptime_own_unpadded PyDate.fmt_dmy_slash (PyDate.mkdate y m m));
        [reflexivity | left; reflexivity | exact Hv].
  - rewrite (Hno PyDate.fmt_ymd_slash PyDate.fmt_dmy_slash)
      by (destruct (d <? 10)%Z eqn:Ed; destruct (m <? 10)%Z eqn:Em; rejected).
    rewrite (Hno PyDate.fmt_ymd_slash PyDate.fmt_dmy_dash)
      by (destruct (d <? 10)%Z eqn:Ed; destruct (m <? 10)%Z eqn:Em; rejected).
    rewrite (Hno PyDate.fmt_ymd_slash PyDate.fmt_ymd_dash)
      by (destruct (d <? 10)%Z eqn:Ed; destruct (m <? 10)%Z eqn:Em; rejected).
    rewrite (Hno PyDate.fmt_ymd_slash PyDate.fmt_mdy_slash)
      by (destruct (d <? 10)%Z eqn:Ed; destruct (m <? 10)%Z eqn:Em; rejected).
    rewrite Hown. reflexivity.
  - rewrite (Hno PyDate.fmt_dmy_dot PyDate.fmt_dmy_slash)
      by (destruct (d <? 10)%Z eqn:Ed; destruct (m <? 10)%Z eqn:Em; rejected).
    rewrite (Hno PyDate.fmt_dmy_dot PyDate.fmt_dmy_dash)
      by (destruct (d <? 10)%Z eqn:Ed; destruct (m <? 10)%Z eqn:Em; rejected).
    rewrite (Hno PyDate.fmt_dmy_dot PyDate.fmt_ymd_dash)
      by (destruct (d <? 10)%Z eqn:Ed; destruct (m <? 10)%Z eqn:Em; rejected).
    rewrite (Hno PyDate.fmt_dmy_dot PyDate.fmt_mdy_slash)
      by (destruct (d <? 10)%Z eqn:Ed; destruct (m <? 10)%Z eqn:Em; rejected).
    rewrite (Hno PyDate.fmt_dmy_dot PyDate.fmt_ymd_slash)
      by (destruct (d <? 10)%Z eqn:Ed; destruct (m <? 10)%Z eqn:Em; rejected).
    rewrite Hown. reflexivity.
Qed.

(** Leading zeros are optional: a valid date written in the layout of a
    strict format with day and month unpadded is parsed to that date, for
    every format but month/day/year; in month/day/year this holds when the day
    is above 12 or equals the month. *)
Theorem parse_date_value_unpadded
        (pd_to_datetime : string -> option PyDate.date)
        (fmt : list PyDate.directive) (D : PyDate.date) :
  In fmt fmts -> PyDate.valid D = true ->
  (fmt = PyDate.fmt_mdy_slash ->
   (12 < PyDate.day D)%Z \/ PyDate.day D = PyDate.month D) ->
  parse_date_value pd_to_datetime (Val (strftime_unpadded D fmt)) = Some D.
Proof.
  intros Hin Hv Hmdy. unfold parse_date_value. cbn [pd_isna str].
  rewrite (strip_unpadded fmt D Hin Hv).
  rewrite (try_formats_unpadded fmt D Hin Hv Hmdy). reflexivity.
Qed.

Lemma parse_date_value_unpadded_witness :
  parse_date_value no_datetime (Val "7/3/2024") = Some (PyDate.mkdate 2024 3 7) /\
  parse_date_value no_datetime (Val "2024-3-7") = Some (PyDate.mkdate 2024 3 7).
Proof.
  split.
  - apply (parse_date_value_unpadded no_datetime PyDate.fmt_dmy_slash
             (PyDate.mkdate 2024 3 7)).
    + left. reflexivity.
    + reflexivity.
    + intros H. discriminate H.
  - apply (parse_date_value_unpadded no_datetime PyDate.fmt_ymd_dash
             (PyDate.mkdate 2024 3 7)).
    + right; right; left. reflexivity.
    + reflexivity.
    + intros H. discriminate H.
Defined.

(** ** More on the numeric normalizer *)

Lemma remove_char_idem (c : ascii) (s : string) :
  PyStr.remove_char c (PyStr.remove_char c s) = PyStr.remove_char c s.
Proof.
  induction s as [|a s IH]; simpl; [reflexivity|].
  destruct (Ascii.eqb a c) eqn:E; [exact IH|].
  simpl. rewrite E, IH. reflexivity.
Qed.

Lemma remove_char_comm (c d : ascii) (s : string) :
  PyStr.remove_char c (PyStr.remove_char d s)
  = PyStr.remove_char d (PyStr.remove_char c s).
Proof.
  induction s as [|a s IH]; simpl; [reflexivity|].
  destruct (Ascii.eqb a d) eqn:Ed; destruct (Ascii.eqb a c) eqn:Ec;
    simpl; rewrite ?Ed, ?Ec, IH; reflexivity.
Qed.

Lemma remove_char_app (c : ascii) (s t : string) :
  PyStr.remove_char c (s ++ t)
  = (PyStr.remove_char c s ++ PyStr.remove_char c t)%string.
Proof.
  induction s as [|a s IH]; simpl; [reflexivity|].
  destruct (Ascii.eqb a c); simpl; rewrite IH; reflexivity.
Qed.

Lemma separators_removed_twice (s : string) :
  PyStr.remove_char " " (PyStr.remove_char "," (PyStr.remove_char " " (PyStr.remove_char "," s)))
  = PyStr.remove_char " " (PyStr.remove_char "," s).
Proof.
  rewrite (remove_char_comm "," " " (PyStr.remove_char "," s)).
  rewrite !remove_char_idem. reflexivity.
Qed.

Lemma strip_empty_lstrip (s : string) :
  PyStr.strip s = "" <-> PyStr.lstrip s = "".
Proof.
  unfold PyStr.strip. split.
  - destruct (PyStr.lstrip s) as [|a t] eqn:L; [reflexivity|].
    destruct (rstrip_first a t (lstrip_first s a t L)) as [t' ->]. discriminate.
  - intros ->. reflexivity.
Qed.

Lemma lstrip_empty_remove (c : ascii) (s : string) :
  PyStr.lstrip s = "" -> PyStr.lstrip (PyStr.remove_char c s) = "".
Proof.
  induction s as [|a s IH]; simpl; [reflexivity|].
  destruct (PyStr.isspace a) eqn:E; [|discriminate].
  intros H. destruct (Ascii.eqb a c); simpl; [|rewrite E]; exact (IH H).
Qed.

(** Commas and spaces are mere separators: a cell reads the same with them
    taken out beforehand, as long as something is left of the text. *)
Theorem to_numeric_value_ignores_separators
        (pd_to_numeric : string -> option PyFloat.float) (s : string) :
  PyStr.strip (PyStr.remove_char " " (PyStr.remove_char "," s)) <> "" ->
  to_numeric_value pd_to_numeric (Val s)
  = to_numeric_value pd_to_numeric
      (Val (PyStr.remove_char " " (PyStr.remove_char "," s))).
Proof.
  intros Hne.
  assert (PyStr.strip s <> "") as Hs.
  { intros H. apply Hne. apply strip_empty_lstrip.
    do 2 apply lstrip_empty_remove. apply strip_empty_lstrip. exact H. }
  unfold to_numeric_value. cbn [pd_isna str orb].
  destruct (String.eqb_spec (PyStr.strip s) "") as [|_]; [contradiction|].
  destruct (String.eqb_spec
              (PyStr.strip (PyStr.remove_char " " (PyStr.remove_char "," s))) "")
    as [|_]; [contradiction|].
  rewrite separators_removed_twice. reflexivity.
Qed.

Lemma to_numeric_value_ignores_separators_witness :
  to_numeric_value no_numeric (Val " 1, 234 ,567.5")
  = to_numeric_value no_numeric (Val "1234567.5").
Proof.
  apply (to_numeric_value_ignores_separators no_numeric " 1, 234 ,567.5").
  vm_compute. discriminate.
Defined.

(** *** Parentheses negate *)

Lemma binary_round_aux_opp (mx ex : Z) (lx : location) :
  binary_round_aux PyFloat.prec PyFloat.emax true mx ex lx
  = SFopp (binary_round_aux PyFloat.prec PyFloat.emax false mx ex lx).
Proof.
  unfold binary_round_aux.
  destruct (shr_fexp PyFloat.prec PyFloat.emax mx ex lx) as [mrs' e'].
  destruct (shr_fexp PyFloat.prec PyFloat.emax _ e' loc_Exact) as [mrs'' e''].
  destruct (shr_m mrs'') as [|p|p]; try reflexivity.
  destruct (e'' <=? PyFloat.emax - PyFloat.prec)%Z; reflexivity.
Qed.

Lemma binary_normalize_opp (n : Z) :
  binary_normalize PyFloat.prec PyFloat.emax (- n) 0 true
  = SFopp (binary_normalize PyFloat.prec PyFloat.emax n 0 false).
Proof.
  destruct n as [|p|p]; [reflexivity| |].
  - change (- Z.pos p)%Z with (Z.neg p). cbn [binary_normalize].
    unfold binary_round. destruct (shl_align _ _ _) as [mz ez].
    apply binary_round_aux_opp.
  - change (- Z.neg p)%Z with (Z.pos p). cbn [binary_normalize].
    unfold binary_round. destruct (shl_align _ _ _) as [mz ez].
    rewrite binary_round_aux_opp.
    destruct (binary_round_aux _ _ false _ _ _) as [s|s| |s m e];
      try destruct s; reflexivity.
Qed.

Lemma of_decimal_opp (m e : Z) :
  PyFloat.of_decimal true m e = SFopp (PyFloat.of_decimal false m e).
Proof.
  unfold PyFloat.of_decimal. destruct (m =? 0)%Z; [reflexivity|].
  destruct (0 <=? e)%Z.
  - cbn [cond_Zopp]. apply binary_normalize_opp.
  - destruct (SFdiv_core_binary _ _ _ _ _ _) as [[q e'] l].
    apply binary_round_aux_opp.
Qed.

Lemma parse_inf_or_nan_opp (s : string) :
  PyFloat.parse_inf_or_nan true s = option_map SFopp (PyFloat.parse_inf_or_nan false s).
Proof.
  unfold PyFloat.parse_inf_or_nan.
  destruct (_ || _)%bool; [reflexivity|].
  destruct (String.eqb _ "nan"); reflexivity.
Qed.

Lemma split_sign_unsigned (c : ascii) (r : string) :
  c <> "-"%char -> c <> "+"%char ->
  PyFloat.split_sign (String c r) = (false, String c r).
Proof.
  intros Hm Hp.
  destruct c as [[] [] [] [] [] [] [] []]; try reflexivity;
    exfalso; first [apply Hm; reflexivity | apply Hp; reflexivity].
Qed.

Lemma drop_underscores_first (p q : ascii) (s : string) :
  PyStr.isdigit p = false -> PyStr.isdigit q = false ->
  Ascii.eqb p "_" = false -> Ascii.eqb q "_" = false ->
  PyFloat.drop_underscores p s = PyFloat.drop_underscores q s.
Proof.
  intros Hp Hq Hpu Hqu. destruct s as [|a s]; cbn [PyFloat.drop_underscores].
  - rewrite Hpu, Hqu. reflexivity.
  - rewrite Hp, Hq, Hpu, Hqu. reflexivity.
Qed.

Lemma rstrip_cons_nonspace (a : ascii) (s : string) :
  PyStr.isspace a = false -> PyStr.rstrip (String a s) = String a (PyStr.rstrip s).
Proof.
  intros Ha. cbn [PyStr.rstrip]. destruct (PyStr.rstrip s); [rewrite Ha|]; reflexivity.
Qed.

(** What the first character of an unsigned literal is not. *)
Lemma unsigned_start_facts (c : ascii) :
  PyStr.isdigit c = true \/ c = "."%char ->
  c <> "-"%char /\ c <> "+"%char /\ PyStr.isspace c = false /\
  Ascii.eqb c "_" = false /\ Ascii.eqb "(" c = false.
Proof.
  intros [H| ->]; [|repeat split; try discriminate; reflexivity].
  repeat split.
  - intros ->. discriminate H.
  - intros ->. discriminate H.
  - destruct (PyStr.isspace c) eqn:E; [|reflexivity]. exfalso.
    unfold PyStr.isspace, PyStr.isdigit, PyStr.in_range in *.
    apply andb_true_iff in H as [H1 H2]. apply N.leb_le in H1, H2.
    apply orb_true_iff in E as [E|E]; apply andb_true_iff in E as [E1 E2];
      apply N.leb_le in E1, E2; lia.
  - destruct (Ascii.eqb_spec c "_") as [->|]; [discriminate H | reflexivity].
  - destruct (Ascii.eqb_spec "(" c) as [<-|]; [discriminate H | reflexivity].
Qed.

Lemma of_string_minus (c : ascii) (t : string) :
  PyStr.isdigit c = true \/ c = "."%char ->
  PyFloat.of_string (String "-" (String c t))
  = option_map SFopp (PyFloat.of_string (String c t)).
Proof.
  intros Hc. destruct (unsigned_start_facts c Hc) as (Hm & Hp & Hsp & Hu & _).
  unfold PyFloat.of_string.
  change (PyFloat.drop_underscores Ascii.zero (String "-" (String c t)))
    with (option_map (String "-") (PyFloat.drop_underscores "-" (String c t))).
  rewrite (drop_underscores_first "-" Ascii.zero (String c t)) by reflexivity.
  cbn [PyFloat.drop_underscores]. rewrite Hu.
  change (Ascii.eqb Ascii.zero "_") with false. cbn [andb].
  destruct (PyFloat.drop_underscores c t) as [t1|]; [|reflexivity].
  cbn [option_map]. unfold PyStr.strip. cbn [PyStr.lstrip]. rewrite Hsp.
  change (PyStr.isspace "-") with false. cbv iota.
  rewrite (rstrip_cons_nonspace "-") by reflexivity.
  rewrite (rstrip_cons_nonspace c _ Hsp).
  change (PyFloat.split_sign (String "-" ?r)) with (true, r).
  rewrite (split_sign_unsigned c _ Hm Hp).
  destruct (PyFloat.parse_number (String c (PyStr.rstrip t1))) as [[m e]|].
  - cbn [option_map]. rewrite of_decimal_opp. reflexivity.
  - apply parse_inf_or_nan_opp.
Qed.

(** Accounting notation negates: when [float] reads an unsigned text (one
    that starts with a digit or a point and holds no comma or space) as [f],
    the plain cell gives [f] and the same text in parentheses gives [-f]. *)
Theorem parenthesised_is_negated
        (pd_to_numeric : string -> option PyFloat.float)
        (c : ascii) (t : string) (f : PyFloat.float) :
  PyStr.isdigit c = true \/ c = "."%char ->
  PyStr.remove_char " " (PyStr.remove_char "," (String c t)) = String c t ->
  PyFloat.of_string (String c t) = Some f ->
  to_numeric_value pd_to_numeric (Val (String c t)) = Float f /\
  to_numeric_value pd_to_numeric
    (Val (String "(" (String c t ++ String ")" EmptyString)))
  = Float (SFopp f).
Proof.
  intros Hc Hclean Hf.
  destruct (unsigned_start_facts c Hc) as (_ & _ & Hsp & _ & Hpar).
  split.
  - unfold to_numeric_value. cbn [pd_isna str orb].
    destruct (String.eqb_spec (PyStr.strip (String c t)) "") as [E|_].
    { exfalso. apply strip_empty_lstrip in E. cbn [PyStr.lstrip] in E.
      rewrite Hsp in E. discriminate. }
    rewrite Hclean. cbn [PyStr.startswith]. rewrite Hpar. cbn [andb].
    rewrite Hf. reflexivity.
  - unfold to_numeric_value. cbn [pd_isna str orb].
    set (whole := String "(" (String c t ++ String ")" EmptyString)).
    destruct (String.eqb_spec (PyStr.strip whole) "") as [E|_].
    { exfalso. apply strip_empty_lstrip in E. discriminate E. }
    assert (PyStr.remove_char " " (PyStr.remove_char "," whole) = whole) as Hw.
    { subst whole.
      change (String "(" (String c t ++ String ")" ""))
        with (String "(" "" ++ (String c t ++ String ")" ""))%string.
      rewrite !remove_char_app, Hclean. reflexivity. }
    rewrite Hw.
    assert (wrapped whole (String c t)) as Hwr by reflexivity.
    rewrite (proj2 (wrapped_test whole)) by eauto.
    rewrite (wrapped_slice whole (String c t) Hwr).
    rewrite (of_string_minus c t Hc), Hf. reflexivity.
Qed.

Lemma parenthesised_is_negated_witness :
  to_numeric_value no_numeric (Val "1234.50") = Float (PyFloat.of_decimal false 123450 (-2)) /\
  to_numeric_value no_numeric (Val "(1234.50)")
  = Float (SFopp (PyFloat.of_decimal false 123450 (-2))).
Proof.
  apply (parenthesised_is_negated no_numeric "1" "234.50").
  - left. reflexivity.
  - reflexivity.
  - vm_compute. reflexivity.
Defined.

(** ** When the transform succeeds, and what it reads *)

Lemma pick_column_Some_iff (cols candidates : list string) :
  (exists h, _pick_column cols candidates = Some h) <->
  (exists c, c ∈ candidates /\ exact_match cols c) \/
  (exists h, h ∈ cols /\ substring_match candidates h).
Proof.
  unfold _pick_column. split.
  - intros [h H].
    destruct (exact_loop (lower_map cols) candidates) as [h0|] eqn:E.
    + left. apply exact_loop_Some in E as (c & Hc & Hl).
      exists c. split; [exact Hc|]. apply exact_match_keys.
      exists h0. apply lookup_exact_match. exact Hl.
    + right. exists h. apply substring_loop_Some. exact H.
  - intros H.
    destruct (exact_loop (lower_map cols) candidates) as [h0|] eqn:E; [eauto|].
    destruct (substring_loop cols candidates) as [h1|] eqn:S; [eauto|].
    exfalso. destruct H as [(c & Hc & Hex)|(h & Hh & Hs)].
    + apply (lookup_None_no_exact_match cols c); [|exact Hex].
      exact (exact_loop_None_inv _ _ E c Hc).
    + exact (substring_loop_None_inv _ _ S h Hh Hs).
Qed.

(** The transform succeeds exactly when each of the four alias lists is
    found among the headers, by an exact match or inside a header. *)
Theorem process_dataframe_succeeds_iff
        (pd_to_numeric : string -> option PyFloat.float)
        (pd_to_datetime : string -> option PyDate.date) (pf : Platform) (df : DataFrame) :
  (exists out dbg,
      process_dataframe pd_to_numeric pd_to_datetime pf df = inr (out, dbg)) <->
  Forall
    (fun candidates =>
       (exists c, c ∈ candidates /\ exact_match (columns df) c) \/
       (exists h, h ∈ columns df /\ substring_match candidates h))
    [CUST_ID_COL_CANDIDATES; TRANS_NO_COL_CANDIDATES;
     DATE_COL_CANDIDATES; BALANCE_COL_CANDIDATES].
Proof.
  split.
  - intros (out & dbg & H).
    destruct (success_detects_all _ _ _ _ _ _ H) as (c1 & c2 & c3 & c4 & P1 & P2 & P3 & P4).
    do 4 (constructor; [apply pick_column_Some_iff; eauto|]). constructor.
  - intros H.
    apply Forall_cons in H as [H1 H]. apply Forall_cons in H as [H2 H].
    apply Forall_cons in H as [H3 H]. apply Forall_cons in H as [H4 _].
    apply pick_column_Some_iff in H1 as [c1 P1], H2 as [c2 P2],
        H3 as [c3 P3], H4 as [c4 P4].
    do 2 eexists.
    exact (process_dataframe_closed_form _ _ _ df c1 c2 c3 c4 P1 P2 P3 P4).
Qed.

Lemma process_dataframe_succeeds_iff_witness :
  exists out dbg,
    process_dataframe no_numeric no_datetime pandas2_glibc
      (mkframe ["Txn Date"; "Closing Balance"; "customer_id "; "Transaction_Number"] [])
    = inr (out, dbg).
Proof.
  assert (Hsub : forall h c, PyStr.contains (squash c) (squash h) = true ->
                             contains_alias h c)
    by (intros h c E; apply contains_alias_iff, contains_spec; exact E).
  assert (Hkey : forall h c, norm_key h = norm_key c -> exact_alias h c)
    by (intros h c; apply exact_alias_iff).
  apply (proj2 (process_dataframe_succeeds_iff no_numeric no_datetime pandas2_glibc _)).
  cbn [columns].
  constructor; [|constructor; [|constructor; [|constructor; [|constructor]]]].
  - left. exists "customer_id". split; [left|].
    exists "customer_id ". split; [do 2 right; left | apply Hkey; reflexivity].
  - left. exists "transaction_number". split; [left|].
    exists "Transaction_Number". split; [do 3 right; left | apply Hkey; reflexivity].
  - right. exists "Txn Date". split; [left|].
    exists "date". split; [left | apply Hsub; reflexivity].
  - right. exists "Closing Balance". split; [right; left|].
    exists "balance". split; [left | apply Hsub; reflexivity].
Defined.

Lemma map_filter_related {A B : Type} (f f' : A -> B) (k k' : A -> bool)
      (l l' : list A) :
  Forall2 (fun r r' => f r = f' r' /\ k r = k' r') l l' ->
  map f (List.filter k l) = map f' (List.filter k' l') /\
  length (List.filter k l) = length (List.filter k' l').
Proof.
  induction 1 as [|r r' l l' [Hf Hk] _ [IH1 IH2]]; simpl; [split; reflexivity|].
  rewrite <- Hk. destruct (k r); simpl; rewrite ?Hf, ?IH1, ?IH2; split; reflexivity.
Qed.

(** Only the cells under the four detected headers are read: two frames
    with the same headers whose rows agree, one by one, on those cells give
    the same result. *)
Theorem process_dataframe_reads_detected_columns
        (pd_to_numeric : string -> option PyFloat.float)
        (pd_to_datetime : string -> option PyDate.date) (pf : Platform) (df df' : DataFrame) :
  columns df = columns df' ->
  Forall2
    (fun r r' =>
       forall candidates c,
         In candidates [CUST_ID_COL_CANDIDATES; TRANS_NO_COL_CANDIDATES;
                        DATE_COL_CANDIDATES; BALANCE_COL_CANDIDATES] ->
         _pick_column (columns df) candidates = Some c ->
         cell_at df c r = cell_at df' c r')
    (rows df) (rows df') ->
  process_dataframe pd_to_numeric pd_to_datetime pf df
  = process_dataframe pd_to_numeric pd_to_datetime pf df'.
Proof.
  intros Hcols Hrows.
  destruct (process_dataframe pd_to_numeric pd_to_datetime pf df) as [e|[out dbg]] eqn:H.
  - symmetry. revert H. unfold process_dataframe. rewrite <- Hcols.
    destruct (_pick_column (columns df) CUST_ID_COL_CANDIDATES);
      destruct (_pick_column (columns df) TRANS_NO_COL_CANDIDATES);
      destruct (_pick_column (columns df) DATE_COL_CANDIDATES);
      destruct (_pick_column (columns df) BALANCE_COL_CANDIDATES);
      first [discriminate | intros <-; reflexivity].
  - destruct (success_detects_all _ _ _ _ _ _ H) as (c1 & c2 & c3 & c4 & P1 & P2 & P3 & P4).
    rewrite (process_dataframe_closed_form _ _ _ df c1 c2 c3 c4 P1 P2 P3 P4) in H.
    rewrite <- H. symmetry.
    pose proof P1 as Q1. pose proof P2 as Q2. pose proof P3 as Q3. pose proof P4 as Q4.
    rewrite Hcols in Q1, Q2, Q3, Q4.
    rewrite (process_dataframe_closed_form _ _ _ df' c1 c2 c3 c4 Q1 Q2 Q3 Q4).
    cbv zeta.
    assert (Forall2
              (fun r r' =>
                 row_of pd_to_numeric pd_to_datetime pf df c1 c2 c3 c4 r
                 = row_of pd_to_numeric pd_to_datetime pf df' c1 c2 c3 c4 r' /\
                 survives pd_to_numeric df c4 r = survives pd_to_numeric df' c4 r')
              (rows df) (rows df')) as Hrel.
    { eapply Forall2_impl; [exact Hrows|]. intros r r' Hr.
      unfold row_of, survives, normalized_balance.
      rewrite <- (Hr CUST_ID_COL_CANDIDATES c1) by (first [exact P1 | cbn; tauto]).
      rewrite <- (Hr TRANS_NO_COL_CANDIDATES c2) by (first [exact P2 | cbn; tauto]).
      rewrite <- (Hr DATE_COL_CANDIDATES c3) by (first [exact P3 | cbn; tauto]).
      rewrite <- (Hr BALANCE_COL_CANDIDATES c4) by (first [exact P4 | cbn; tauto]).
      split; reflexivity. }
    assert (length (rows df) = length (rows df')) as Hlen
      by (eapply Forall2_length; exact Hrows).
    destruct (map_filter_related _ _ _ _ _ _ Hrel) as [Hmap Hfl].
    assert (forall (B : Type) (g : OutRow -> B),
               map (fun r => g (row_of pd_to_numeric pd_to_datetime pf df' c1 c2 c3 c4 r))
                 (List.filter (survives pd_to_numeric df' c4) (rows df'))
               = map (fun r => g (row_of pd_to_numeric pd_to_datetime pf df c1 c2 c3 c4 r))
                   (List.filter (survives pd_to_numeric df c4) (rows df))) as Hg.
    { intros B g. pose proof (f_equal (map g) Hmap) as E.
      rewrite !map_map in E. symmetry. exact E. }
    pose proof (Hg _ row_balance) as Hb.
    rewrite (Hg _ row_debtor), (Hg _ row_type), (Hg _ row_number), (Hg _ row_date), Hb.
    rewrite Hlen, Hfl. reflexivity.
Qed.

Lemma process_dataframe_reads_detected_columns_witness :
  process_dataframe no_numeric no_datetime pandas2_glibc
    (mkframe ["customer_id"; "note"; "transaction_number"; "date"; "balance"]
       [[Val "CUST000123456"; Val "first"; Val "TXN1"; Val "07/03/2024"; Val "1,200.00"]])
  = process_dataframe no_numeric no_datetime pandas2_glibc
      (mkframe ["customer_id"; "note"; "transaction_number"; "date"; "balance"]
         [[Val "CUST000123456"; Missing; Val "TXN1"; Val "07/03/2024"; Val "1,200.00"]]).
Proof.
  apply process_dataframe_reads_detected_columns; [reflexivity|].
  constructor; [|constructor].
  intros candidates c Hin Hp. cbn [In] in Hin. cbn [columns] in Hp.
  destruct Hin as [<-|[<-|[<-|[<-|[]]]]]; vm_compute in Hp; injection Hp as <-;
    reflexivity.
Defined.

(** C1: column detection is the two-phase algorithm. If some candidate's
    lower-cased, trimmed form equals a lower-cased, trimmed header, the
    answer is an original header of the table equal in that sense to the
    first such candidate in list order, whatever the substring phase would
    say; otherwise it is the first header, in table order, whose lower-cased
    form with the spaces taken out contains the like form of some
    candidate; otherwise it is absent. *)
Theorem pick_column_two_phase (cols candidates : list string) :
  (forall pre cand post,
      candidates = pre ++ cand :: post ->
      (forall c h, c ∈ pre -> h ∈ cols -> ~ exact_alias h c) ->
      (exists h, h ∈ cols /\ exact_alias h cand) ->
      exists h, _pick_column cols candidates = Some h /\
                h ∈ cols /\ exact_alias h cand) /\
  ((forall c h, c ∈ candidates -> h ∈ cols -> ~ exact_alias h c) ->
   (forall pre h post,
       cols = pre ++ h :: post ->
       (forall h' c, h' ∈ pre -> c ∈ candidates -> ~ contains_alias h' c) ->
       (exists c, c ∈ candidates /\ contains_alias h c) ->
       _pick_column cols candidates = Some h) /\
   ((forall h c, h ∈ cols -> c ∈ candidates -> ~ contains_alias h c) ->
    _pick_column cols candidates = None)).
Proof.
  assert (He : forall c, exact_match cols c <-> exists h, h ∈ cols /\ exact_alias h c).
  { intros c. unfold exact_match. split; exact (fun H => H). }
  assert (Hs : forall h, substring_match candidates h <->
                         exists c, c ∈ candidates /\ contains_alias h c).
  { intros h. unfold substring_match. split; exact (fun H => H). }
  destruct (pick_column_phases cols candidates) as [P1 P2].
  split.
  - intros pre cand post Hc Hpre Hex.
    destruct (P1 pre cand post Hc) as (h & Hp & Hin & Hk).
    + intros c Hcin Hm. apply He in Hm as (h & Hin & Ha).
      exact (Hpre c h Hcin Hin Ha).
    + apply He. exact Hex.
    + exists h. split; [exact Hp|]. split; [exact Hin|].
      apply exact_alias_iff. exact Hk.
  - intros Hno. destruct P2 as [Q1 Q2].
    + intros c Hc Hm. apply He in Hm as (h & Hin & Ha). exact (Hno c h Hc Hin Ha).
    + split.
      * intros pre h post Hcols Hpre Hh. apply (Q1 pre h post Hcols).
        -- intros h' Hh' Hm. apply Hs in Hm as (c & Hc & Ha).
           exact (Hpre h' c Hh' Hc Ha).
        -- apply Hs. exact Hh.
      * intros Hnone. apply Q2. intros h Hh Hm. apply Hs in Hm as (c & Hc & Ha).
        exact (Hnone h c Hh Hc Ha).
Qed.

Lemma pick_column_two_phase_witness :
  (exists h, _pick_column ["Date"; " Balance "] ["amount"; "BALANCE"] = Some h /\
             h ∈ ["Date"; " Balance "] /\ exact_alias h "BALANCE") /\
  _pick_column ["Cust Name"; "Clos ing Bal ance"; "Balance B/F"] ["balance"]
    = Some "Clos ing Bal ance" /\
  _pick_column ["Customer"; "TxnDate"] ["txn date"] = Some "TxnDate" /\
  _pick_column ["a"; "b"] ["balance"] = None.
Proof.
  assert (Hex : forall c h,
             String.eqb (norm_key h) (norm_key c) = false -> ~ exact_alias h c).
  { intros c h E H. apply exact_alias_iff in H.
    rewrite H, String.eqb_refl in E. discriminate. }
  assert (Hns : forall h c,
             PyStr.contains (squash c) (squash h) = false -> ~ contains_alias h c).
  { intros h c E H. apply contains_alias_iff, contains_spec in H. congruence. }
  assert (Hys : forall h c,
             PyStr.contains (squash c) (squash h) = true -> contains_alias h c).
  { intros h c E. apply contains_alias_iff, contains_spec. exact E. }
  split; [|split; [|split]].
  - apply (proj1 (pick_column_two_phase ["Date"; " Balance "] ["amount"; "BALANCE"])
             ["amount"] "BALANCE" []); [reflexivity | |].
    + intros c h Hc Hh. apply list_elem_of_In in Hc, Hh.
      destruct Hc as [<-|[]]. destruct Hh as [<-|[<-|[]]];
        apply Hex; vm_compute; reflexivity.
    + exists " Balance ". split; [right; left|].
      apply exact_alias_iff. vm_compute. reflexivity.
  - refine (proj1 (proj2 (pick_column_two_phase
                            ["Cust Name"; "Clos ing Bal ance"; "Balance B/F"]
                            ["balance"]) _)
              ["Cust Name"] "Clos ing Bal ance" ["Balance B/F"] eq_refl _ _).
    + intros c h Hc Hh. apply list_elem_of_In in Hc, Hh.
      destruct Hc as [<-|[]]. destruct Hh as [<-|[<-|[<-|[]]]];
        apply Hex; vm_compute; reflexivity.
    + intros h c Hh Hc. apply list_elem_of_In in Hc, Hh.
      destruct Hc as [<-|[]]. destruct Hh as [<-|[]].
      apply Hns. vm_compute. reflexivity.
    + exists "balance". split; [left|]. apply Hys. vm_compute. reflexivity.
  - refine (proj1 (proj2 (pick_column_two_phase ["Customer"; "TxnDate"] ["txn date"]) _)
              ["Customer"] "TxnDate" [] eq_refl _ _).
    + intros c h Hc Hh. apply list_elem_of_In in Hc, Hh.
      destruct Hc as [<-|[]]. destruct Hh as [<-|[<-|[]]];
        apply Hex; vm_compute; reflexivity.
    + intros h c Hh Hc. apply list_elem_of_In in Hc, Hh.
      destruct Hc as [<-|[]]. destruct Hh as [<-|[]].
      apply Hns. vm_compute. reflexivity.
    + exists "txn date". split; [left|]. apply Hys. vm_compute. reflexivity.
  - refine (proj2 (proj2 (pick_column_two_phase ["a"; "b"] ["balance"]) _) _).
    + intros c h Hc Hh. apply list_elem_of_In in Hc, Hh.
      destruct Hc as [<-|[]]. destruct Hh as [<-|[<-|[]]];
        apply Hex; vm_compute; reflexivity.
    + intros h c Hh Hc. apply list_elem_of_In in Hc, Hh.
      destruct Hc as [<-|[]]. destruct Hh as [<-|[<-|[]]];
        apply Hns; vm_compute; reflexivity.
Defined.
